(** * SyncBus: frame codec, client and server slot dispatch

    A shallow embedding of [SyncBus.hpp].  Fixed-width integers are values of
    [Z] with the truncating casts written out ([u8], [u16]); byte buffers are
    lists of [Z] read and written by index; application memory is a total
    map from addresses to bytes; callbacks are functions on the world the
    objects live in. *)

From Stdlib Require Import ZArith Lia Bool.
From stdpp Require Import base list.

Local Open Scope Z_scope.

(** ** Fixed-width integers and raw buffers *)

(** [static_cast<uint8_t>] and [static_cast<uint16_t>]. *)
Definition u8 (x : Z) : Z := x mod 256.
Definition u16 (x : Z) : Z := x mod 65536.

Definition is_u8 (x : Z) : Prop := 0 <= x < 256.
Definition is_u16 (x : Z) : Prop := 0 <= x < 65536.
Definition is_u32 (x : Z) : Prop := 0 <= x < 4294967296.

(** [buff[pos]] for a byte buffer; a read past the modelled storage yields 0. *)
Definition rd (buff : list Z) (pos : Z) : Z :=
  default 0 (buff !! Z.to_nat pos).

(** [buff[pos] = v]; a store past the modelled storage is dropped. *)
Definition wr (buff : list Z) (pos : Z) (v : Z) : list Z :=
  <[Z.to_nat pos := v]> buff.

(** ** Frame layout *)

Definition FrameServerId : Z := 0.
Definition FrameSlotId : Z := 4.
Definition FrameFunction : Z := 5.
Definition FrameData : Z := 6.
Definition HeaderSize : Z := 6.

Inductive SyncBusFunc : Type := GetReq | SetReq | GetResp | SetResp.

(** The enumerators' underlying [uint8_t] values. *)
Definition func_code (f : SyncBusFunc) : Z :=
  match f with GetReq => 0 | SetReq => 1 | GetResp => 2 | SetResp => 3 end.

Inductive result : Type := ok | errOverflow | errCrc | errFault.

(** ** Endianness helpers *)

Definition write_le32 (dst : list Z) (off : Z) (v : Z) : list Z :=
  let dst := wr dst (off + 0) (u8 (Z.land v 255)) in
  let dst := wr dst (off + 1) (u8 (Z.land (Z.shiftr v 8) 255)) in
  let dst := wr dst (off + 2) (u8 (Z.land (Z.shiftr v 16) 255)) in
  wr dst (off + 3) (u8 (Z.land (Z.shiftr v 24) 255)).

Definition read_le32 (src : list Z) (off : Z) : Z :=
  Z.lor (Z.lor (Z.lor (rd src (off + 0)) (Z.shiftl (rd src (off + 1)) 8))
               (Z.shiftl (rd src (off + 2)) 16))
        (Z.shiftl (rd src (off + 3)) 24).

(** ** CRC16 (Modbus) *)

(** One pass of the inner loop body: test the low bit, shift, conditionally
    fold in the polynomial. *)
Definition crc_shift (crc : Z) : Z :=
  let lsb := negb (Z.land crc 1 =? 0) in
  let crc := Z.shiftr crc 1 in
  if lsb then u16 (Z.lxor crc 40961) else crc.

(** One pass of the outer loop body on the byte [b]. *)
Definition crc_byte (crc : Z) (b : Z) : Z :=
  Nat.iter 8 crc_shift (u16 (Z.lxor crc b)).

(** The outer loop, [n] iterations left, starting at index [pos]. *)
Fixpoint crc_loop (buff : list Z) (pos : Z) (n : nat) (crc : Z) : Z :=
  match n with
  | O => crc
  | S n' => crc_loop buff (pos + 1) n' (crc_byte crc (rd buff pos))
  end.

Definition crc16 (buff : list Z) (len : Z) : Z :=
  crc_loop buff 0 (Z.to_nat len) 65535.

Definition crc_lo (crc : Z) : Z := u8 (Z.land crc 255).
Definition crc_hi (crc : Z) : Z := u8 (Z.land (Z.shiftr crc 8) 255).

(** Returns the updated buffer and the new length ([len] is a [uint8_t], so
    each [len++] wraps). *)
Definition genCRC16 (buff : list Z) (len : Z) : list Z * Z :=
  let crc := crc16 buff len in
  let lo := crc_lo crc in
  let hi := crc_hi crc in
  let buff := wr buff len lo in
  let len := u8 (len + 1) in
  let buff := wr buff len hi in
  let len := u8 (len + 1) in
  (buff, len).

Definition checkCRC16 (buff : list Z) (len : Z) : bool :=
  if len <? 2 then false
  else
    let body := u8 (len - 2) in
    let crc := crc16 buff body in
    let lo := crc_lo crc in
    let hi := crc_hi crc in
    (rd buff (len - 2) =? lo) && (rd buff (len - 1) =? hi).


(** ** Application memory

    Slot records hold raw pointers into memory owned by the application.
    Addresses are integers, [nullptr] is 0, and two registered regions may
    overlap. *)

Definition memory : Type := Z -> Z.

Definition nullptr : Z := 0.

(** The [n] bytes found at address [p]. *)
Definition mem_read (m : memory) (p : Z) (n : Z) : list Z :=
  map (fun k => m (p + Z.of_nat k)) (seq 0 (Z.to_nat n)).

(** [memcpy(p, src, length src)] into application memory. *)
Definition mem_write (m : memory) (p : Z) (src : list Z) : memory :=
  fun a =>
    if (p <=? a) && (a <? p + Z.of_nat (length src))
    then default 0 (src !! Z.to_nat (a - p))
    else m a.

(** The [n] bytes [&buff[off]], [&buff[off + 1]], ... of a byte buffer. *)
Definition buf_read (buff : list Z) (off : Z) (n : Z) : list Z :=
  map (fun k => rd buff (off + Z.of_nat k)) (seq 0 (Z.to_nat n)).

(** [memcpy(&buff[off], src, length src)] into a byte buffer. *)
Definition buf_write (buff : list Z) (off : Z) (src : list Z) : list Z :=
  list_inserts (Z.to_nat off) src buff.

(** ** Slot records *)

Module serverData_t.
Record t : Type := mk { data : Z; serverId : Z; slotId : Z; size : Z }.
End serverData_t.

Module clientSlot_t.
Record t : Type := mk { data : Z; slotId : Z; size : Z }.
End clientSlot_t.

(** ** Object state

    The data members of the two class templates.  The callback members are
    fixed at construction and are parameters of the member functions
    below. *)

Module SyncBusClient.
Record t : Type := mk {
  m_numSlots : Z;
  m_serveSlots : list serverData_t.t;
  m_buffer : list Z
}.
End SyncBusClient.

Module SyncBusServer.
Record t : Type := mk {
  m_serverId : Z;
  m_numSlots : Z;
  m_clientSlots : list clientSlot_t.t;
  m_buffer : list Z
}.
End SyncBusServer.

(** ** The world and the callbacks

    A callback is arbitrary application code: it may touch application
    memory and call back into either object.  The world therefore holds the
    memory, one client, one server, and a log of observable events. *)

Inductive party : Type := Client | Server.

Inductive event : Type :=
| EvSend (who : party) (data : list Z) (size : Z)
| EvChanged (who : party) (slotId : Z)
| EvReturn (who : party) (r : result).

Record World : Type := mkWorld {
  heap : memory;
  client : SyncBusClient.t;
  server : SyncBusServer.t;
  trace : list event
}.

Definition set_heap (h : memory) (w : World) : World :=
  mkWorld h (client w) (server w) (trace w).

Definition set_client (c : SyncBusClient.t) (w : World) : World :=
  mkWorld (heap w) c (server w) (trace w).

Definition set_server (s : SyncBusServer.t) (w : World) : World :=
  mkWorld (heap w) (client w) s (trace w).

Definition log (e : event) (w : World) : World :=
  mkWorld (heap w) (client w) (server w) (trace w ++ [e]).

(** [data] is the storage the pointer argument refers to. *)
Definition SyncBusSendData_cb : Type := list Z -> Z -> World -> World.
Definition SyncBusDataChanged_cb : Type := Z -> World -> World.

(** [if (cb != nullptr) cb(...)]. *)
Definition call_send (cb : option SyncBusSendData_cb)
    (data : list Z) (size : Z) (w : World) : World :=
  match cb with Some f => f data size w | None => w end.

Definition call_changed (cb : option SyncBusDataChanged_cb)
    (slotId : Z) (w : World) : World :=
  match cb with Some f => f slotId w | None => w end.

(** Table access [m_serveSlots[i]] and [m_clientSlots[i]]. *)
Definition null_serverData : serverData_t.t := serverData_t.mk nullptr 0 0 0.
Definition null_clientSlot : clientSlot_t.t := clientSlot_t.mk nullptr 0 0.

Definition serveSlot (c : SyncBusClient.t) (i : Z) : serverData_t.t :=
  default null_serverData (SyncBusClient.m_serveSlots c !! Z.to_nat i).

Definition clientSlot (s : SyncBusServer.t) (i : Z) : clientSlot_t.t :=
  default null_clientSlot (SyncBusServer.m_clientSlots s !! Z.to_nat i).

Definition client_with_buffer (c : SyncBusClient.t) (buf : list Z) : SyncBusClient.t :=
  SyncBusClient.mk (SyncBusClient.m_numSlots c) (SyncBusClient.m_serveSlots c) buf.

Definition server_with_buffer (s : SyncBusServer.t) (buf : list Z) : SyncBusServer.t :=
  SyncBusServer.mk (SyncBusServer.m_serverId s) (SyncBusServer.m_numSlots s)
    (SyncBusServer.m_clientSlots s) buf.

(** The three header stores every frame builder performs. *)
Definition put_header (buf : list Z) (serverId slotId : Z) (f : SyncBusFunc) : list Z :=
  let buf := write_le32 buf FrameServerId serverId in
  let buf := wr buf FrameSlotId slotId in
  wr buf FrameFunction (func_code f).

(** [for (uint8_t i = 0; i < m_numSlots; ++i) if (matches(i)) { ...; break; }]:
    the index at which the loop body runs, if any.  [n] iterations are left
    and [i] is the loop counter. *)
Fixpoint first_match (matches : Z -> bool) (i : Z) (n : nat) : option Z :=
  match n with
  | O => None
  | S n' => if matches i then Some i else first_match matches (u8 (i + 1)) n'
  end.

(** ** Member functions *)

Section Config.

(** Build-time configuration: the two macros of the header. *)
Variable PROTO_BUS_BUFFER_SIZE : Z.
Variable SyncBus_ENABLE_SET_ACK : bool.

(** *** Client *)

Section ClientMethods.

(** Template parameter and the callbacks given to the constructor. *)
Variable numSlots : Z.
Variable m_sendData_cb : option SyncBusSendData_cb.
Variable m_dataChanged_cb : option SyncBusDataChanged_cb.

(** The constructor sets the count to zero; the two arrays keep whatever
    their storage held. *)
Definition Client_new (slots0 : list serverData_t.t) (buf0 : list Z) : SyncBusClient.t :=
  SyncBusClient.mk 0 slots0 buf0.

Definition Client_getData (serverId slot : Z) (w : World) : result * World :=
  let c := client w in
  if slot >=? SyncBusClient.m_numSlots c then (errOverflow, w)
  else if serverData_t.data (serveSlot c slot) =? nullptr then (errFault, w)
  else if u16 HeaderSize + 2 >? PROTO_BUS_BUFFER_SIZE then (errOverflow, w)
  else
    let buf := put_header (SyncBusClient.m_buffer c) serverId
                 (serverData_t.slotId (serveSlot c slot)) GetReq in
    let '(buf, size) := genCRC16 buf HeaderSize in
    let w := set_client (client_with_buffer c buf) w in
    let w := call_send m_sendData_cb buf size w in
    (ok, w).

Definition Client_setData (serverId slot : Z) (w : World) : result * World :=
  let c := client w in
  if slot >=? SyncBusClient.m_numSlots c then (errOverflow, w)
  else if serverData_t.data (serveSlot c slot) =? nullptr then (errFault, w)
  else
    let payload := serverData_t.size (serveSlot c slot) in
    let totalNoCrc := u16 (u16 HeaderSize + u16 payload) in
    if totalNoCrc + 2 >? PROTO_BUS_BUFFER_SIZE then (errOverflow, w)
    else
      let buf := put_header (SyncBusClient.m_buffer c) serverId
                   (serverData_t.slotId (serveSlot c slot)) SetReq in
      let buf := buf_write buf FrameData
                   (mem_read (heap w) (serverData_t.data (serveSlot c slot)) payload) in
      let '(buf, size) := genCRC16 buf (u8 totalNoCrc) in
      let w := set_client (client_with_buffer c buf) w in
      let w := call_send m_sendData_cb buf size w in
      (ok, w).

Definition Client_inputData (data : list Z) (size : Z) (w : World) : result * World :=
  if size <? u8 (HeaderSize + 2) then (errFault, w)
  else if negb (checkCRC16 data size) then (errCrc, w)
  else
    let serverId := read_le32 data FrameServerId in
    let function := rd data FrameFunction in
    let slotId := rd data FrameSlotId in
    let payloadLen := u8 (size - HeaderSize - 2) in
    if function =? func_code GetResp then
      let c := client w in
      match first_match
              (fun i => (serverData_t.serverId (serveSlot c i) =? serverId)
                        && (serverData_t.slotId (serveSlot c i) =? slotId))
              0 (Z.to_nat (SyncBusClient.m_numSlots c)) with
      | Some i =>
          if negb (payloadLen =? serverData_t.size (serveSlot c i)) then (errFault, w)
          else
            let w := set_heap (mem_write (heap w) (serverData_t.data (serveSlot c i))
                                 (buf_read data FrameData payloadLen)) w in
            let w := call_changed m_dataChanged_cb slotId w in
            (ok, w)
      | None => (ok, w)
      end
    else if function =? func_code SetResp then (ok, w)
    else (ok, w).

Definition Client_addData (data serverId slotId size : Z) (w : World) : result * World :=
  let c := client w in
  if data =? nullptr then (errFault, w)
  else if SyncBusClient.m_numSlots c >=? numSlots then (errOverflow, w)
  else if u16 HeaderSize + size + 2 >? PROTO_BUS_BUFFER_SIZE then (errOverflow, w)
  else
    let slots := <[Z.to_nat (SyncBusClient.m_numSlots c) :=
                     serverData_t.mk data serverId slotId size]>
                   (SyncBusClient.m_serveSlots c) in
    let c := SyncBusClient.mk (u8 (SyncBusClient.m_numSlots c + 1)) slots
               (SyncBusClient.m_buffer c) in
    (ok, set_client c w).

End ClientMethods.

(** *** Server *)

Section ServerMethods.

Variable numSlots : Z.
Variable m_sendData_cb : option SyncBusSendData_cb.
Variable m_dataChanged_cb : option SyncBusDataChanged_cb.

Definition Server_new (id : Z) (slots0 : list clientSlot_t.t) (buf0 : list Z) : SyncBusServer.t :=
  SyncBusServer.mk id 0 slots0 buf0.

Definition Server_setId (serverId : Z) (w : World) : World :=
  let s := server w in
  set_server (SyncBusServer.mk serverId (SyncBusServer.m_numSlots s)
                (SyncBusServer.m_clientSlots s) (SyncBusServer.m_buffer s)) w.

Definition Server_inputData (data : list Z) (size : Z) (w : World) : result * World :=
  if size <? u8 (HeaderSize + 2) then (errFault, w)
  else if negb (checkCRC16 data size) then (errCrc, w)
  else
    let serverId := read_le32 data FrameServerId in
    if negb (serverId =? SyncBusServer.m_serverId (server w)) then (ok, w)
    else
      let slotId := rd data FrameSlotId in
      let function := rd data FrameFunction in
      let payloadLen := u8 (size - HeaderSize - 2) in
      let s := server w in
      if function =? func_code GetReq then
        match first_match (fun i => clientSlot_t.slotId (clientSlot s i) =? slotId)
                0 (Z.to_nat (SyncBusServer.m_numSlots s)) with
        | Some i =>
            let payload := clientSlot_t.size (clientSlot s i) in
            let totalNoCrc := u16 (u16 HeaderSize + payload) in
            if totalNoCrc + 2 >? PROTO_BUS_BUFFER_SIZE then (errOverflow, w)
            else
              let buf := put_header (SyncBusServer.m_buffer s)
                           (SyncBusServer.m_serverId s) slotId GetResp in
              let buf := buf_write buf FrameData
                           (mem_read (heap w) (clientSlot_t.data (clientSlot s i)) payload) in
              let '(buf, responseSize) := genCRC16 buf (u8 totalNoCrc) in
              let w := set_server (server_with_buffer s buf) w in
              let w := call_send m_sendData_cb buf responseSize w in
              (ok, w)
        | None => (ok, w)
        end
      else if function =? func_code SetReq then
        match first_match (fun i => clientSlot_t.slotId (clientSlot s i) =? slotId)
                0 (Z.to_nat (SyncBusServer.m_numSlots s)) with
        | Some i =>
            if negb (payloadLen =? clientSlot_t.size (clientSlot s i)) then (errFault, w)
            else
              let w := set_heap (mem_write (heap w) (clientSlot_t.data (clientSlot s i))
                                   (buf_read data FrameData payloadLen)) w in
              let w := call_changed m_dataChanged_cb slotId w in
              if SyncBus_ENABLE_SET_ACK then
                if u16 HeaderSize + 2 >? PROTO_BUS_BUFFER_SIZE then (errOverflow, w)
                else
                  let s := server w in
                  let buf := put_header (SyncBusServer.m_buffer s)
                               (SyncBusServer.m_serverId s) slotId SetResp in
                  let '(buf, ackSize) := genCRC16 buf HeaderSize in
                  let w := set_server (server_with_buffer s buf) w in
                  let w := call_send m_sendData_cb buf ackSize w in
                  (ok, w)
              else (ok, w)
        | None => (ok, w)
        end
      else (ok, w).

Definition Server_addSlot (data slotId size : Z) (w : World) : result * World :=
  let s := server w in
  if data =? nullptr then (errFault, w)
  else if SyncBusServer.m_numSlots s >=? numSlots then (errOverflow, w)
  else if u16 HeaderSize + size + 2 >? PROTO_BUS_BUFFER_SIZE then (errOverflow, w)
  else
    let slots := <[Z.to_nat (SyncBusServer.m_numSlots s) :=
                     clientSlot_t.mk data slotId size]>
                   (SyncBusServer.m_clientSlots s) in
    let s := SyncBusServer.mk (SyncBusServer.m_serverId s)
               (u8 (SyncBusServer.m_numSlots s + 1)) slots
               (SyncBusServer.m_buffer s) in
    (ok, set_server s w).

End ServerMethods.

End Config.

(** ** Callbacks used in the statements *)

(** An observer: records the invocation and does nothing else. *)
Definition log_send (who : party) : SyncBusSendData_cb :=
  fun data size w => log (EvSend who data size) w.

Definition log_changed (who : party) : SyncBusDataChanged_cb :=
  fun slotId w => log (EvChanged who slotId) w.

(** The wiring of [examples/example_1.cpp]: each side's send callback prints
    the frame and hands it to the peer's [inputData]; the change callbacks
    print.  Printing is recorded as an event, and so is the value the nested
    call returns (the example discards it). *)
Definition serverSend : SyncBusSendData_cb :=
  fun data size w =>
    let w := log (EvSend Server data size) w in
    let '(r, w) := Client_inputData (Some (log_changed Client)) data size w in
    log (EvReturn Client r) w.

Definition clientSend (PROTO_BUS_BUFFER_SIZE : Z) (SyncBus_ENABLE_SET_ACK : bool)
    : SyncBusSendData_cb :=
  fun data size w =>
    let w := log (EvSend Client data size) w in
    let '(r, w) :=
      Server_inputData PROTO_BUS_BUFFER_SIZE SyncBus_ENABLE_SET_ACK
        (Some serverSend) (Some (log_changed Server)) data size w in
    log (EvReturn Server r) w.

(** ** Invariants of the slot tables *)

Definition serverData_ok (PROTO_BUS_BUFFER_SIZE : Z) (e : serverData_t.t) : Prop :=
  serverData_t.data e <> nullptr /\
  0 <= serverData_t.size e /\
  HeaderSize + serverData_t.size e + 2 <= PROTO_BUS_BUFFER_SIZE.

Definition clientSlot_ok (PROTO_BUS_BUFFER_SIZE : Z) (e : clientSlot_t.t) : Prop :=
  clientSlot_t.data e <> nullptr /\
  0 <= clientSlot_t.size e /\
  HeaderSize + clientSlot_t.size e + 2 <= PROTO_BUS_BUFFER_SIZE.

(** The count is within the table, the arrays have their declared extents,
    and every registered entry is usable. *)
Definition client_inv (PROTO_BUS_BUFFER_SIZE numSlots : Z) (c : SyncBusClient.t) : Prop :=
  0 <= SyncBusClient.m_numSlots c <= numSlots /\
  length (SyncBusClient.m_serveSlots c) = Z.to_nat numSlots /\
  length (SyncBusClient.m_buffer c) = Z.to_nat PROTO_BUS_BUFFER_SIZE /\
  Forall (serverData_ok PROTO_BUS_BUFFER_SIZE)
    (take (Z.to_nat (SyncBusClient.m_numSlots c)) (SyncBusClient.m_serveSlots c)).

Definition server_inv (PROTO_BUS_BUFFER_SIZE numSlots : Z) (s : SyncBusServer.t) : Prop :=
  0 <= SyncBusServer.m_numSlots s <= numSlots /\
  length (SyncBusServer.m_clientSlots s) = Z.to_nat numSlots /\
  length (SyncBusServer.m_buffer s) = Z.to_nat PROTO_BUS_BUFFER_SIZE /\
  Forall (clientSlot_ok PROTO_BUS_BUFFER_SIZE)
    (take (Z.to_nat (SyncBusServer.m_numSlots s)) (SyncBusServer.m_clientSlots s)).

Definition world_inv (PROTO_BUS_BUFFER_SIZE numSlotsC numSlotsS : Z) (w : World) : Prop :=
  client_inv PROTO_BUS_BUFFER_SIZE numSlotsC (client w) /\
  server_inv PROTO_BUS_BUFFER_SIZE numSlotsS (server w).

(** ** Sequences of operations *)

Inductive op : Type :=
| OpClientAddData (data serverId slotId size : Z)
| OpClientGetData (serverId slot : Z)
| OpClientSetData (serverId slot : Z)
| OpClientInputData (data : list Z) (size : Z)
| OpServerAddSlot (data slotId size : Z)
| OpServerInputData (data : list Z) (size : Z)
| OpServerSetId (serverId : Z)
| OpAppStore (addr v : Z).

Record callbacks : Type := mkCallbacks {
  client_send : option SyncBusSendData_cb;
  client_changed : option SyncBusDataChanged_cb;
  server_send : option SyncBusSendData_cb;
  server_changed : option SyncBusDataChanged_cb
}.

Record config : Type := mkConfig {
  cfg_buffer_size : Z;
  cfg_set_ack : bool;
  cfg_client_slots : Z;
  cfg_server_slots : Z
}.

(** One call from the application, its return value dropped. *)
Definition run_op (cfg : config) (cb : callbacks) (o : op) (w : World) : World :=
  match o with
  | OpClientAddData data serverId slotId size =>
      snd (Client_addData (cfg_buffer_size cfg) (cfg_client_slots cfg)
             data serverId slotId size w)
  | OpClientGetData serverId slot =>
      snd (Client_getData (cfg_buffer_size cfg) (client_send cb) serverId slot w)
  | OpClientSetData serverId slot =>
      snd (Client_setData (cfg_buffer_size cfg) (client_send cb) serverId slot w)
  | OpClientInputData data size =>
      snd (Client_inputData (client_changed cb) data size w)
  | OpServerAddSlot data slotId size =>
      snd (Server_addSlot (cfg_buffer_size cfg) (cfg_server_slots cfg) data slotId size w)
  | OpServerInputData data size =>
      snd (Server_inputData (cfg_buffer_size cfg) (cfg_set_ack cfg)
             (server_send cb) (server_changed cb) data size w)
  | OpServerSetId serverId => Server_setId serverId w
  | OpAppStore addr v => set_heap (mem_write (heap w) addr [v]) w
  end.

Definition run (cfg : config) (cb : callbacks) (ops : list op) (w : World) : World :=
  fold_left (fun w o => run_op cfg cb o w) ops w.

(** The sizes passed to the registration calls are [uint8_t] values. *)
Definition op_typed (o : op) : Prop :=
  match o with
  | OpClientAddData _ _ _ size => is_u8 size
  | OpServerAddSlot _ _ size => is_u8 size
  | _ => True
  end.

(** A callback that keeps the slot-table invariants, whatever else it does. *)
Definition send_keeps (P : World -> Prop) (cb : option SyncBusSendData_cb) : Prop :=
  forall data size w, P w -> P (call_send cb data size w).

Definition changed_keeps (P : World -> Prop) (cb : option SyncBusDataChanged_cb) : Prop :=
  forall slotId w, P w -> P (call_changed cb slotId w).

(** A freshly constructed pair of objects. *)
Definition initial_world (cfg : config) (id : Z) (h : memory)
    (cslots : list serverData_t.t) (sslots : list clientSlot_t.t)
    (cbuf sbuf : list Z) : World :=
  mkWorld h (Client_new cslots cbuf) (Server_new id sslots sbuf) [].

(** ** Observations on the event log *)

Definition sent_by (who : party) (e : event) : option (list Z * Z) :=
  match e with
  | EvSend p data size =>
      match p, who with
      | Client, Client | Server, Server => Some (data, size)
      | _, _ => None
      end
  | _ => None
  end.

Definition changed_by (who : party) (e : event) : option Z :=
  match e with
  | EvChanged p slotId =>
      match p, who with
      | Client, Client | Server, Server => Some slotId
      | _, _ => None
      end
  | _ => None
  end.

Definition returned (e : event) : option result :=
  match e with EvReturn _ r => Some r | _ => None end.


Definition payload_length (size : Z) : Z := size - HeaderSize - 2.

(** ** The demonstration set-up

    Default configuration, four slots a side, server [0x12345678] serving
    slot 2 from four bytes at address 2000, a client mirroring it at address
    1000. *)

Definition demo_cfg : config := mkConfig 64 true 4 4.

Definition demo_heap : memory :=
  mem_write (mem_write (fun _ => 0) 2000 [222; 173; 190; 239]) 1000 [9; 9; 9; 9].

Definition demo_logging : callbacks :=
  mkCallbacks (Some (log_send Client)) (Some (log_changed Client))
              (Some (log_send Server)) (Some (log_changed Server)).

Definition demo_initial : World :=
  initial_world demo_cfg 305419896 demo_heap
    (replicate 4 null_serverData) (replicate 4 null_clientSlot)
    (replicate 64 0) (replicate 64 0).

Definition demo_world : World :=
  run demo_cfg demo_logging
    [OpServerAddSlot 2000 2 4; OpClientAddData 1000 305419896 2 4] demo_initial.
(** ** Frames as the senders build them

    The content of a transmit buffer after the header stores, the payload
    copy and [genCRC16]. *)
Definition built_frame (buf : list Z) (serverId slotId : Z) (f : SyncBusFunc)
    (payload : list Z) : list Z :=
  fst (genCRC16 (buf_write (put_header buf serverId slotId f) FrameData payload)
         (HeaderSize + Z.of_nat (length payload))).


(** ** Registration order

    [i] is the first registered index whose entry carries the given
    identifier and slot id (client), or the given slot id (server): the
    entry at which the scan of [inputData] stops. *)
Definition first_serveSlot (c : SyncBusClient.t) (serverId slotId i : Z) : Prop :=
  0 <= i < SyncBusClient.m_numSlots c /\
  serverData_t.serverId (serveSlot c i) = serverId /\
  serverData_t.slotId (serveSlot c i) = slotId /\
  forall j, 0 <= j < i ->
    ~ (serverData_t.serverId (serveSlot c j) = serverId /\
       serverData_t.slotId (serveSlot c j) = slotId).

Definition first_clientSlot (s : SyncBusServer.t) (slotId i : Z) : Prop :=
  0 <= i < SyncBusServer.m_numSlots s /\
  clientSlot_t.slotId (clientSlot s i) = slotId /\
  forall j, 0 <= j < i -> clientSlot_t.slotId (clientSlot s j) <> slotId.

(** ** Further set-ups

    [dup_client_world]: the client has two entries for the same
    (identifier, slot id), of sizes 4 and 2; the server serves slot 2 from
    two bytes.  [dup_server_world]: the server has two entries for slot id 2,
    of sizes 1 and 4.  [redirect_world]: the client's only entry is
    registered under another identifier than the server's. *)
Definition dup_client_world : World :=
  run demo_cfg demo_logging
    [OpServerAddSlot 2000 2 2;
     OpClientAddData 1000 305419896 2 4; OpClientAddData 1100 305419896 2 2]
    demo_initial.

Definition dup_server_world : World :=
  run demo_cfg demo_logging
    [OpServerAddSlot 2100 2 1; OpServerAddSlot 2000 2 4;
     OpClientAddData 1000 305419896 2 4]
    demo_initial.


(** Frames of the default configuration, built in a zeroed buffer:
    a SetReq for slot 2 with one payload byte addressed to [0x11111111];
    the same addressed to [0x12345678]; a GetResp for slot 2 from
    [0x12345678] with four payload bytes and with one; a GetResp from
    [0x11111111]; a SetResp; a GetReq for slot 9. *)
Definition foreign_set_frame : list Z :=
  built_frame (replicate 64 0) 286331153 2 SetReq [7].

Definition short_set_frame : list Z :=
  built_frame (replicate 64 0) 305419896 2 SetReq [7].

Definition resp4_frame : list Z :=
  built_frame (replicate 64 0) 305419896 2 GetResp [1; 2; 3; 4].

Definition short_resp_frame : list Z :=
  built_frame (replicate 64 0) 305419896 2 GetResp [7].

Definition unknown_resp_frame : list Z :=
  built_frame (replicate 64 0) 286331153 2 GetResp [1; 2; 3; 4].

Definition ack_frame : list Z :=
  built_frame (replicate 64 0) 305419896 2 SetResp [].

Definition get9_frame : list Z :=
  built_frame (replicate 64 0) 305419896 9 GetReq [].

(** ** Regions of application memory and further set-ups *)

(** Address [a] lies in the [n] bytes at [p]. *)
Definition in_region (p n a : Z) : Prop := p <= a < p + n.

(** The callbacks of the example program. *)
Definition wired (PROTO_BUS_BUFFER_SIZE : Z) (SyncBus_ENABLE_SET_ACK : bool) : callbacks :=
  mkCallbacks (Some (clientSend PROTO_BUS_BUFFER_SIZE SyncBus_ENABLE_SET_ACK))
              (Some (log_changed Client))
              (Some serverSend) (Some (log_changed Server)).

(** Frames of the default configuration: a SetReq and a GetReq for slot 2
    addressed to [0x12345678], a GetReq for slot 3, a GetResp for slot 3,
    and a frame with valid checksum whose function byte is 9. *)
Definition set4_frame : list Z :=
  built_frame (replicate 64 0) 305419896 2 SetReq [1; 2; 3; 4].

Definition get2_frame : list Z :=
  built_frame (replicate 64 0) 305419896 2 GetReq [].

Definition get3_frame : list Z :=
  built_frame (replicate 64 0) 305419896 3 GetReq [].

Definition resp3_frame : list Z :=
  built_frame (replicate 64 0) 305419896 3 GetResp [5; 6].

Definition odd_function_frame : list Z :=
  fst (genCRC16 ([120; 86; 52; 18; 2; 9] ++ replicate 58 0) 6).

(** A build with a 300-byte transmit buffer and a client entry of 250
    bytes. *)
Definition wide_cfg : config := mkConfig 300 true 4 4.

Definition wide_world : World :=
  run wide_cfg demo_logging [OpClientAddData 1000 305419896 2 250]
    (initial_world wide_cfg 305419896 demo_heap
       (replicate 4 null_serverData) (replicate 4 null_clientSlot)
       (replicate 300 0) (replicate 300 0)).

(** The same build with both ends registered for slot 2 on 250 bytes, the
    client's entry under the server's identifier ([wide_pair_world]) or
    under another one ([wide_redirect_world]). *)
Definition wide_pair_world : World :=
  run wide_cfg demo_logging
    [OpServerAddSlot 2000 2 250; OpClientAddData 1000 305419896 2 250]
    (initial_world wide_cfg 305419896 demo_heap
       (replicate 4 null_serverData) (replicate 4 null_clientSlot)
       (replicate 300 0) (replicate 300 0)).


(** The same build with both ends registered for slot 2 on four bytes, the
    client's entry under the server's identifier ([wide_demo_world]) or
    under another one ([wide_demo_redirect_world]). *)
Definition wide_initial : World :=
  initial_world wide_cfg 305419896 demo_heap
    (replicate 4 null_serverData) (replicate 4 null_clientSlot)
    (replicate 300 0) (replicate 300 0).

Definition wide_demo_world : World :=
  run wide_cfg demo_logging
    [OpServerAddSlot 2000 2 4; OpClientAddData 1000 305419896 2 4] wide_initial.


(** A GetReq for slot 2 addressed to [0x11111111]. *)
Definition get2_other_frame : list Z :=
  built_frame (replicate 64 0) 286331153 2 GetReq [].

(** ** Sanity checks of the embedding *)

(** The CRC-16/MODBUS check value of the ASCII string 123456789 is 0x4B37. *)
Example crc16_modbus_check_value :
  crc16 [49; 50; 51; 52; 53; 54; 55; 56; 57] 9 = 19255.
Proof. vm_compute. reflexivity. Qed.

(** The GetReq for slot 2 of server 0x12345678: identifier little-endian,
    slot id, function code, then the checksum low byte first. *)
Example get_request_bytes :
  take 8 (built_frame (replicate 64 0) 305419896 2 GetReq [])
  = [120; 86; 52; 18; 2; 0; crc_lo (crc16 [120; 86; 52; 18; 2; 0] 6);
     crc_hi (crc16 [120; 86; 52; 18; 2; 0] 6)].
Proof. vm_compute. reflexivity. Qed.

(** The scenario of the example program: after [getData] the mirror holds
    the server's bytes, both nested calls returned [ok], and the client's
    change callback ran once, for slot 2. *)
Example demo_get_scenario :
  let '(r, w) := Client_getData 64 (Some (clientSend 64 true)) 305419896 0 demo_world in
  (r, mem_read (heap w) 1000 4, omap returned (trace w), omap (changed_by Client) (trace w))
  = (ok, [222; 173; 190; 239], [ok; ok], [2]).
Proof. vm_compute. reflexivity. Qed.

(** A SetReq from the client overwrites the server's bytes and is
    acknowledged. *)
Example demo_set_scenario :
  let '(r, w) := Client_setData 64 (Some (clientSend 64 true)) 305419896 0 demo_world in
  (r, mem_read (heap w) 2000 4, omap returned (trace w), omap (changed_by Server) (trace w))
  = (ok, [9; 9; 9; 9], [ok; ok], [2]).
Proof. vm_compute. reflexivity. Qed.

(** ** Buffer lemmas *)

Lemma rd_wr_eq buff pos v :
  0 <= pos < Z.of_nat (length buff) -> rd (wr buff pos v) pos = v.
Proof.
  intros H. unfold rd, wr.
  rewrite list_lookup_insert_eq by lia. reflexivity.
Qed.

Lemma rd_wr_ne buff pos pos' v :
  0 <= pos -> 0 <= pos' -> pos <> pos' -> rd (wr buff pos v) pos' = rd buff pos'.
Proof.
  intros H1 H2 H3. unfold rd, wr.
  rewrite list_lookup_insert_ne by lia. reflexivity.
Qed.

Lemma length_wr buff pos v : length (wr buff pos v) = length buff.
Proof. unfold wr. apply length_insert. Qed.

(** ** Bit-level lemmas *)

Lemma lxor_range n a b :
  0 < n -> 0 <= a < 2 ^ n -> 0 <= b < 2 ^ n -> 0 <= Z.lxor a b < 2 ^ n.
Proof.
  intros Hn Ha Hb. split.
  - apply Z.lxor_nonneg. lia.
  - destruct (Z.eq_dec (Z.lxor a b) 0) as [->|Hne]; [lia|].
    assert (0 < Z.lxor a b) by (pose proof (proj2 (Z.lxor_nonneg a b)); lia).
    apply Z.log2_lt_pow2; [lia|].
    eapply Z.le_lt_trans; [apply Z.log2_lxor; lia|].
    apply Z.max_lub_lt.
    + destruct (Z.eq_dec a 0) as [->|]; [simpl; lia|].
      apply Z.log2_lt_pow2; lia.
    + destruct (Z.eq_dec b 0) as [->|]; [simpl; lia|].
      apply Z.log2_lt_pow2; lia.
Qed.

Lemma lxor_inj_r a b k : Z.lxor a k = Z.lxor b k -> a = b.
Proof.
  intros H. apply (f_equal (fun x => Z.lxor x k)) in H.
  rewrite !Z.lxor_assoc, !Z.lxor_nilpotent, !Z.lxor_0_r in H. exact H.
Qed.

Lemma lxor_inj_l a b k : Z.lxor k a = Z.lxor k b -> a = b.
Proof. rewrite !(Z.lxor_comm k). apply lxor_inj_r. Qed.

Lemma u16_id x : is_u16 x -> u16 x = x.
Proof. unfold is_u16, u16. intros. apply Z.mod_small. lia. Qed.

Lemma u8_id x : is_u8 x -> u8 x = x.
Proof. unfold is_u8, u8. intros. apply Z.mod_small. lia. Qed.


Lemma land_255 x : Z.land x 255 = x mod 256.
Proof. change 255 with (Z.ones 8). rewrite Z.land_ones by lia. reflexivity. Qed.

Lemma land_1 x : Z.land x 1 = x mod 2.
Proof. change 1 with (Z.ones 1) at 1. rewrite Z.land_ones by lia. reflexivity. Qed.

Lemma crc_shift_range c : is_u16 c -> is_u16 (crc_shift c).
Proof.
  unfold is_u16, crc_shift. intros H.
  assert (Hs : 0 <= Z.shiftr c 1 < 2 ^ 15).
  { rewrite Z.shiftr_div_pow2 by lia. change (2 ^ 1) with 2.
    change (2 ^ 15) with 32768. split; [apply Z.div_pos; lia|].
    apply Z.div_lt_upper_bound; lia. }
  destruct (negb (Z.land c 1 =? 0)).
  - unfold u16. apply Z.mod_pos_bound. lia.
  - change (2 ^ 15) with 32768 in Hs. lia.
Qed.

Lemma crc_shift_bit15 c :
  is_u16 c -> Z.testbit (crc_shift c) 15 = negb (Z.land c 1 =? 0).
Proof.
  unfold is_u16. intros H. unfold crc_shift.
  assert (Hs : 0 <= Z.shiftr c 1 < 2 ^ 15).
  { rewrite Z.shiftr_div_pow2 by lia. change (2 ^ 1) with 2.
    change (2 ^ 15) with 32768. split; [apply Z.div_pos; lia|].
    apply Z.div_lt_upper_bound; lia. }
  assert (Hb : Z.testbit (Z.shiftr c 1) 15 = false).
  { destruct (Z.eq_dec (Z.shiftr c 1) 0) as [->|Hne]; [apply Z.bits_0|].
    apply Z.bits_above_log2; [lia|]. apply Z.log2_lt_pow2; lia. }
  destruct (negb (Z.land c 1 =? 0)); [|exact Hb].
  rewrite u16_id.
  - rewrite Z.lxor_spec, Hb. reflexivity.
  - apply (lxor_range 16); [lia| |]; change (2 ^ 16) with 65536;
      change (2 ^ 15) with 32768 in Hs; lia.
Qed.

Lemma crc_shift_inj c c' :
  is_u16 c -> is_u16 c' -> crc_shift c = crc_shift c' -> c = c'.
Proof.
  intros Hc Hc' E.
  pose proof (crc_shift_bit15 c Hc) as B.
  pose proof (crc_shift_bit15 c' Hc') as B'.
  rewrite E, B' in B.
  assert (Hs : Z.shiftr c 1 = Z.shiftr c' 1).
  { unfold crc_shift in E. rewrite <- B in E.
    destruct (negb (Z.land c' 1 =? 0)); [|exact E].
    unfold is_u16 in *.
    assert (R : forall x, 0 <= x < 65536 -> is_u16 (Z.lxor (Z.shiftr x 1) 40961)).
    { intros x Hx. apply (lxor_range 16); [lia| |]; change (2 ^ 16) with 65536; [|lia].
      rewrite Z.shiftr_div_pow2 by lia. change (2 ^ 1) with 2.
      split; [apply Z.div_pos; lia|]. apply Z.div_lt_upper_bound; lia. }
    rewrite !u16_id in E by (apply R; assumption).
    eapply lxor_inj_r; exact E. }
  assert (Hl : Z.land c 1 = Z.land c' 1).
  { rewrite !land_1 in *.
    pose proof (Z.mod_pos_bound c 2 ltac:(lia)).
    pose proof (Z.mod_pos_bound c' 2 ltac:(lia)).
    destruct (Z.eqb_spec (c mod 2) 0), (Z.eqb_spec (c' mod 2) 0);
      simpl in B; try discriminate; lia. }
  rewrite !Z.shiftr_div_pow2 in Hs by lia. change (2 ^ 1) with 2 in Hs.
  rewrite !land_1 in Hl.
  rewrite (Z.div_mod c 2), (Z.div_mod c' 2) by lia. congruence.
Qed.

Lemma crc_iter_range n c : is_u16 c -> is_u16 (Nat.iter n crc_shift c).
Proof.
  intros H. induction n as [|n IH]; simpl; [exact H|].
  apply crc_shift_range, IH.
Qed.

Lemma crc_iter_inj n c c' :
  is_u16 c -> is_u16 c' ->
  Nat.iter n crc_shift c = Nat.iter n crc_shift c' -> c = c'.
Proof.
  intros Hc Hc'. induction n as [|n IH]; simpl; [trivial|].
  intros E. apply IH. apply crc_shift_inj; auto using crc_iter_range.
Qed.

Lemma lxor_u16_u8 c b : is_u16 c -> is_u8 b -> is_u16 (Z.lxor c b).
Proof.
  unfold is_u16, is_u8. intros Hc Hb.
  apply (lxor_range 16); change (2 ^ 16) with 65536; lia.
Qed.

Lemma crc_byte_range c b : is_u16 (crc_byte c b).
Proof.
  unfold crc_byte. apply crc_iter_range.
  unfold is_u16, u16. apply Z.mod_pos_bound. lia.
Qed.

Lemma crc_byte_inj c c' b b' :
  is_u16 c -> is_u16 c' -> is_u8 b -> is_u8 b' ->
  crc_byte c b = crc_byte c' b' -> Z.lxor c b = Z.lxor c' b'.
Proof.
  intros Hc Hc' Hb Hb' E. unfold crc_byte in E.
  rewrite !u16_id in E by (apply lxor_u16_u8; assumption).
  apply crc_iter_inj in E; auto using lxor_u16_u8.
Qed.

Lemma crc_loop_range buff pos n c : is_u16 c -> is_u16 (crc_loop buff pos n c).
Proof.
  revert pos c. induction n as [|n IH]; intros pos c H; simpl; [exact H|].
  apply IH, crc_byte_range.
Qed.

(** The loop reads only the indices it walks over. *)
Lemma crc_loop_ext b1 b2 n : forall pos c,
  0 <= pos ->
  (forall j, pos <= j < pos + Z.of_nat n -> rd b1 j = rd b2 j) ->
  crc_loop b1 pos n c = crc_loop b2 pos n c.
Proof.
  induction n as [|n IH]; intros pos c Hpos H; simpl; [reflexivity|].
  rewrite (H pos) by lia. apply IH; [lia|]. intros j Hj. apply H. lia.
Qed.

(** Different registers stay different over equal bytes. *)
Lemma crc_loop_diff_crc b1 b2 n : forall pos c1 c2,
  is_u16 c1 -> is_u16 c2 -> c1 <> c2 ->
  (forall j, pos <= j < pos + Z.of_nat n -> rd b1 j = rd b2 j /\ is_u8 (rd b1 j)) ->
  crc_loop b1 pos n c1 <> crc_loop b2 pos n c2.
Proof.
  induction n as [|n IH]; intros pos c1 c2 H1 H2 Hne H; simpl; [exact Hne|].
  destruct (H pos ltac:(lia)) as [E Hb].
  apply IH; auto using crc_byte_range.
  - rewrite <- E. intros Eq. apply crc_byte_inj in Eq; auto.
    apply lxor_inj_r in Eq. contradiction.
  - intros j Hj. apply H. lia.
Qed.

(** Buffers that differ in exactly one walked byte give different registers. *)
Lemma crc_loop_diff_byte b1 b2 i n : forall pos c,
  is_u16 c -> pos <= i < pos + Z.of_nat n ->
  (forall j, pos <= j < pos + Z.of_nat n -> j <> i -> rd b1 j = rd b2 j) ->
  (forall j, pos <= j < pos + Z.of_nat n -> is_u8 (rd b1 j) /\ is_u8 (rd b2 j)) ->
  rd b1 i <> rd b2 i ->
  crc_loop b1 pos n c <> crc_loop b2 pos n c.
Proof.
  induction n as [|n IH]; intros pos c Hc Hi Hsame Hby Hne; simpl; [lia|].
  destruct (Hby pos ltac:(lia)) as [Hb1 Hb2].
  destruct (Z.eq_dec pos i) as [->|Hpi].
  - apply crc_loop_diff_crc; auto using crc_byte_range.
    + intros Eq. apply crc_byte_inj in Eq; auto.
      apply lxor_inj_l in Eq. contradiction.
    + intros j Hj. split; [apply Hsame; lia|apply Hby; lia].
  - rewrite (Hsame pos) by lia. apply IH; auto using crc_byte_range; try lia.
    + intros j Hj Hji. apply Hsame; lia.
    + intros j Hj. apply Hby. lia.
Qed.

Lemma crc_lo_hi_inj c c' :
  is_u16 c -> is_u16 c' -> crc_lo c = crc_lo c' -> crc_hi c = crc_hi c' -> c = c'.
Proof.
  unfold is_u16, crc_lo, crc_hi, u8. intros Hc Hc'.
  rewrite !land_255, !Z.shiftr_div_pow2 by lia. change (2 ^ 8) with 256.
  rewrite !Z.mod_mod by lia. intros Hlo Hhi.
  rewrite (Z.div_mod c 256), (Z.div_mod c' 256) by lia.
  rewrite (Z.mod_small (c / 256)) in Hhi
    by (split; [apply Z.div_pos; lia|apply Z.div_lt_upper_bound; lia]).
  rewrite (Z.mod_small (c' / 256)) in Hhi
    by (split; [apply Z.div_pos; lia|apply Z.div_lt_upper_bound; lia]).
  congruence.
Qed.

Lemma crc16_range buff len : is_u16 (crc16 buff len).
Proof. unfold crc16. apply crc_loop_range. unfold is_u16. lia. Qed.

Lemma crc16_ext b1 b2 len :
  (forall j, 0 <= j < len -> rd b1 j = rd b2 j) -> crc16 b1 len = crc16 b2 len.
Proof.
  intros H. unfold crc16. apply crc_loop_ext; [lia|].
  intros j Hj. apply H. lia.
Qed.

(** What [genCRC16] does when the trailer fits the buffer and the length
    fits its type. *)
Lemma genCRC16_spec buff len :
  0 <= len -> len + 2 <= 255 -> len + 2 <= Z.of_nat (length buff) ->
  exists buf',
    genCRC16 buff len = (buf', len + 2) /\
    length buf' = length buff /\
    (forall j, 0 <= j < len -> rd buf' j = rd buff j) /\
    rd buf' len = crc_lo (crc16 buff len) /\
    rd buf' (len + 1) = crc_hi (crc16 buff len) /\
    checkCRC16 buf' (len + 2) = true.
Proof.
  intros H0 H255 Hlen. unfold genCRC16.
  assert (E1 : u8 (len + 1) = len + 1) by (apply u8_id; unfold is_u8; lia).
  rewrite E1.
  assert (E2 : u8 (len + 1 + 1) = len + 2)
    by (rewrite u8_id by (unfold is_u8; lia); lia).
  rewrite E2.
  set (lo := crc_lo (crc16 buff len)). set (hi := crc_hi (crc16 buff len)).
  set (buf' := wr (wr buff len lo) (len + 1) hi).
  assert (Hrd : forall j, 0 <= j < len -> rd buf' j = rd buff j).
  { intros j Hj. unfold buf'. rewrite !rd_wr_ne by lia. reflexivity. }
  assert (Hlo : rd buf' len = lo).
  { unfold buf'. rewrite rd_wr_ne by lia. apply rd_wr_eq. lia. }
  assert (Hhi : rd buf' (len + 1) = hi).
  { unfold buf'. apply rd_wr_eq. rewrite length_wr. lia. }
  exists buf'. repeat split; auto.
  - unfold buf'. rewrite !length_wr. reflexivity.
  - unfold checkCRC16.
    destruct (Z.ltb_spec (len + 2) 2) as [?|_]; [lia|].
    replace (len + 2 - 2) with len by lia.
    replace (len + 2 - 1) with (len + 1) by lia.
    rewrite (u8_id len) by (unfold is_u8; lia).
    rewrite (crc16_ext buf' buff len Hrd), Hlo, Hhi.
    fold lo hi. rewrite !Z.eqb_refl. reflexivity.
Qed.




(** ** The table scan *)

Lemma first_match_spec f n : forall s,
  0 <= s -> s + Z.of_nat n <= 256 ->
  match first_match f s n with
  | Some i => s <= i < s + Z.of_nat n /\ f i = true /\
              forall j, s <= j < i -> f j = false
  | None => forall j, s <= j < s + Z.of_nat n -> f j = false
  end.
Proof.
  induction n as [|n IH]; intros s Hs Hn; simpl.
  - intros j Hj. lia.
  - destruct (f s) eqn:Hf.
    + repeat split; try lia. exact Hf.
    + destruct n as [|n'].
      * simpl. intros j Hj. assert (j = s) as -> by lia. exact Hf.
      * rewrite (u8_id (s + 1)) by (unfold is_u8; lia).
        specialize (IH (s + 1) ltac:(lia) ltac:(lia)).
        destruct (first_match f (s + 1) (S n')) as [i|].
        -- destruct IH as (Hi & Hfi & Hlt). repeat split; try lia; auto.
           intros j Hj. destruct (Z.eq_dec j s) as [->|]; [exact Hf|].
           apply Hlt. lia.
        -- intros j Hj. destruct (Z.eq_dec j s) as [->|]; [exact Hf|].
           apply IH. lia.
Qed.

Lemma first_match_none f n :
  0 <= n <= 255 ->
  (forall j, 0 <= j < n -> f j = false) ->
  first_match f 0 (Z.to_nat n) = None.
Proof.
  intros Hn H.
  pose proof (first_match_spec f (Z.to_nat n) 0 ltac:(lia) ltac:(lia)) as S.
  destruct (first_match f 0 (Z.to_nat n)) as [i|]; [|reflexivity].
  destruct S as (Hi & Hfi & _). rewrite H in Hfi by lia. discriminate.
Qed.

Lemma first_match_some f n i :
  0 <= n <= 255 -> 0 <= i < n -> f i = true ->
  (forall j, 0 <= j < i -> f j = false) ->
  first_match f 0 (Z.to_nat n) = Some i.
Proof.
  intros Hn Hi Hfi Hlt.
  pose proof (first_match_spec f (Z.to_nat n) 0 ltac:(lia) ltac:(lia)) as S.
  destruct (first_match f 0 (Z.to_nat n)) as [i'|].
  - destruct S as (Hi' & Hfi' & Hlt'). f_equal.
    destruct (Z.lt_trichotomy i' i) as [?|[?|?]]; [|assumption|].
    + rewrite Hlt in Hfi' by lia. discriminate.
    + rewrite Hlt' in Hfi by lia. discriminate.
  - rewrite S in Hfi by lia. discriminate.
Qed.

(** ** Properties of the codec and of the dispatch *)

Section Properties.

Variable PROTO_BUS_BUFFER_SIZE : Z.
Variable SyncBus_ENABLE_SET_ACK : bool.

(** Every frame length is a [uint8_t]; the transmit buffer is assumed no
    longer than such a length can express (the default is 64). *)
Hypothesis buffer_size_fits : PROTO_BUS_BUFFER_SIZE <= 255.


(** C6.  Whatever the callbacks, a frame shorter than header plus checksum
    makes both [inputData] functions return [errFault], and a frame of
    sufficient length whose trailer does not verify makes both return
    [errCrc]; in either case the world is returned as it was: memory, both
    objects and the event log are untouched, so no callback ran. *)
Theorem inputData_error_ladder
    (ssend : option SyncBusSendData_cb)
    (cchanged schanged : option SyncBusDataChanged_cb)
    (data : list Z) (size : Z) (w : World) :
  (size < HeaderSize + 2 ->
     Client_inputData cchanged data size w = (errFault, w) /\
     Server_inputData PROTO_BUS_BUFFER_SIZE SyncBus_ENABLE_SET_ACK
       ssend schanged data size w = (errFault, w)) /\
  (HeaderSize + 2 <= size -> checkCRC16 data size = false ->
     Client_inputData cchanged data size w = (errCrc, w) /\
     Server_inputData PROTO_BUS_BUFFER_SIZE SyncBus_ENABLE_SET_ACK
       ssend schanged data size w = (errCrc, w)).
Proof.
  unfold Client_inputData, Server_inputData.
  change (u8 (HeaderSize + 2)) with 8. change (HeaderSize + 2) with 8.
  split.
  - intros Hsz. destruct (Z.ltb_spec size 8); [split; reflexivity|lia].
  - intros Hsz Hcrc. destruct (Z.ltb_spec size 8); [lia|].
    rewrite Hcrc. split; reflexivity.
Qed.

(** C4.  Whatever the callbacks, a frame of at least 8 bytes with a valid
    checksum whose embedded identifier differs from the server's own makes
    the server's [inputData] return [ok] with the world as it was: no send
    callback, no change callback, no slot buffer written. *)
Theorem server_ignores_foreign_identifier
    (ssend : option SyncBusSendData_cb) (schanged : option SyncBusDataChanged_cb)
    (data : list Z) (size : Z) (w : World) :
  HeaderSize + 2 <= size ->
  checkCRC16 data size = true ->
  read_le32 data FrameServerId <> SyncBusServer.m_serverId (server w) ->
  Server_inputData PROTO_BUS_BUFFER_SIZE SyncBus_ENABLE_SET_ACK
    ssend schanged data size w = (ok, w).
Proof.
  intros Hsz Hcrc Hid. unfold Server_inputData.
  change (u8 (HeaderSize + 2)) with 8. change (HeaderSize + 2) with 8 in Hsz.
  destruct (Z.ltb_spec size 8); [lia|]. rewrite Hcrc. simpl.
  destruct (Z.eqb_spec (read_le32 data FrameServerId)
              (SyncBusServer.m_serverId (server w))); [contradiction|reflexivity].
Qed.

(** C8.  Whatever the callbacks, for a frame of at least 8 bytes with a
    valid checksum: (a) the client returns [ok] with the world as it was
    for a GetResp that no registered (serverId, slotId) entry matches and for
    every SetResp; (b) the server returns [ok] with the world as it was for
    a GetReq or SetReq carrying its identifier whose slot id no registered
    slot has. *)
Theorem unmatched_traffic_is_ignored
    (ssend : option SyncBusSendData_cb)
    (cchanged schanged : option SyncBusDataChanged_cb)
    (data : list Z) (size : Z) (w : World) :
  HeaderSize + 2 <= size ->
  checkCRC16 data size = true ->
  (is_u8 (SyncBusClient.m_numSlots (client w)) ->
   rd data FrameFunction = func_code GetResp ->
   (forall i, 0 <= i < SyncBusClient.m_numSlots (client w) ->
      ~ (serverData_t.serverId (serveSlot (client w) i) = read_le32 data FrameServerId /\
         serverData_t.slotId (serveSlot (client w) i) = rd data FrameSlotId)) ->
   Client_inputData cchanged data size w = (ok, w)) /\
  (rd data FrameFunction = func_code SetResp ->
   Client_inputData cchanged data size w = (ok, w)) /\
  (is_u8 (SyncBusServer.m_numSlots (server w)) ->
   read_le32 data FrameServerId = SyncBusServer.m_serverId (server w) ->
   rd data FrameFunction = func_code GetReq \/ rd data FrameFunction = func_code SetReq ->
   (forall i, 0 <= i < SyncBusServer.m_numSlots (server w) ->
      clientSlot_t.slotId (clientSlot (server w) i) <> rd data FrameSlotId) ->
   Server_inputData PROTO_BUS_BUFFER_SIZE SyncBus_ENABLE_SET_ACK
     ssend schanged data size w = (ok, w)).
Proof.
  intros Hsz Hcrc. unfold Client_inputData, Server_inputData.
  change (u8 (HeaderSize + 2)) with 8. change (HeaderSize + 2) with 8 in Hsz.
  destruct (Z.ltb_spec size 8); [lia|]. rewrite Hcrc. simpl negb. cbv iota.
  split; [|split].
  - intros Hn Hf Hnone. rewrite Hf, Z.eqb_refl.
    rewrite first_match_none; [reflexivity|unfold is_u8 in Hn; lia|].
    intros j Hj. specialize (Hnone j Hj).
    apply andb_false_iff.
    destruct (Z.eqb_spec (serverData_t.serverId (serveSlot (client w) j))
                (read_le32 data FrameServerId)); [|left; reflexivity].
    destruct (Z.eqb_spec (serverData_t.slotId (serveSlot (client w) j))
                (rd data FrameSlotId)); [|right; reflexivity].
    exfalso. apply Hnone. split; assumption.
  - intros Hf. rewrite Hf. reflexivity.
  - intros Hn Hid Hf Hnone. rewrite Hid, Z.eqb_refl. simpl negb. cbv iota.
    rewrite first_match_none.
    + destruct Hf as [-> | ->]; reflexivity.
    + unfold is_u8 in Hn. lia.
    + intros j Hj. apply Z.eqb_neq. apply Hnone. exact Hj.
Qed.

(** C5.  For [addData] and [addSlot] alike: a null pointer gives [errFault];
    with a non-null pointer a full table gives [errOverflow]; with a non-null
    pointer and a non-full table, a size with header + size + 2 equal to the
    buffer capacity is accepted and the entry is stored at the next index,
    while a size one larger gives [errOverflow]; every refusal returns the
    world as it was. *)
Theorem registration_overflow_boundary
    (numSlots data serverId slotId size : Z) (w : World) :
  (data = nullptr ->
     Client_addData PROTO_BUS_BUFFER_SIZE numSlots data serverId slotId size w
       = (errFault, w) /\
     Server_addSlot PROTO_BUS_BUFFER_SIZE numSlots data slotId size w
       = (errFault, w)) /\
  (data <> nullptr ->
     (numSlots <= SyncBusClient.m_numSlots (client w) ->
        Client_addData PROTO_BUS_BUFFER_SIZE numSlots data serverId slotId size w
          = (errOverflow, w)) /\
     (numSlots <= SyncBusServer.m_numSlots (server w) ->
        Server_addSlot PROTO_BUS_BUFFER_SIZE numSlots data slotId size w
          = (errOverflow, w)) /\
     (SyncBusClient.m_numSlots (client w) < numSlots ->
        (HeaderSize + size + 2 = PROTO_BUS_BUFFER_SIZE ->
           Client_addData PROTO_BUS_BUFFER_SIZE numSlots data serverId slotId size w
             = (ok, set_client
                      (SyncBusClient.mk
                         (u8 (SyncBusClient.m_numSlots (client w) + 1))
                         (<[Z.to_nat (SyncBusClient.m_numSlots (client w)) :=
                              serverData_t.mk data serverId slotId size]>
                            (SyncBusClient.m_serveSlots (client w)))
                         (SyncBusClient.m_buffer (client w))) w)) /\
        (HeaderSize + size + 2 = PROTO_BUS_BUFFER_SIZE + 1 ->
           Client_addData PROTO_BUS_BUFFER_SIZE numSlots data serverId slotId size w
             = (errOverflow, w))) /\
     (SyncBusServer.m_numSlots (server w) < numSlots ->
        (HeaderSize + size + 2 = PROTO_BUS_BUFFER_SIZE ->
           Server_addSlot PROTO_BUS_BUFFER_SIZE numSlots data slotId size w
             = (ok, set_server
                      (SyncBusServer.mk
                         (SyncBusServer.m_serverId (server w))
                         (u8 (SyncBusServer.m_numSlots (server w) + 1))
                         (<[Z.to_nat (SyncBusServer.m_numSlots (server w)) :=
                              clientSlot_t.mk data slotId size]>
                            (SyncBusServer.m_clientSlots (server w)))
                         (SyncBusServer.m_buffer (server w))) w)) /\
        (HeaderSize + size + 2 = PROTO_BUS_BUFFER_SIZE + 1 ->
           Server_addSlot PROTO_BUS_BUFFER_SIZE numSlots data slotId size w
             = (errOverflow, w)))).
Proof.
  unfold Client_addData, Server_addSlot.
  change (u16 HeaderSize) with 6. change HeaderSize with 6.
  rewrite !Z.geb_leb, !Z.gtb_ltb.
  split.
  - intros ->. split; reflexivity.
  - intros Hnn. destruct (Z.eqb_spec data nullptr); [contradiction|].
    repeat split.
    + intros Hfull. destruct (Z.leb_spec numSlots (SyncBusClient.m_numSlots (client w)));
        [reflexivity|lia].
    + intros Hfull. destruct (Z.leb_spec numSlots (SyncBusServer.m_numSlots (server w)));
        [reflexivity|lia].
    + intros Hfit. destruct (Z.leb_spec numSlots (SyncBusClient.m_numSlots (client w)));
        [lia|].
      destruct (Z.ltb_spec PROTO_BUS_BUFFER_SIZE (6 + size + 2)); [lia|reflexivity].
    + intros Hover. destruct (Z.leb_spec numSlots (SyncBusClient.m_numSlots (client w)));
        [lia|].
      destruct (Z.ltb_spec PROTO_BUS_BUFFER_SIZE (6 + size + 2)); [reflexivity|lia].
    + intros Hfit. destruct (Z.leb_spec numSlots (SyncBusServer.m_numSlots (server w)));
        [lia|].
      destruct (Z.ltb_spec PROTO_BUS_BUFFER_SIZE (6 + size + 2)); [lia|reflexivity].
    + intros Hover. destruct (Z.leb_spec numSlots (SyncBusServer.m_numSlots (server w)));
        [lia|].
      destruct (Z.ltb_spec PROTO_BUS_BUFFER_SIZE (6 + size + 2)); [reflexivity|lia].
Qed.

(** ** Frame construction *)

Lemma lor_shiftl_add a b n :
  0 <= n -> 0 <= a < 2 ^ n -> Z.lor a (Z.shiftl b n) = a + Z.shiftl b n.
Proof.
  intros Hn Ha.
  assert (Hl : Z.land a (Z.shiftl b n) = 0).
  { apply Z.bits_inj'. intros m Hm. rewrite Z.land_spec, Z.bits_0.
    destruct (Z_lt_dec m n).
    - rewrite Z.shiftl_spec_low by lia. apply andb_false_r.
    - rewrite <- (Z.mod_small a (2 ^ n)) by lia.
      rewrite Z.mod_pow2_bits_high by lia. reflexivity. }
  rewrite <- Z.lxor_lor by exact Hl.
  symmetry. apply Z.add_nocarry_lxor. exact Hl.
Qed.

Lemma le32_roundtrip_arith v :
  is_u32 v ->
  Z.lor (Z.lor (Z.lor (u8 (Z.land v 255)) (Z.shiftl (u8 (Z.land (Z.shiftr v 8) 255)) 8))
               (Z.shiftl (u8 (Z.land (Z.shiftr v 16) 255)) 16))
        (Z.shiftl (u8 (Z.land (Z.shiftr v 24) 255)) 24) = v.
Proof.
  unfold is_u32, u8. intros Hv.
  rewrite !land_255, !Z.mod_mod by lia.
  rewrite !Z.shiftr_div_pow2 by lia.
  change (2 ^ 8) with 256. change (2 ^ 16) with 65536. change (2 ^ 24) with 16777216.
  rewrite (lor_shiftl_add _ _ 8); [|lia|change (2 ^ 8) with 256; apply Z.mod_pos_bound; lia].
  rewrite !Z.shiftl_mul_pow2 by lia.
  change (2 ^ 8) with 256. change (2 ^ 16) with 65536. change (2 ^ 24) with 16777216.
  rewrite <- (Z.shiftl_mul_pow2 _ 16) by lia.
  rewrite (lor_shiftl_add _ _ 16);
    [|lia|change (2 ^ 16) with 65536; Z.div_mod_to_equations; lia].
  rewrite !Z.shiftl_mul_pow2 by lia. change (2 ^ 16) with 65536.
  rewrite <- (Z.shiftl_mul_pow2 _ 24) by lia.
  rewrite (lor_shiftl_add _ _ 24);
    [|lia|change (2 ^ 24) with 16777216; Z.div_mod_to_equations; lia].
  rewrite !Z.shiftl_mul_pow2 by lia. change (2 ^ 24) with 16777216.
  Z.div_mod_to_equations. lia.
Qed.

Lemma length_write_le32 dst off v : length (write_le32 dst off v) = length dst.
Proof. unfold write_le32. rewrite !length_wr. reflexivity. Qed.

Lemma length_put_header buf sid slot f : length (put_header buf sid slot f) = length buf.
Proof. unfold put_header. rewrite !length_wr. apply length_write_le32. Qed.

Lemma rd_put_header_ge buf sid slot f j :
  6 <= j -> rd (put_header buf sid slot f) j = rd buf j.
Proof.
  intros Hj. unfold put_header, write_le32, FrameServerId, FrameSlotId, FrameFunction.
  rewrite !rd_wr_ne by lia. reflexivity.
Qed.

Lemma rd_put_header_slot buf sid slot f :
  (6 <= length buf)%nat -> rd (put_header buf sid slot f) FrameSlotId = slot.
Proof.
  intros Hl. unfold put_header, FrameServerId, FrameSlotId, FrameFunction.
  rewrite rd_wr_ne by lia. apply rd_wr_eq. rewrite length_write_le32. lia.
Qed.

Lemma rd_put_header_func buf sid slot f :
  (6 <= length buf)%nat -> rd (put_header buf sid slot f) FrameFunction = func_code f.
Proof.
  intros Hl. unfold put_header, FrameServerId, FrameSlotId, FrameFunction.
  apply rd_wr_eq. rewrite length_wr, length_write_le32. lia.
Qed.

Lemma read_le32_put_header buf sid slot f :
  (6 <= length buf)%nat -> is_u32 sid ->
  read_le32 (put_header buf sid slot f) FrameServerId = sid.
Proof.
  intros Hl Hs. unfold read_le32, put_header, write_le32,
    FrameServerId, FrameSlotId, FrameFunction.
  repeat first [ rewrite rd_wr_eq by (rewrite ?length_wr; lia)
               | rewrite rd_wr_ne by lia ].
  apply le32_roundtrip_arith. exact Hs.
Qed.

Lemma read_le32_ext b1 b2 :
  (forall j, 0 <= j < 4 -> rd b1 j = rd b2 j) ->
  read_le32 b1 FrameServerId = read_le32 b2 FrameServerId.
Proof.
  intros H. unfold read_le32, FrameServerId. rewrite !H by lia. reflexivity.
Qed.

Lemma length_buf_write buf off src : length (buf_write buf off src) = length buf.
Proof. unfold buf_write. apply length_inserts. Qed.

Lemma rd_buf_write_lt buf off src j :
  0 <= j < off -> rd (buf_write buf off src) j = rd buf j.
Proof.
  intros Hj. unfold rd, buf_write. rewrite list_lookup_inserts_lt by lia. reflexivity.
Qed.

Lemma rd_buf_write_ge buf off src j :
  0 <= off -> off + Z.of_nat (length src) <= j -> rd (buf_write buf off src) j = rd buf j.
Proof.
  intros Ho Hj. unfold rd, buf_write. rewrite list_lookup_inserts_ge by lia. reflexivity.
Qed.

Lemma rd_buf_write_in buf off src (k : nat) :
  0 <= off -> (k < length src)%nat ->
  off + Z.of_nat (length src) <= Z.of_nat (length buf) ->
  rd (buf_write buf off src) (off + Z.of_nat k) = default 0 (src !! k).
Proof.
  intros Ho Hk Hfit. unfold rd, buf_write.
  rewrite list_lookup_inserts by lia. f_equal. f_equal. lia.
Qed.

Lemma length_buf_read buff off n : length (buf_read buff off n) = Z.to_nat n.
Proof. unfold buf_read. rewrite length_map, length_seq. reflexivity. Qed.

Lemma length_mem_read m p n : length (mem_read m p n) = Z.to_nat n.
Proof. unfold mem_read. rewrite length_map, length_seq. reflexivity. Qed.

Lemma buf_read_ext b1 b2 off n :
  0 <= off ->
  (forall j, off <= j < off + n -> rd b1 j = rd b2 j) ->
  buf_read b1 off n = buf_read b2 off n.
Proof.
  intros Ho H. unfold buf_read. apply map_ext_in. intros k Hk.
  apply in_seq in Hk. apply H. lia.
Qed.

Lemma map_lookup_seq (src : list Z) :
  map (fun k => default 0 (src !! k)) (seq 0 (length src)) = src.
Proof.
  apply list_eq. intros i. rewrite list_lookup_fmap.
  destruct (src !! i) as [x|] eqn:E.
  - apply lookup_lt_Some in E as Hi.
    rewrite lookup_seq_lt by lia. simpl. rewrite E. reflexivity.
  - apply lookup_ge_None in E as Hi.
    rewrite lookup_seq_ge by lia. reflexivity.
Qed.

Lemma buf_read_buf_write buf off src :
  0 <= off -> off + Z.of_nat (length src) <= Z.of_nat (length buf) ->
  buf_read (buf_write buf off src) off (Z.of_nat (length src)) = src.
Proof.
  intros Ho Hfit. unfold buf_read. rewrite Nat2Z.id.
  etransitivity; [|apply map_lookup_seq]. apply map_ext_in. intros k Hk.
  apply in_seq in Hk. apply rd_buf_write_in; lia.
Qed.

Lemma mem_read_mem_write m p src :
  mem_read (mem_write m p src) p (Z.of_nat (length src)) = src.
Proof.
  unfold mem_read. rewrite Nat2Z.id.
  etransitivity; [|apply map_lookup_seq]. apply map_ext_in. intros k Hk.
  apply in_seq in Hk. unfold mem_write.
  destruct (Z.leb_spec p (p + Z.of_nat k)); [|lia].
  destruct (Z.ltb_spec (p + Z.of_nat k) (p + Z.of_nat (length src))); [|lia].
  simpl. f_equal. f_equal. lia.
Qed.

(** Everything a receiver reads from a frame built by a sender. *)
Lemma built_frame_spec buf sid slot f payload :
  let n := Z.of_nat (length payload) in
  HeaderSize + n + 2 <= Z.of_nat (length buf) ->
  HeaderSize + n + 2 <= 255 ->
  let fr := built_frame buf sid slot f payload in
  genCRC16 (buf_write (put_header buf sid slot f) FrameData payload) (HeaderSize + n)
    = (fr, HeaderSize + n + 2) /\
  length fr = length buf /\
  checkCRC16 fr (HeaderSize + n + 2) = true /\
  (is_u32 sid -> read_le32 fr FrameServerId = sid) /\
  rd fr FrameSlotId = slot /\
  rd fr FrameFunction = func_code f /\
  buf_read fr FrameData n = payload.
Proof.
  intros n Hfit H255 fr. unfold HeaderSize, FrameData in *.
  set (b := buf_write (put_header buf sid slot f) 6 payload).
  assert (Hlb : length b = length buf).
  { unfold b. rewrite length_buf_write, length_put_header. reflexivity. }
  destruct (genCRC16_spec b (6 + n) ltac:(lia) ltac:(lia) ltac:(lia))
    as (buf' & E & Hlen & Hrd & _ & _ & Hok).
  assert (Hfr : fr = buf').
  { subst fr. unfold built_frame. change (fst (genCRC16 b (6 + n)) = buf').
    rewrite E. reflexivity. }
  rewrite Hfr.
  assert (Hhdr : forall j, 0 <= j < 6 -> rd buf' j = rd (put_header buf sid slot f) j).
  { intros j Hj. rewrite Hrd by lia. unfold b. apply rd_buf_write_lt. lia. }
  split; [rewrite E; reflexivity|].
  split; [congruence|].
  split; [exact Hok|].
  split; [|split; [|split]].
  - intros Hs. rewrite (read_le32_ext buf' (put_header buf sid slot f))
      by (intros j Hj; apply Hhdr; lia).
    apply read_le32_put_header; [lia|exact Hs].
  - unfold FrameSlotId. rewrite Hhdr by lia. apply rd_put_header_slot. lia.
  - unfold FrameFunction. rewrite Hhdr by lia. apply rd_put_header_func. lia.
  - rewrite (buf_read_ext buf' b) by (try lia; intros j Hj; apply Hrd; lia).
    unfold b, n. apply buf_read_buf_write; [lia|].
    rewrite length_put_header. lia.
Qed.

(** ** The paths through the member functions *)

Lemma client_inv_slot numSlots c i :
  client_inv PROTO_BUS_BUFFER_SIZE numSlots c ->
  0 <= i < SyncBusClient.m_numSlots c ->
  serverData_ok PROTO_BUS_BUFFER_SIZE (serveSlot c i).
Proof.
  intros (Hn & Hlen & _ & Hall) Hi.
  rewrite Forall_lookup in Hall. unfold serveSlot.
  destruct (SyncBusClient.m_serveSlots c !! Z.to_nat i) as [e|] eqn:E.
  - apply (Hall (Z.to_nat i)). rewrite lookup_take_lt by lia. exact E.
  - apply lookup_ge_None in E. lia.
Qed.

Lemma server_inv_slot numSlots s i :
  server_inv PROTO_BUS_BUFFER_SIZE numSlots s ->
  0 <= i < SyncBusServer.m_numSlots s ->
  clientSlot_ok PROTO_BUS_BUFFER_SIZE (clientSlot s i).
Proof.
  intros (Hn & Hlen & _ & Hall) Hi.
  rewrite Forall_lookup in Hall. unfold clientSlot.
  destruct (SyncBusServer.m_clientSlots s !! Z.to_nat i) as [e|] eqn:E.
  - apply (Hall (Z.to_nat i)). rewrite lookup_take_lt by lia. exact E.
  - apply lookup_ge_None in E. lia.
Qed.

Lemma u8_total_no_crc sz :
  0 <= sz -> HeaderSize + sz + 2 <= 255 ->
  u16 (u16 HeaderSize + sz) = HeaderSize + sz /\
  u16 (u16 HeaderSize + u16 sz) = HeaderSize + sz /\
  u8 (HeaderSize + sz) = HeaderSize + sz.
Proof.
  unfold HeaderSize, u16, u8. intros H0 H1.
  rewrite (Z.mod_small 6), (Z.mod_small sz), !(Z.mod_small (6 + sz)) by lia.
  auto.
Qed.

(** [getData] on a registered index. *)
Lemma Client_getData_sends numSlots send sid slot w :
  client_inv PROTO_BUS_BUFFER_SIZE numSlots (client w) ->
  0 <= slot < SyncBusClient.m_numSlots (client w) ->
  let fr := built_frame (SyncBusClient.m_buffer (client w)) sid
              (serverData_t.slotId (serveSlot (client w) slot)) GetReq [] in
  Client_getData PROTO_BUS_BUFFER_SIZE send sid slot w
    = (ok, call_send send fr 8 (set_client (client_with_buffer (client w) fr) w)).
Proof.
  intros Hinv Hslot fr.
  pose proof (client_inv_slot _ _ _ Hinv Hslot) as (Hnn & Hsz0 & Hsz).
  destruct Hinv as (Hn & Hlen & Hbuf & _).
  unfold Client_getData. rewrite Z.geb_leb, Z.gtb_ltb.
  destruct (Z.leb_spec (SyncBusClient.m_numSlots (client w)) slot); [lia|].
  destruct (Z.eqb_spec (serverData_t.data (serveSlot (client w) slot)) nullptr);
    [contradiction|].
  change (u16 HeaderSize + 2) with 8. unfold HeaderSize in Hsz.
  destruct (Z.ltb_spec PROTO_BUS_BUFFER_SIZE 8); [lia|].
  destruct (built_frame_spec (SyncBusClient.m_buffer (client w)) sid
              (serverData_t.slotId (serveSlot (client w) slot)) GetReq [])
    as (E & _); [simpl; unfold HeaderSize; lia|simpl; unfold HeaderSize; lia|].
  change (genCRC16
            (put_header (SyncBusClient.m_buffer (client w)) sid
               (serverData_t.slotId (serveSlot (client w) slot)) GetReq)
            HeaderSize = (fr, 8)) in E.
  rewrite E. reflexivity.
Qed.



(** The server's handling of a SetReq of the registered size. *)
Lemma Server_inputData_set send changed data size w i :
  HeaderSize + 2 <= size ->
  checkCRC16 data size = true ->
  read_le32 data FrameServerId = SyncBusServer.m_serverId (server w) ->
  rd data FrameFunction = func_code SetReq ->
  first_match (fun i => clientSlot_t.slotId (clientSlot (server w) i) =? rd data FrameSlotId)
    0 (Z.to_nat (SyncBusServer.m_numSlots (server w))) = Some i ->
  u8 (size - HeaderSize - 2) = clientSlot_t.size (clientSlot (server w) i) ->
  let w1 := call_changed changed (rd data FrameSlotId)
              (set_heap (mem_write (heap w) (clientSlot_t.data (clientSlot (server w) i))
                           (buf_read data FrameData (u8 (size - HeaderSize - 2)))) w) in
  let fr := built_frame (SyncBusServer.m_buffer (server w1))
              (SyncBusServer.m_serverId (server w1)) (rd data FrameSlotId) SetResp [] in
  Server_inputData PROTO_BUS_BUFFER_SIZE SyncBus_ENABLE_SET_ACK send changed data size w
    = if SyncBus_ENABLE_SET_ACK then
        if PROTO_BUS_BUFFER_SIZE <? 8 then (errOverflow, w1)
        else (ok, call_send send (fst (genCRC16
                      (put_header (SyncBusServer.m_buffer (server w1))
                         (SyncBusServer.m_serverId (server w1)) (rd data FrameSlotId) SetResp)
                      HeaderSize))
                    (snd (genCRC16
                      (put_header (SyncBusServer.m_buffer (server w1))
                         (SyncBusServer.m_serverId (server w1)) (rd data FrameSlotId) SetResp)
                      HeaderSize))
                    (set_server (server_with_buffer (server w1) fr) w1))
      else (ok, w1).
Proof.
  intros Hsz Hcrc Hid Hf Hfound Hlen w1 fr.
  unfold Server_inputData.
  change (u8 (HeaderSize + 2)) with 8. change (HeaderSize + 2) with 8 in Hsz.
  destruct (Z.ltb_spec size 8); [lia|]. rewrite Hcrc, Hid, Z.eqb_refl, Hf, Hfound.
  simpl negb. cbv iota. change (func_code SetReq =? func_code GetReq) with false.
  change (func_code SetReq =? func_code SetReq) with true. cbv iota.
  rewrite Hlen, Z.eqb_refl. simpl negb. cbv iota.
  rewrite <- Hlen. fold w1.
  destruct SyncBus_ENABLE_SET_ACK; [|reflexivity].
  change (u16 HeaderSize + 2) with 8. rewrite Z.gtb_ltb.
  destruct (PROTO_BUS_BUFFER_SIZE <? 8); [reflexivity|].
  destruct (genCRC16 _ HeaderSize) as [b sz] eqn:E.
  unfold fr, built_frame.
  change (buf_write ?b FrameData []) with b.
  change (HeaderSize + Z.of_nat (length (@nil Z))) with HeaderSize.
  rewrite E. reflexivity.
Qed.

(** The client's handling of a GetResp of the registered size. *)
Lemma Client_inputData_resp changed data size w i :
  HeaderSize + 2 <= size ->
  checkCRC16 data size = true ->
  rd data FrameFunction = func_code GetResp ->
  first_match
    (fun i => (serverData_t.serverId (serveSlot (client w) i) =? read_le32 data FrameServerId)
              && (serverData_t.slotId (serveSlot (client w) i) =? rd data FrameSlotId))
    0 (Z.to_nat (SyncBusClient.m_numSlots (client w))) = Some i ->
  u8 (size - HeaderSize - 2) = serverData_t.size (serveSlot (client w) i) ->
  Client_inputData changed data size w
    = (ok, call_changed changed (rd data FrameSlotId)
             (set_heap (mem_write (heap w) (serverData_t.data (serveSlot (client w) i))
                          (buf_read data FrameData (u8 (size - HeaderSize - 2)))) w)).
Proof.
  intros Hsz Hcrc Hf Hfound Hlen.
  unfold Client_inputData.
  change (u8 (HeaderSize + 2)) with 8. change (HeaderSize + 2) with 8 in Hsz.
  destruct (Z.ltb_spec size 8); [lia|]. rewrite Hcrc, Hf, Hfound.
  simpl negb. cbv iota. change (func_code GetResp =? func_code GetResp) with true.
  cbv iota. rewrite Hlen, Z.eqb_refl. reflexivity.
Qed.

(** The eight bytes of a payload-free frame. *)
Lemma header_frame_spec buf sid slot f :
  HeaderSize + 2 <= Z.of_nat (length buf) ->
  let fr := built_frame buf sid slot f [] in
  genCRC16 (put_header buf sid slot f) HeaderSize = (fr, 8) /\
  length fr = length buf /\
  checkCRC16 fr 8 = true /\
  (is_u32 sid -> read_le32 fr FrameServerId = sid) /\
  rd fr FrameSlotId = slot /\
  rd fr FrameFunction = func_code f.
Proof.
  intros Hfit fr.
  destruct (built_frame_spec buf sid slot f []) as (E & Hl & Hc & Hid & Hs & Hf & _);
    [simpl; unfold HeaderSize in *; lia|simpl; unfold HeaderSize; lia|].
  repeat split; assumption.
Qed.


Lemma first_serveSlot_scan c sid slot i :
  SyncBusClient.m_numSlots c <= 255 ->
  first_serveSlot c sid slot i ->
  first_match
    (fun i => (serverData_t.serverId (serveSlot c i) =? sid)
              && (serverData_t.slotId (serveSlot c i) =? slot))
    0 (Z.to_nat (SyncBusClient.m_numSlots c)) = Some i.
Proof.
  intros Hn (Hi & Hid & Hslot & Hfirst).
  apply first_match_some; [lia|exact Hi| |].
  - rewrite Hid, Hslot, !Z.eqb_refl. reflexivity.
  - intros j Hj. specialize (Hfirst j Hj). apply andb_false_iff.
    destruct (Z.eqb_spec (serverData_t.serverId (serveSlot c j)) sid); [|left; reflexivity].
    destruct (Z.eqb_spec (serverData_t.slotId (serveSlot c j)) slot); [|right; reflexivity].
    exfalso. apply Hfirst. split; assumption.
Qed.

Lemma first_clientSlot_scan s slot i :
  SyncBusServer.m_numSlots s <= 255 ->
  first_clientSlot s slot i ->
  first_match (fun i => clientSlot_t.slotId (clientSlot s i) =? slot)
    0 (Z.to_nat (SyncBusServer.m_numSlots s)) = Some i.
Proof.
  intros Hn (Hi & Hslot & Hfirst).
  apply first_match_some; [lia|exact Hi| |].
  - rewrite Hslot. apply Z.eqb_refl.
  - intros j Hj. apply Z.eqb_neq. apply Hfirst. exact Hj.
Qed.

Lemma u8_payload_length size :
  HeaderSize + 2 <= size <= 255 -> u8 (size - HeaderSize - 2) = payload_length size.
Proof.
  unfold payload_length, HeaderSize. intros H. apply u8_id. unfold is_u8. lia.
Qed.

(** C3, as amended.  Whatever the callbacks, for a frame of at least 8 bytes
    (and at most 255, the range of its length) with a valid checksum: if it
    is a GetResp and the first client entry registered for its identifier
    and slot id has a size other than the payload length, the client's
    [inputData] returns [errFault]; if it is a SetReq carrying the server's
    own identifier and the first server entry registered for its slot id has
    a size other than the payload length, the server's [inputData] returns
    [errFault].  In both cases the world is returned as it was: no buffer
    written, no change callback, no send callback. *)
Theorem size_mismatch_is_rejected
    (ssend : option SyncBusSendData_cb)
    (cchanged schanged : option SyncBusDataChanged_cb)
    (data : list Z) (size : Z) (w : World) (i : Z) :
  HeaderSize + 2 <= size <= 255 ->
  checkCRC16 data size = true ->
  (SyncBusClient.m_numSlots (client w) <= 255 ->
   rd data FrameFunction = func_code GetResp ->
   first_serveSlot (client w) (read_le32 data FrameServerId) (rd data FrameSlotId) i ->
   payload_length size <> serverData_t.size (serveSlot (client w) i) ->
   Client_inputData cchanged data size w = (errFault, w)) /\
  (SyncBusServer.m_numSlots (server w) <= 255 ->
   read_le32 data FrameServerId = SyncBusServer.m_serverId (server w) ->
   rd data FrameFunction = func_code SetReq ->
   first_clientSlot (server w) (rd data FrameSlotId) i ->
   payload_length size <> clientSlot_t.size (clientSlot (server w) i) ->
   Server_inputData PROTO_BUS_BUFFER_SIZE SyncBus_ENABLE_SET_ACK
     ssend schanged data size w = (errFault, w)).
Proof.
  intros Hsz Hcrc.
  pose proof (u8_payload_length size Hsz) as Hpl.
  unfold Client_inputData, Server_inputData.
  change (u8 (HeaderSize + 2)) with 8. change (HeaderSize + 2) with 8 in Hsz.
  destruct (Z.ltb_spec size 8); [lia|]. rewrite Hcrc, Hpl. simpl negb. cbv iota.
  split.
  - intros Hn Hf Hfirst Hne.
    rewrite Hf, (first_serveSlot_scan _ _ _ i Hn Hfirst).
    change (func_code GetResp =? func_code GetResp) with true. cbv iota.
    destruct (Z.eqb_spec (payload_length size)
                (serverData_t.size (serveSlot (client w) i))); [contradiction|].
    reflexivity.
  - intros Hn Hid Hf Hfirst Hne.
    rewrite Hid, Z.eqb_refl, Hf, (first_clientSlot_scan _ _ i Hn Hfirst).
    simpl negb. cbv iota.
    change (func_code SetReq =? func_code GetReq) with false.
    change (func_code SetReq =? func_code SetReq) with true. cbv iota.
    destruct (Z.eqb_spec (payload_length size)
                (clientSlot_t.size (clientSlot (server w) i))); [contradiction|].
    reflexivity.
Qed.

(** ** Preservation of the slot-table invariants *)

Lemma length_genCRC16 buff len : length (fst (genCRC16 buff len)) = length buff.
Proof. unfold genCRC16. simpl. rewrite !length_wr. reflexivity. Qed.

Lemma client_inv_with_buffer numSlots c buf :
  client_inv PROTO_BUS_BUFFER_SIZE numSlots c ->
  length buf = length (SyncBusClient.m_buffer c) ->
  client_inv PROTO_BUS_BUFFER_SIZE numSlots (client_with_buffer c buf).
Proof.
  intros (H1 & H2 & H3 & H4) Hl. unfold client_inv, client_with_buffer. simpl.
  repeat split; try assumption; try lia; congruence.
Qed.

Lemma server_inv_with_buffer numSlots s buf :
  server_inv PROTO_BUS_BUFFER_SIZE numSlots s ->
  length buf = length (SyncBusServer.m_buffer s) ->
  server_inv PROTO_BUS_BUFFER_SIZE numSlots (server_with_buffer s buf).
Proof.
  intros (H1 & H2 & H3 & H4) Hl. unfold server_inv, server_with_buffer. simpl.
  repeat split; try assumption; try lia; congruence.
Qed.

Lemma take_insert_next {A} (l : list A) (n : nat) (x : A) :
  (n < length l)%nat -> take (S n) (<[n := x]> l) = take n l ++ [x].
Proof.
  intros Hn. rewrite (take_S_r _ _ x) by (apply list_lookup_insert_eq; exact Hn).
  rewrite take_insert_ge by lia. reflexivity.
Qed.

(** Replaces the buffer bound by a [genCRC16] equation with the call. *)
Ltac crc_buffer_length :=
  match goal with
  | H : genCRC16 ?b ?n = (?buf, ?sz) |- _ =>
      replace buf with (fst (genCRC16 b n)) by (rewrite H; reflexivity)
  end.

Section Preservation.

Variables numSlotsC numSlotsS : Z.
Hypothesis client_slots_fit : numSlotsC <= 255.
Hypothesis server_slots_fit : numSlotsS <= 255.

Local Abbreviation inv := (world_inv PROTO_BUS_BUFFER_SIZE numSlotsC numSlotsS).

Lemma Client_addData_keeps data sid slot size w :
  is_u8 size -> inv w ->
  inv (snd (Client_addData PROTO_BUS_BUFFER_SIZE numSlotsC data sid slot size w)).
Proof.
  intros Hsz [Hc Hs]. unfold Client_addData.
  rewrite Z.geb_leb, Z.gtb_ltb. change (u16 HeaderSize) with 6.
  destruct (Z.eqb_spec data nullptr); [split; assumption|].
  destruct (Z.leb_spec numSlotsC (SyncBusClient.m_numSlots (client w)));
    [split; assumption|].
  destruct (Z.ltb_spec PROTO_BUS_BUFFER_SIZE (6 + size + 2)); [split; assumption|].
  split; [|exact Hs]. simpl.
  destruct Hc as (Hn & Hlen & Hbuf & Hall).
  rewrite (u8_id (_ + 1)) by (unfold is_u8; lia).
  unfold client_inv. simpl.
  split; [lia|]. split; [rewrite length_insert; exact Hlen|]. split; [exact Hbuf|].
  replace (Z.to_nat (SyncBusClient.m_numSlots (client w) + 1))
    with (S (Z.to_nat (SyncBusClient.m_numSlots (client w)))) by lia.
  rewrite take_insert_next by lia.
  apply Forall_app. split; [exact Hall|].
  constructor; [|constructor].
  unfold serverData_ok, is_u8, HeaderSize in *. simpl. repeat split; lia || assumption.
Qed.

Lemma Server_addSlot_keeps data slot size w :
  is_u8 size -> inv w ->
  inv (snd (Server_addSlot PROTO_BUS_BUFFER_SIZE numSlotsS data slot size w)).
Proof.
  intros Hsz [Hc Hs]. unfold Server_addSlot.
  rewrite Z.geb_leb, Z.gtb_ltb. change (u16 HeaderSize) with 6.
  destruct (Z.eqb_spec data nullptr); [split; assumption|].
  destruct (Z.leb_spec numSlotsS (SyncBusServer.m_numSlots (server w)));
    [split; assumption|].
  destruct (Z.ltb_spec PROTO_BUS_BUFFER_SIZE (6 + size + 2)); [split; assumption|].
  split; [exact Hc|]. simpl.
  destruct Hs as (Hn & Hlen & Hbuf & Hall).
  rewrite (u8_id (_ + 1)) by (unfold is_u8; lia).
  unfold server_inv. simpl.
  split; [lia|]. split; [rewrite length_insert; exact Hlen|]. split; [exact Hbuf|].
  replace (Z.to_nat (SyncBusServer.m_numSlots (server w) + 1))
    with (S (Z.to_nat (SyncBusServer.m_numSlots (server w)))) by lia.
  rewrite take_insert_next by lia.
  apply Forall_app. split; [exact Hall|].
  constructor; [|constructor].
  unfold clientSlot_ok, is_u8, HeaderSize in *. simpl. repeat split; lia || assumption.
Qed.

Lemma inv_set_client_buffer w buf :
  inv w -> length buf = length (SyncBusClient.m_buffer (client w)) ->
  inv (set_client (client_with_buffer (client w) buf) w).
Proof.
  intros [Hc Hs] Hl. split; [|exact Hs]. simpl. apply client_inv_with_buffer; assumption.
Qed.

Lemma inv_set_server_buffer w buf :
  inv w -> length buf = length (SyncBusServer.m_buffer (server w)) ->
  inv (set_server (server_with_buffer (server w) buf) w).
Proof.
  intros [Hc Hs] Hl. split; [exact Hc|]. simpl. apply server_inv_with_buffer; assumption.
Qed.

Lemma inv_set_heap w h : inv w -> inv (set_heap h w).
Proof. intros [Hc Hs]. split; assumption. Qed.

Lemma Client_getData_keeps send sid slot w :
  send_keeps inv send -> inv w ->
  inv (snd (Client_getData PROTO_BUS_BUFFER_SIZE send sid slot w)).
Proof.
  intros Hsend Hinv. unfold Client_getData.
  repeat case_match; simpl; try assumption.
  apply Hsend. apply inv_set_client_buffer; [assumption|].
  crc_buffer_length.
  rewrite length_genCRC16, length_put_header. reflexivity.
Qed.

Lemma Client_setData_keeps send sid slot w :
  send_keeps inv send -> inv w ->
  inv (snd (Client_setData PROTO_BUS_BUFFER_SIZE send sid slot w)).
Proof.
  intros Hsend Hinv. unfold Client_setData.
  repeat case_match; simpl; try assumption.
  apply Hsend. apply inv_set_client_buffer; [assumption|].
  crc_buffer_length.
  rewrite length_genCRC16, length_buf_write, length_put_header. reflexivity.
Qed.

Lemma Client_inputData_keeps changed data size w :
  changed_keeps inv changed -> inv w ->
  inv (snd (Client_inputData changed data size w)).
Proof.
  intros Hchanged Hinv. unfold Client_inputData.
  repeat case_match; simpl; try assumption.
  apply Hchanged. apply inv_set_heap. assumption.
Qed.

Lemma Server_inputData_keeps send changed data size w :
  send_keeps inv send -> changed_keeps inv changed -> inv w ->
  inv (snd (Server_inputData PROTO_BUS_BUFFER_SIZE SyncBus_ENABLE_SET_ACK
              send changed data size w)).
Proof.
  intros Hsend Hchanged Hinv. unfold Server_inputData.
  repeat case_match; simpl; try assumption;
    try (apply Hchanged; apply inv_set_heap; assumption).
  - apply Hsend. apply inv_set_server_buffer; [assumption|].
    crc_buffer_length.
    rewrite length_genCRC16, length_buf_write, length_put_header. reflexivity.
  - apply Hsend. apply inv_set_server_buffer.
    + apply Hchanged. apply inv_set_heap. assumption.
    + crc_buffer_length.
      rewrite length_genCRC16, length_put_header. reflexivity.
Qed.

Lemma run_op_keeps cb o w :
  send_keeps inv (client_send cb) -> changed_keeps inv (client_changed cb) ->
  send_keeps inv (server_send cb) -> changed_keeps inv (server_changed cb) ->
  op_typed o -> inv w ->
  inv (run_op (mkConfig PROTO_BUS_BUFFER_SIZE SyncBus_ENABLE_SET_ACK numSlotsC numSlotsS)
         cb o w).
Proof.
  intros H1 H2 H3 H4 Ht Hinv. destruct o; simpl in *.
  - apply Client_addData_keeps; assumption.
  - apply Client_getData_keeps; assumption.
  - apply Client_setData_keeps; assumption.
  - apply Client_inputData_keeps; assumption.
  - apply Server_addSlot_keeps; assumption.
  - apply Server_inputData_keeps; assumption.
  - destruct Hinv as [Hc Hs]. split; [exact Hc|]. exact Hs.
  - apply inv_set_heap. assumption.
Qed.

Lemma run_keeps cb ops : forall w,
  send_keeps inv (client_send cb) -> changed_keeps inv (client_changed cb) ->
  send_keeps inv (server_send cb) -> changed_keeps inv (server_changed cb) ->
  Forall op_typed ops -> inv w ->
  inv (run (mkConfig PROTO_BUS_BUFFER_SIZE SyncBus_ENABLE_SET_ACK numSlotsC numSlotsS)
         cb ops w).
Proof.
  induction ops as [|o ops IH]; intros w H1 H2 H3 H4 Ht Hinv; simpl; [exact Hinv|].
  inversion Ht; subst. apply IH; auto. apply run_op_keeps; assumption.
Qed.

End Preservation.



End Properties.

(** ** The properties at concrete inputs *)

Lemma loggers_keep (P : World -> Prop) :
  (forall e w, P w -> P (log e w)) ->
  send_keeps P (Some (log_send Client)) /\ changed_keeps P (Some (log_changed Client)) /\
  send_keeps P (Some (log_send Server)) /\ changed_keeps P (Some (log_changed Server)).
Proof.
  intros H. repeat split; intros ? ? ?; try intros ?; simpl; apply H; assumption.
Qed.

Lemma world_inv_log b nc ns e w : world_inv b nc ns w -> world_inv b nc ns (log e w).
Proof. intros [Hc Hs]. split; assumption. Qed.

Lemma demo_run_inv ops :
  Forall op_typed ops -> world_inv 64 4 4 (run demo_cfg demo_logging ops demo_initial).
Proof.
  intros Ht.
  destruct (loggers_keep (world_inv 64 4 4) (world_inv_log 64 4 4)) as (H1 & H2 & H3 & H4).
  apply (run_keeps 64 true 4 4 ltac:(lia) ltac:(lia) demo_logging ops);
    try assumption.
  split; unfold client_inv, server_inv; simpl; repeat split; try lia; constructor.
Qed.

Lemma demo_world_inv : world_inv 64 4 4 demo_world.
Proof. apply demo_run_inv. repeat constructor; unfold is_u8; lia. Qed.



Lemma inputData_error_ladder_witness :
  (Client_inputData (Some (log_changed Client)) [1; 2; 3] 3 demo_world
     = (errFault, demo_world) /\
   Server_inputData 64 true (Some (log_send Server)) (Some (log_changed Server))
     [1; 2; 3] 3 demo_world = (errFault, demo_world)) /\
  (Client_inputData (Some (log_changed Client)) (replicate 8 0) 8 demo_world
     = (errCrc, demo_world) /\
   Server_inputData 64 true (Some (log_send Server)) (Some (log_changed Server))
     (replicate 8 0) 8 demo_world = (errCrc, demo_world)).
Proof.
  split.
  - apply (inputData_error_ladder 64 true (Some (log_send Server))
             (Some (log_changed Client)) (Some (log_changed Server)) [1; 2; 3] 3 demo_world).
    unfold HeaderSize. lia.
  - apply (inputData_error_ladder 64 true (Some (log_send Server))
             (Some (log_changed Client)) (Some (log_changed Server))
             (replicate 8 0) 8 demo_world).
    + unfold HeaderSize. lia.
    + vm_compute. reflexivity.
Defined.

Lemma server_ignores_foreign_identifier_witness :
  Server_inputData 64 true (Some (log_send Server)) (Some (log_changed Server))
    foreign_set_frame 9 demo_world = (ok, demo_world).
Proof.
  apply (server_ignores_foreign_identifier 64 true).
  - unfold HeaderSize. lia.
  - vm_compute. reflexivity.
  - vm_compute. discriminate.
Defined.

Lemma unmatched_traffic_is_ignored_witness :
  Client_inputData (Some (log_changed Client)) unknown_resp_frame 12 demo_world
    = (ok, demo_world) /\
  Client_inputData (Some (log_changed Client)) ack_frame 8 demo_world
    = (ok, demo_world) /\
  Server_inputData 64 true (Some (log_send Server)) (Some (log_changed Server))
    get9_frame 8 demo_world = (ok, demo_world).
Proof.
  split; [|split].
  - destruct (unmatched_traffic_is_ignored 64 true (Some (log_send Server))
                (Some (log_changed Client)) (Some (log_changed Server))
                unknown_resp_frame 12 demo_world) as (A & _ & _).
    + unfold HeaderSize. lia.
    + vm_compute. reflexivity.
    + apply A.
      * vm_compute. split; congruence.
      * vm_compute. reflexivity.
      * intros i Hi [E _].
        change (SyncBusClient.m_numSlots (client demo_world)) with 1 in Hi.
        assert (i = 0) as -> by lia. vm_compute in E. discriminate.
  - destruct (unmatched_traffic_is_ignored 64 true (Some (log_send Server))
                (Some (log_changed Client)) (Some (log_changed Server))
                ack_frame 8 demo_world) as (_ & B & _).
    + unfold HeaderSize. lia.
    + vm_compute. reflexivity.
    + apply B. vm_compute. reflexivity.
  - destruct (unmatched_traffic_is_ignored 64 true (Some (log_send Server))
                (Some (log_changed Client)) (Some (log_changed Server))
                get9_frame 8 demo_world) as (_ & _ & C).
    + unfold HeaderSize. lia.
    + vm_compute. reflexivity.
    + apply C.
      * vm_compute. split; congruence.
      * vm_compute. reflexivity.
      * left. vm_compute. reflexivity.
      * intros i Hi E.
        change (SyncBusServer.m_numSlots (server demo_world)) with 1 in Hi.
        assert (i = 0) as -> by lia. vm_compute in E. discriminate.
Defined.

Lemma registration_overflow_boundary_witness :
  fst (Client_addData 64 4 0 305419896 3 4 demo_world) = errFault /\
  fst (Client_addData 64 1 1200 305419896 3 4 demo_world) = errOverflow /\
  fst (Client_addData 64 4 1200 305419896 3 56 demo_world) = ok /\
  fst (Client_addData 64 4 1200 305419896 3 57 demo_world) = errOverflow /\
  fst (Server_addSlot 64 4 2200 3 56 demo_world) = ok /\
  fst (Server_addSlot 64 4 2200 3 57 demo_world) = errOverflow.
Proof.
  assert (Hnn : 1200 <> nullptr) by (unfold nullptr; lia).
  assert (Hnn' : 2200 <> nullptr) by (unfold nullptr; lia).
  split; [|split; [|split; [|split; [|split]]]].
  - destruct (registration_overflow_boundary 64 4 0 305419896 3 4 demo_world) as [A _].
    destruct (A eq_refl) as [-> _]. reflexivity.
  - destruct (registration_overflow_boundary 64 1 1200 305419896 3 4 demo_world) as [_ B].
    destruct (B Hnn) as (F & _). rewrite F; [reflexivity|].
    change (SyncBusClient.m_numSlots (client demo_world)) with 1. lia.
  - destruct (registration_overflow_boundary 64 4 1200 305419896 3 56 demo_world) as [_ B].
    destruct (B Hnn) as (_ & _ & F & _).
    destruct F as [F _];
      [change (SyncBusClient.m_numSlots (client demo_world)) with 1; lia|].
    rewrite F; [reflexivity|unfold HeaderSize; lia].
  - destruct (registration_overflow_boundary 64 4 1200 305419896 3 57 demo_world) as [_ B].
    destruct (B Hnn) as (_ & _ & F & _).
    destruct F as [_ F];
      [change (SyncBusClient.m_numSlots (client demo_world)) with 1; lia|].
    rewrite F; [reflexivity|unfold HeaderSize; lia].
  - destruct (registration_overflow_boundary 64 4 2200 0 3 56 demo_world) as [_ B].
    destruct (B Hnn') as (_ & _ & _ & F).
    destruct F as [F _];
      [change (SyncBusServer.m_numSlots (server demo_world)) with 1; lia|].
    rewrite F; [reflexivity|unfold HeaderSize; lia].
  - destruct (registration_overflow_boundary 64 4 2200 0 3 57 demo_world) as [_ B].
    destruct (B Hnn') as (_ & _ & _ & F).
    destruct F as [_ F];
      [change (SyncBusServer.m_numSlots (server demo_world)) with 1; lia|].
    rewrite F; [reflexivity|unfold HeaderSize; lia].
Defined.


Lemma size_mismatch_is_rejected_witness :
  Client_inputData (Some (log_changed Client)) short_resp_frame 9 demo_world
    = (errFault, demo_world) /\
  Server_inputData 64 true (Some (log_send Server)) (Some (log_changed Server))
    short_set_frame 9 demo_world = (errFault, demo_world).
Proof.
  split.
  - destruct (size_mismatch_is_rejected 64 true (Some (log_send Server))
                (Some (log_changed Client)) (Some (log_changed Server))
                short_resp_frame 9 demo_world 0) as (A & _).
    + unfold HeaderSize. lia.
    + vm_compute. reflexivity.
    + apply A.
      * change (SyncBusClient.m_numSlots (client demo_world)) with 1. lia.
      * vm_compute. reflexivity.
      * split; [change (SyncBusClient.m_numSlots (client demo_world)) with 1; lia|].
        split; [vm_compute; reflexivity|]. split; [vm_compute; reflexivity|].
        intros j Hj. lia.
      * vm_compute. discriminate.
  - destruct (size_mismatch_is_rejected 64 true (Some (log_send Server))
                (Some (log_changed Client)) (Some (log_changed Server))
                short_set_frame 9 demo_world 0) as (_ & B).
    + unfold HeaderSize. lia.
    + vm_compute. reflexivity.
    + apply B.
      * change (SyncBusServer.m_numSlots (server demo_world)) with 1. lia.
      * vm_compute. reflexivity.
      * vm_compute. reflexivity.
      * split; [change (SyncBusServer.m_numSlots (server demo_world)) with 1; lia|].
        split; [vm_compute; reflexivity|]. intros j Hj. lia.
      * vm_compute. discriminate.
Defined.


(** ** Inputs on which C2, C3 and C10, as first stated, do not hold *)

(** C2 as stated.  (i) The server has, as its second entry, a slot with id
    2, size 4 and content [X], and the client has an entry for
    ([0x12345678], 2) of size 4; yet the server answers from its first entry
    for id 2, of size 1, the client's [inputData] returns [errFault] and the
    client's buffer stays as it was.  (ii) The server has a slot with id 2,
    size 2 and content [X], and the client has, as its second entry, one for
    ([0x12345678], 2) of size 2; yet the answer is matched against the
    client's first entry for that pair, of size 4, and [inputData] returns
    [errFault].  (iii) In a build with a capacity of 300 bytes the server's
    only slot has id 2, size 250 and content [X], and the client's only
    entry is for ([0x12345678], 2), of size 250; yet header + 250 + 2 = 258
    does not fit the [uint8_t] length, the response is handed over with
    length 2, the client's [inputData] returns [errFault], the client's
    buffer stays as it was and the change callback does not run. *)
Lemma get_round_trip_claim_counterexample :
  (SyncBusServer.m_serverId (server dup_server_world) = 305419896 /\
   1 < SyncBusServer.m_numSlots (server dup_server_world) /\
   clientSlot_t.slotId (clientSlot (server dup_server_world) 1) = 2 /\
   clientSlot_t.size (clientSlot (server dup_server_world) 1) = 4 /\
   mem_read (heap dup_server_world)
     (clientSlot_t.data (clientSlot (server dup_server_world) 1)) 4 = [222; 173; 190; 239] /\
   0 < SyncBusClient.m_numSlots (client dup_server_world) /\
   serveSlot (client dup_server_world) 0 = serverData_t.mk 1000 305419896 2 4 /\
   omap returned
     (trace (snd (Client_getData 64 (Some (clientSend 64 true)) 305419896 0
                    dup_server_world))) = [errFault; ok] /\
   mem_read (heap (snd (Client_getData 64 (Some (clientSend 64 true)) 305419896 0
                          dup_server_world))) 1000 4 = [9; 9; 9; 9] /\
   omap (changed_by Client)
     (trace (snd (Client_getData 64 (Some (clientSend 64 true)) 305419896 0
                    dup_server_world))) = []) /\
  (SyncBusServer.m_serverId (server dup_client_world) = 305419896 /\
   0 < SyncBusServer.m_numSlots (server dup_client_world) /\
   clientSlot (server dup_client_world) 0 = clientSlot_t.mk 2000 2 2 /\
   mem_read (heap dup_client_world) 2000 2 = [222; 173] /\
   1 < SyncBusClient.m_numSlots (client dup_client_world) /\
   serveSlot (client dup_client_world) 1 = serverData_t.mk 1100 305419896 2 2 /\
   omap returned
     (trace (snd (Client_getData 64 (Some (clientSend 64 true)) 305419896 1
                    dup_client_world))) = [errFault; ok] /\
   mem_read (heap (snd (Client_getData 64 (Some (clientSend 64 true)) 305419896 1
                          dup_client_world))) 1100 2 = [0; 0]) /\
  (SyncBusServer.m_serverId (server wide_pair_world) = 305419896 /\
   SyncBusServer.m_numSlots (server wide_pair_world) = 1 /\
   clientSlot (server wide_pair_world) 0 = clientSlot_t.mk 2000 2 250 /\
   mem_read (heap wide_pair_world) 2000 250 = [222; 173; 190; 239] ++ replicate 246 0 /\
   SyncBusClient.m_numSlots (client wide_pair_world) = 1 /\
   serveSlot (client wide_pair_world) 0 = serverData_t.mk 1000 305419896 2 250 /\
   HeaderSize + 250 + 2 <= 300 /\
   map snd (omap (sent_by Server)
              (trace (snd (Client_getData 300 (Some (clientSend 300 true)) 305419896 0
                             wide_pair_world)))) = [2] /\
   omap returned
     (trace (snd (Client_getData 300 (Some (clientSend 300 true)) 305419896 0
                    wide_pair_world))) = [errFault; ok] /\
   mem_read (heap (snd (Client_getData 300 (Some (clientSend 300 true)) 305419896 0
                          wide_pair_world))) 1000 250 = [9; 9; 9; 9] ++ replicate 246 0 /\
   omap (changed_by Client)
     (trace (snd (Client_getData 300 (Some (clientSend 300 true)) 305419896 0
                    wide_pair_world))) = []).
Proof.
  split; [|split].
  - split; [vm_compute; reflexivity|]. split; [vm_compute; reflexivity|].
    split; [vm_compute; reflexivity|]. split; [vm_compute; reflexivity|].
    split; [vm_compute; reflexivity|]. split; [vm_compute; reflexivity|].
    split; [vm_compute; reflexivity|]. split; [vm_compute; reflexivity|].
    split; vm_compute; reflexivity.
  - split; [vm_compute; reflexivity|]. split; [vm_compute; reflexivity|].
    split; [vm_compute; reflexivity|]. split; [vm_compute; reflexivity|].
    split; [vm_compute; reflexivity|]. split; [vm_compute; reflexivity|].
    split; vm_compute; reflexivity.
  - split; [vm_compute; reflexivity|]. split; [vm_compute; reflexivity|].
    split; [vm_compute; reflexivity|]. split; [vm_compute; reflexivity|].
    split; [vm_compute; reflexivity|]. split; [vm_compute; reflexivity|].
    split; [unfold HeaderSize; lia|].
    split; [vm_compute; reflexivity|]. split; [vm_compute; reflexivity|].
    split; vm_compute; reflexivity.
Qed.


(** C3 as stated.  (i) A SetReq for a registered slot id with a payload of
    the wrong length, carrying another server's identifier, is answered with
    [ok], not [errFault].  (ii) With two client entries for the same
    (identifier, slot id), a GetResp whose payload length differs from the
    second entry's size is applied to the first entry: [ok] is returned, the
    first entry's buffer is overwritten and the change callback runs. *)
Lemma size_mismatch_claim_counterexample :
  (checkCRC16 foreign_set_frame 9 = true /\
   rd foreign_set_frame FrameFunction = func_code SetReq /\
   0 < SyncBusServer.m_numSlots (server demo_world) /\
   clientSlot_t.slotId (clientSlot (server demo_world) 0) = rd foreign_set_frame FrameSlotId /\
   payload_length 9 <> clientSlot_t.size (clientSlot (server demo_world) 0) /\
   fst (Server_inputData 64 true (Some (log_send Server)) (Some (log_changed Server))
          foreign_set_frame 9 demo_world) = ok) /\
  (checkCRC16 resp4_frame 12 = true /\
   rd resp4_frame FrameFunction = func_code GetResp /\
   1 < SyncBusClient.m_numSlots (client dup_client_world) /\
   serverData_t.serverId (serveSlot (client dup_client_world) 1)
     = read_le32 resp4_frame FrameServerId /\
   serverData_t.slotId (serveSlot (client dup_client_world) 1)
     = rd resp4_frame FrameSlotId /\
   payload_length 12 <> serverData_t.size (serveSlot (client dup_client_world) 1) /\
   fst (Client_inputData (Some (log_changed Client)) resp4_frame 12 dup_client_world) = ok /\
   mem_read (heap dup_client_world) 1000 4 = [9; 9; 9; 9] /\
   mem_read (heap (snd (Client_inputData (Some (log_changed Client)) resp4_frame 12
                          dup_client_world))) 1000 4 = [1; 2; 3; 4] /\
   omap (changed_by Client)
     (trace (snd (Client_inputData (Some (log_changed Client)) resp4_frame 12
                    dup_client_world))) = [2]).
Proof.
  split.
  - split; [vm_compute; reflexivity|]. split; [vm_compute; reflexivity|].
    split; [vm_compute; reflexivity|]. split; [vm_compute; reflexivity|].
    split; [vm_compute; discriminate|]. vm_compute; reflexivity.
  - split; [vm_compute; reflexivity|]. split; [vm_compute; reflexivity|].
    split; [vm_compute; reflexivity|]. split; [vm_compute; reflexivity|].
    split; [vm_compute; reflexivity|]. split; [vm_compute; discriminate|].
    split; [vm_compute; reflexivity|]. split; [vm_compute; reflexivity|].
    split; vm_compute; reflexivity.
Qed.

(** ** Further properties of the codec *)

Lemma wr_rd_id buff pos :
  0 <= pos < Z.of_nat (length buff) -> wr buff pos (rd buff pos) = buff.
Proof.
  intros H. unfold wr, rd.
  destruct (buff !! Z.to_nat pos) as [x|] eqn:E.
  - simpl. apply list_insert_id. exact E.
  - apply lookup_ge_None in E. lia.
Qed.

Lemma le32_bytes_arith b0 b1 b2 b3 :
  is_u8 b0 -> is_u8 b1 -> is_u8 b2 -> is_u8 b3 ->
  let v := Z.lor (Z.lor (Z.lor b0 (Z.shiftl b1 8)) (Z.shiftl b2 16)) (Z.shiftl b3 24) in
  is_u32 v /\
  u8 (Z.land v 255) = b0 /\
  u8 (Z.land (Z.shiftr v 8) 255) = b1 /\
  u8 (Z.land (Z.shiftr v 16) 255) = b2 /\
  u8 (Z.land (Z.shiftr v 24) 255) = b3.
Proof.
  intros H0 H1 H2 H3 v. unfold is_u8, is_u32, u8 in *.
  assert (Hv : v = b0 + b1 * 256 + b2 * 65536 + b3 * 16777216).
  { unfold v.
    rewrite (lor_shiftl_add b0 b1 8) by (change (2 ^ 8) with 256; lia).
    rewrite (Z.shiftl_mul_pow2 b1 8) by lia. change (2 ^ 8) with 256.
    rewrite (lor_shiftl_add _ b2 16) by (change (2 ^ 16) with 65536; lia).
    rewrite (Z.shiftl_mul_pow2 b2 16) by lia. change (2 ^ 16) with 65536.
    rewrite (lor_shiftl_add _ b3 24) by (change (2 ^ 24) with 16777216; lia).
    rewrite (Z.shiftl_mul_pow2 b3 24) by lia. reflexivity. }
  rewrite !land_255, !Z.mod_mod, !Z.shiftr_div_pow2 by lia.
  change (2 ^ 8) with 256. change (2 ^ 16) with 65536. change (2 ^ 24) with 16777216.
  rewrite Hv. repeat split; try lia; Z.div_mod_to_equations; lia.
Qed.

Lemma crc_shift_even k : 0 <= k -> crc_shift (2 * k) = k.
Proof.
  intros Hk. unfold crc_shift. rewrite land_1, Z.shiftr_div_pow2 by lia.
  change (2 ^ 1) with 2.
  replace ((2 * k) mod 2) with 0 by (symmetry; rewrite Z.mul_comm; apply Z.mod_mul; lia).
  simpl. rewrite Z.mul_comm. apply Z.div_mul. lia.
Qed.

Lemma crc_iter_pow2 n k :
  0 <= k -> Nat.iter n crc_shift (k * 2 ^ Z.of_nat n) = k.
Proof.
  revert k. induction n as [|n IH]; intros k Hk.
  - simpl. lia.
  - rewrite Nat2Z.inj_succ, Z.pow_succ_r by lia. simpl.
    replace (k * (2 * 2 ^ Z.of_nat n)) with ((2 * k) * 2 ^ Z.of_nat n) by lia.
    rewrite IH by lia. apply crc_shift_even. exact Hk.
Qed.

Lemma lxor_low_byte c : 0 <= c -> Z.lxor c (c mod 256) = c / 256 * 256.
Proof.
  intros Hc. apply Z.bits_inj'. intros n Hn.
  change 256 with (2 ^ 8).
  rewrite Z.lxor_spec, <- Z.shiftr_div_pow2, <- Z.shiftl_mul_pow2 by lia.
  destruct (Z_lt_dec n 8).
  - rewrite Z.mod_pow2_bits_low, Z.shiftl_spec_low by lia. apply xorb_nilpotent.
  - rewrite Z.mod_pow2_bits_high, Z.shiftl_spec, Z.shiftr_spec by lia.
    rewrite xorb_false_r. f_equal. lia.
Qed.

Lemma crc_byte_lo c : is_u16 c -> crc_byte c (crc_lo c) = c / 256.
Proof.
  unfold is_u16. intros Hc. unfold crc_byte, crc_lo, u8.
  rewrite land_255, Z.mod_mod, lxor_low_byte by lia.
  rewrite u16_id by (unfold is_u16; Z.div_mod_to_equations; lia).
  apply (crc_iter_pow2 8). apply Z.div_pos; lia.
Qed.

Lemma crc_byte_hi c : is_u16 c -> crc_byte (c / 256) (crc_hi c) = 0.
Proof.
  unfold is_u16. intros Hc. unfold crc_byte, crc_hi, u8.
  rewrite land_255, Z.mod_mod, Z.shiftr_div_pow2 by lia. change (2 ^ 8) with 256.
  rewrite (Z.mod_small (c / 256)) by (Z.div_mod_to_equations; lia).
  rewrite Z.lxor_nilpotent. vm_compute. reflexivity.
Qed.

Lemma crc_loop_snoc buff n : forall pos c,
  crc_loop buff pos (S n) c
  = crc_byte (crc_loop buff pos n c) (rd buff (pos + Z.of_nat n)).
Proof.
  induction n as [|n IH]; intros pos c.
  - simpl. rewrite Z.add_0_r. reflexivity.
  - change (crc_loop buff pos (S (S n)) c)
      with (crc_loop buff (pos + 1) (S n) (crc_byte c (rd buff pos))).
    rewrite IH. simpl crc_loop. f_equal. f_equal. lia.
Qed.

(** X1.  [write_le32] followed by [read_le32] at the same offset returns the
    32-bit value written; the store keeps the buffer's length and touches
    only the four bytes at the offset. *)
Theorem le32_write_then_read (dst : list Z) (off v : Z) :
  0 <= off -> off + 4 <= Z.of_nat (length dst) -> is_u32 v ->
  read_le32 (write_le32 dst off v) off = v /\
  length (write_le32 dst off v) = length dst /\
  (forall j, 0 <= j -> j < off \/ off + 4 <= j ->
     rd (write_le32 dst off v) j = rd dst j).
Proof.
  intros Hoff Hfit Hv. split; [|split].
  - unfold read_le32, write_le32.
    repeat first [ rewrite rd_wr_eq by (rewrite ?length_wr; lia)
                 | rewrite rd_wr_ne by lia ].
    apply le32_roundtrip_arith. exact Hv.
  - apply length_write_le32.
  - intros j Hj Hout. unfold write_le32. rewrite !rd_wr_ne by lia. reflexivity.
Qed.

(** X2.  [read_le32] of four bytes is a 32-bit value, and writing it back
    with [write_le32] at the same offset leaves the buffer as it was. *)
Theorem le32_read_then_write (src : list Z) (off : Z) :
  0 <= off -> off + 4 <= Z.of_nat (length src) ->
  (forall k, 0 <= k < 4 -> is_u8 (rd src (off + k))) ->
  is_u32 (read_le32 src off) /\
  write_le32 src off (read_le32 src off) = src.
Proof.
  intros Hoff Hfit Hby.
  destruct (le32_bytes_arith (rd src (off + 0)) (rd src (off + 1))
              (rd src (off + 2)) (rd src (off + 3)))
    as (Hr & E0 & E1 & E2 & E3); try (apply Hby; lia).
  split; [exact Hr|].
  unfold write_le32. fold (read_le32 src off) in E0, E1, E2, E3.
  rewrite E0, E1, E2, E3.
  rewrite (wr_rd_id src (off + 0)) by lia.
  rewrite (wr_rd_id src (off + 1)) by lia.
  rewrite (wr_rd_id src (off + 2)) by lia.
  apply wr_rd_id. lia.
Qed.

(** X3.  Residue: when [checkCRC16] accepts [len] bytes, running the CRC
    loop over all [len] bytes, trailer included, ends with the register at
    zero. *)
Theorem crc16_residue_is_zero (buff : list Z) (len : Z) :
  2 <= len <= 255 ->
  checkCRC16 buff len = true ->
  crc16 buff len = 0.
Proof.
  intros Hlen Hok. unfold checkCRC16 in Hok.
  destruct (Z.ltb_spec len 2) as [?|_]; [lia|].
  rewrite (u8_id (len - 2)) in Hok by (unfold is_u8; lia).
  apply andb_true_iff in Hok. destruct Hok as [Hlo Hhi].
  apply Z.eqb_eq in Hlo, Hhi.
  pose proof (crc16_range buff (len - 2)) as Hr.
  unfold crc16 in *.
  replace (Z.to_nat len) with (S (S (Z.to_nat (len - 2)))) by lia.
  rewrite !crc_loop_snoc.
  replace (0 + Z.of_nat (S (Z.to_nat (len - 2)))) with (len - 1) by lia.
  replace (0 + Z.of_nat (Z.to_nat (len - 2))) with (len - 2) by lia.
  rewrite Hlo, Hhi, crc_byte_lo by exact Hr.
  apply crc_byte_hi. exact Hr.
Qed.

(** X4.  Single-byte corruption: in a frame of in-range bytes that
    [checkCRC16] accepts, replacing any one of the [len] bytes (body or
    trailer) by a different byte value makes [checkCRC16] reject it. *)
Theorem checkCRC16_detects_byte_corruption (buff : list Z) (len i b' : Z) :
  2 <= len <= 255 -> len <= Z.of_nat (length buff) ->
  (forall j, 0 <= j < len -> is_u8 (rd buff j)) ->
  checkCRC16 buff len = true ->
  0 <= i < len -> is_u8 b' -> b' <> rd buff i ->
  checkCRC16 (wr buff i b') len = false.
Proof.
  intros Hlen Hfit Hby Hok Hi Hb Hb'. unfold checkCRC16 in *.
  destruct (Z.ltb_spec len 2) as [?|_]; [lia|].
  rewrite (u8_id (len - 2)) in * by (unfold is_u8; lia).
  apply andb_true_iff in Hok. destruct Hok as [Hlo Hhi].
  apply Z.eqb_eq in Hlo, Hhi.
  apply andb_false_iff.
  destruct (Z_lt_dec i (len - 2)) as [Hbody|Htrail].
  - rewrite !rd_wr_ne by lia.
    set (c := crc16 buff (len - 2)) in *.
    set (c' := crc16 (wr buff i b') (len - 2)).
    assert (Hc : c' <> c).
    { unfold c, c', crc16. apply (crc_loop_diff_byte _ _ i).
      - unfold is_u16. lia.
      - lia.
      - intros j Hj Hji. apply rd_wr_ne; lia.
      - intros j Hj. destruct (Z.eq_dec j i) as [->|Hji].
        + rewrite rd_wr_eq by lia. split; [exact Hb|apply Hby; lia].
        + rewrite rd_wr_ne by lia. split; apply Hby; lia.
      - rewrite rd_wr_eq by lia. exact Hb'. }
    destruct (Z.eqb_spec (rd buff (len - 2)) (crc_lo c')) as [El|]; [|left; reflexivity].
    destruct (Z.eqb_spec (rd buff (len - 1)) (crc_hi c')) as [Eh|]; [|right; reflexivity].
    exfalso. apply Hc. apply crc_lo_hi_inj; try apply crc16_range; congruence.
  - rewrite (crc16_ext (wr buff i b') buff (len - 2))
      by (intros j Hj; apply rd_wr_ne; lia).
    destruct (Z.eq_dec i (len - 2)) as [->|Hne].
    + left. rewrite rd_wr_eq by lia. apply Z.eqb_neq. congruence.
    + right. assert (i = len - 1) as -> by lia.
      rewrite rd_wr_eq by lia. apply Z.eqb_neq. congruence.
Qed.

(** X5.  The length [genCRC16] returns is [len + 2] reduced modulo 256, the
    body bytes below [len] are kept, and the buffer verifies under the
    returned length exactly when [len + 2] fits a [uint8_t]; at [len = 255]
    the high checksum byte is stored at index 0. *)
Theorem genCRC16_length_wraps (buff : list Z) (len : Z) :
  0 <= len <= 255 -> len + 2 <= Z.of_nat (length buff) ->
  snd (genCRC16 buff len) = (len + 2) mod 256 /\
  length (fst (genCRC16 buff len)) = length buff /\
  (len <= 253 -> forall j, 0 <= j < len -> rd (fst (genCRC16 buff len)) j = rd buff j) /\
  (checkCRC16 (fst (genCRC16 buff len)) (snd (genCRC16 buff len)) = true <-> len <= 253) /\
  (len = 255 -> rd (fst (genCRC16 buff len)) 0 = crc_hi (crc16 buff len)).
Proof.
  intros Hlen Hfit.
  assert (Hsnd : snd (genCRC16 buff len) = (len + 2) mod 256).
  { unfold genCRC16, u8. simpl. rewrite Zplus_mod_idemp_l. f_equal. lia. }
  split; [exact Hsnd|]. split; [apply length_genCRC16|].
  split; [|split].
  - intros H253 j Hj.
    destruct (genCRC16_spec buff len ltac:(lia) ltac:(lia) Hfit) as (buf' & E & _ & Hrd & _).
    rewrite E. simpl. apply Hrd. exact Hj.
  - split.
    + intros Hok. destruct (Z_le_dec len 253) as [|Hbig]; [assumption|].
      exfalso. rewrite Hsnd in Hok. unfold checkCRC16 in Hok.
      assert (Hs : (len + 2) mod 256 < 2)
        by (assert (len = 254 \/ len = 255) as [-> | ->] by lia; vm_compute; reflexivity).
      destruct (Z.ltb_spec ((len + 2) mod 256) 2); [discriminate|lia].
    + intros H253.
      destruct (genCRC16_spec buff len ltac:(lia) ltac:(lia) Hfit)
        as (buf' & E & _ & _ & _ & _ & Hok).
      rewrite E. simpl. exact Hok.
  - intros ->. unfold genCRC16. simpl fst.
    change (u8 (255 + 1)) with 0. apply rd_wr_eq. rewrite length_wr. lia.
Qed.

(** ** Further properties of the dispatch *)

Lemma mem_write_outside m p src a :
  ~ in_region p (Z.of_nat (length src)) a -> mem_write m p src a = m a.
Proof.
  unfold in_region, mem_write. intros H.
  destruct (Z.leb_spec p a); [|reflexivity].
  destruct (Z.ltb_spec a (p + Z.of_nat (length src))); [lia|reflexivity].
Qed.

Lemma first_clientSlot_bound s slot i :
  first_clientSlot s slot i -> 0 <= i < SyncBusServer.m_numSlots s.
Proof. intros (H & _). exact H. Qed.

Section Dispatch.

(** No bound on the capacity is assumed in this section: where a frame
    length has to fit its [uint8_t], the statement says so. *)
Variable PROTO_BUS_BUFFER_SIZE : Z.
Variable SyncBus_ENABLE_SET_ACK : bool.

(** [setData] on a registered index whose frame length fits a [uint8_t]. *)
Lemma Client_setData_sends_fit numSlots send sid slot w :
  client_inv PROTO_BUS_BUFFER_SIZE numSlots (client w) ->
  0 <= slot < SyncBusClient.m_numSlots (client w) ->
  let e := serveSlot (client w) slot in
  HeaderSize + serverData_t.size e + 2 <= 255 ->
  let fr := built_frame (SyncBusClient.m_buffer (client w)) sid
              (serverData_t.slotId e) SetReq
              (mem_read (heap w) (serverData_t.data e) (serverData_t.size e)) in
  Client_setData PROTO_BUS_BUFFER_SIZE send sid slot w
    = (ok, call_send send fr (HeaderSize + serverData_t.size e + 2)
             (set_client (client_with_buffer (client w) fr) w)).
Proof.
  intros Hinv Hslot e H255 fr.
  pose proof (client_inv_slot _ _ _ _ Hinv Hslot) as (Hnn & Hsz0 & Hsz).
  fold e in Hnn, Hsz0, Hsz.
  destruct Hinv as (Hn & Hlen & Hbuf & _).
  unfold Client_setData. fold e. rewrite Z.geb_leb, Z.gtb_ltb.
  destruct (Z.leb_spec (SyncBusClient.m_numSlots (client w)) slot); [lia|].
  destruct (Z.eqb_spec (serverData_t.data e) nullptr); [contradiction|].
  destruct (u8_total_no_crc (serverData_t.size e) Hsz0 H255) as (_ & E16 & E8).
  rewrite E16, E8.
  destruct (Z.ltb_spec PROTO_BUS_BUFFER_SIZE (HeaderSize + serverData_t.size e + 2));
    [lia|].
  destruct (built_frame_spec (SyncBusClient.m_buffer (client w)) sid
              (serverData_t.slotId e) SetReq
              (mem_read (heap w) (serverData_t.data e) (serverData_t.size e)))
    as (E & _); rewrite ?length_mem_read; try lia.
  rewrite length_mem_read, Z2Nat.id in E by lia.
  fold fr in E. rewrite E. reflexivity.
Qed.

(** The server's answer to a GetReq for a registered slot whose frame
    length fits a [uint8_t]. *)
Lemma Server_inputData_get_fit numSlots send changed data size w i :
  server_inv PROTO_BUS_BUFFER_SIZE numSlots (server w) ->
  HeaderSize + 2 <= size ->
  checkCRC16 data size = true ->
  read_le32 data FrameServerId = SyncBusServer.m_serverId (server w) ->
  rd data FrameFunction = func_code GetReq ->
  first_match (fun i => clientSlot_t.slotId (clientSlot (server w) i) =? rd data FrameSlotId)
    0 (Z.to_nat (SyncBusServer.m_numSlots (server w))) = Some i ->
  0 <= i < SyncBusServer.m_numSlots (server w) ->
  let e := clientSlot (server w) i in
  HeaderSize + clientSlot_t.size e + 2 <= 255 ->
  let fr := built_frame (SyncBusServer.m_buffer (server w))
              (SyncBusServer.m_serverId (server w)) (rd data FrameSlotId) GetResp
              (mem_read (heap w) (clientSlot_t.data e) (clientSlot_t.size e)) in
  Server_inputData PROTO_BUS_BUFFER_SIZE SyncBus_ENABLE_SET_ACK send changed data size w
    = (ok, call_send send fr (HeaderSize + clientSlot_t.size e + 2)
             (set_server (server_with_buffer (server w) fr) w)).
Proof.
  intros Hinv Hsz Hcrc Hid Hf Hfound Hi e H255 fr.
  pose proof (server_inv_slot _ _ _ _ Hinv Hi) as (Hnn & Hsz0 & Hfit).
  fold e in Hnn, Hsz0, Hfit.
  destruct Hinv as (Hn & Hlen & Hbuf & _).
  unfold Server_inputData.
  change (u8 (HeaderSize + 2)) with 8. change (HeaderSize + 2) with 8 in Hsz.
  destruct (Z.ltb_spec size 8); [lia|]. rewrite Hcrc, Hid, Z.eqb_refl, Hf, Hfound.
  simpl negb. cbv iota. change (func_code GetReq =? func_code GetReq) with true.
  cbv iota. fold e.
  destruct (u8_total_no_crc (clientSlot_t.size e) Hsz0 H255) as (E16 & _ & E8).
  rewrite E16, E8, Z.gtb_ltb.
  destruct (Z.ltb_spec PROTO_BUS_BUFFER_SIZE (HeaderSize + clientSlot_t.size e + 2));
    [lia|].
  destruct (built_frame_spec (SyncBusServer.m_buffer (server w))
              (SyncBusServer.m_serverId (server w)) (rd data FrameSlotId) GetResp
              (mem_read (heap w) (clientSlot_t.data e) (clientSlot_t.size e)))
    as (E & _); rewrite ?length_mem_read; try lia.
  rewrite length_mem_read, Z2Nat.id in E by lia.
  fold fr in E. rewrite E. reflexivity.
Qed.

(** X6.  On a registered index [getData] returns [ok] and hands the send
    callback an 8-byte frame with valid checksum that carries the caller's
    identifier (whatever identifier the entry was registered under), the
    entry's slot id and the GetReq code; application memory, the slot table
    and the server are untouched.  On an index at or past the count it
    returns [errOverflow] and does nothing. *)
Theorem getData_request (numSlots : Z) (sid slot : Z) (w : World) :
  client_inv PROTO_BUS_BUFFER_SIZE numSlots (client w) ->
  is_u32 sid -> 0 <= slot ->
  let w' := snd (Client_getData PROTO_BUS_BUFFER_SIZE (Some (log_send Client)) sid slot w) in
  (SyncBusClient.m_numSlots (client w) <= slot ->
     Client_getData PROTO_BUS_BUFFER_SIZE (Some (log_send Client)) sid slot w
       = (errOverflow, w)) /\
  (slot < SyncBusClient.m_numSlots (client w) ->
     fst (Client_getData PROTO_BUS_BUFFER_SIZE (Some (log_send Client)) sid slot w) = ok /\
     heap w' = heap w /\ server w' = server w /\
     SyncBusClient.m_numSlots (client w') = SyncBusClient.m_numSlots (client w) /\
     SyncBusClient.m_serveSlots (client w') = SyncBusClient.m_serveSlots (client w) /\
     exists data,
       trace w' = trace w ++ [EvSend Client data 8] /\
       SyncBusClient.m_buffer (client w') = data /\
       checkCRC16 data 8 = true /\
       read_le32 data FrameServerId = sid /\
       rd data FrameSlotId = serverData_t.slotId (serveSlot (client w) slot) /\
       rd data FrameFunction = func_code GetReq).
Proof.
  intros Hc Hsid Hslot w'. split.
  - intros Hout. unfold Client_getData. rewrite Z.geb_leb.
    destruct (Z.leb_spec (SyncBusClient.m_numSlots (client w)) slot); [reflexivity|lia].
  - intros Hreg. subst w'.
    rewrite (Client_getData_sends PROTO_BUS_BUFFER_SIZE numSlots) by (auto; lia).
    pose proof (client_inv_slot _ _ _ _ Hc (conj Hslot Hreg)) as (_ & Hsz0 & Hfit).
    destruct Hc as (_ & _ & Hbuf & _). unfold HeaderSize in Hfit.
    destruct (header_frame_spec (SyncBusClient.m_buffer (client w)) sid
                (serverData_t.slotId (serveSlot (client w) slot)) GetReq)
      as (_ & _ & Hcrc & Hid & Hs & Hf); [unfold HeaderSize; lia|].
    cbn [fst snd call_send log_send log heap server client trace set_client
         client_with_buffer SyncBusClient.m_numSlots SyncBusClient.m_serveSlots
         SyncBusClient.m_buffer].
    split; [reflexivity|]. split; [reflexivity|]. split; [reflexivity|].
    split; [reflexivity|]. split; [reflexivity|].
    eexists. split; [reflexivity|]. split; [reflexivity|].
    split; [exact Hcrc|]. split; [exact (Hid Hsid)|]. split; [exact Hs|exact Hf].
Qed.

(** X7.  On a registered index whose header + size + 2 is at most 255 (so
    that the length fits its [uint8_t]) [setData] returns [ok] and hands the
    send callback a frame of header + size + 2 bytes with valid checksum that
    carries the caller's identifier, the entry's slot id, the SetReq code
    and, as payload, the bytes the entry's buffer holds at the time of the
    call; application memory, the slot table and the server are untouched.
    On an index at or past the count it returns [errOverflow] and does
    nothing. *)
Theorem setData_request (numSlots : Z) (sid slot : Z) (w : World) :
  client_inv PROTO_BUS_BUFFER_SIZE numSlots (client w) ->
  is_u32 sid -> 0 <= slot ->
  let e := serveSlot (client w) slot in
  let w' := snd (Client_setData PROTO_BUS_BUFFER_SIZE (Some (log_send Client)) sid slot w) in
  (SyncBusClient.m_numSlots (client w) <= slot ->
     Client_setData PROTO_BUS_BUFFER_SIZE (Some (log_send Client)) sid slot w
       = (errOverflow, w)) /\
  (slot < SyncBusClient.m_numSlots (client w) ->
   HeaderSize + serverData_t.size e + 2 <= 255 ->
     fst (Client_setData PROTO_BUS_BUFFER_SIZE (Some (log_send Client)) sid slot w) = ok /\
     heap w' = heap w /\ server w' = server w /\
     SyncBusClient.m_numSlots (client w') = SyncBusClient.m_numSlots (client w) /\
     SyncBusClient.m_serveSlots (client w') = SyncBusClient.m_serveSlots (client w) /\
     exists data,
       trace w' = trace w ++ [EvSend Client data (HeaderSize + serverData_t.size e + 2)] /\
       SyncBusClient.m_buffer (client w') = data /\
       checkCRC16 data (HeaderSize + serverData_t.size e + 2) = true /\
       read_le32 data FrameServerId = sid /\
       rd data FrameSlotId = serverData_t.slotId e /\
       rd data FrameFunction = func_code SetReq /\
       buf_read data FrameData (serverData_t.size e)
         = mem_read (heap w) (serverData_t.data e) (serverData_t.size e)).
Proof.
  intros Hc Hsid Hslot e w'. split.
  - intros Hout. unfold Client_setData. rewrite Z.geb_leb.
    destruct (Z.leb_spec (SyncBusClient.m_numSlots (client w)) slot); [reflexivity|lia].
  - intros Hreg H255. subst w'.
    rewrite (Client_setData_sends_fit numSlots) by (auto; lia).
    unfold HeaderSize in H255.
    pose proof (client_inv_slot _ _ _ _ Hc (conj Hslot Hreg)) as (_ & Hsz0 & Hfit).
    fold e in Hsz0, Hfit.
    destruct Hc as (_ & _ & Hbuf & _). unfold HeaderSize in Hfit.
    destruct (built_frame_spec (SyncBusClient.m_buffer (client w)) sid
                (serverData_t.slotId e) SetReq
                (mem_read (heap w) (serverData_t.data e) (serverData_t.size e)))
      as (_ & _ & Hcrc & Hid & Hs & Hf & Hpay);
      [rewrite length_mem_read; unfold HeaderSize; lia
      |rewrite length_mem_read; unfold HeaderSize; lia|].
    rewrite length_mem_read, Z2Nat.id in Hcrc, Hpay by lia.
    fold e.
    cbn [fst snd call_send log_send log heap server client trace set_client
         client_with_buffer SyncBusClient.m_numSlots SyncBusClient.m_serveSlots
         SyncBusClient.m_buffer].
    split; [reflexivity|]. split; [reflexivity|]. split; [reflexivity|].
    split; [reflexivity|]. split; [reflexivity|].
    eexists. split; [reflexivity|]. split; [reflexivity|].
    split; [exact Hcrc|]. split; [exact (Hid Hsid)|]. split; [exact Hs|].
    split; [exact Hf|exact Hpay].
Qed.

(** X8.  A valid GetReq carrying the server's identifier, for a slot id
    whose first registered entry is [i], with header + size + 2 at most 255
    for that entry (so that the length fits its [uint8_t]), is answered:
    [inputData] returns
    [ok] and hands the send callback one frame of header + size + 2 bytes
    with valid checksum carrying the server's identifier, the requested slot
    id, the GetResp code and the bytes the entry's buffer holds; no change
    callback runs, and application memory, the slot table and the client are
    untouched. *)
Theorem server_answers_get (numSlots : Z) (data : list Z) (size : Z) (w : World) (i : Z) :
  numSlots <= 255 ->
  server_inv PROTO_BUS_BUFFER_SIZE numSlots (server w) ->
  is_u32 (SyncBusServer.m_serverId (server w)) ->
  HeaderSize + 2 <= size ->
  checkCRC16 data size = true ->
  read_le32 data FrameServerId = SyncBusServer.m_serverId (server w) ->
  rd data FrameFunction = func_code GetReq ->
  first_clientSlot (server w) (rd data FrameSlotId) i ->
  let e := clientSlot (server w) i in
  HeaderSize + clientSlot_t.size e + 2 <= 255 ->
  let r := Server_inputData PROTO_BUS_BUFFER_SIZE SyncBus_ENABLE_SET_ACK
             (Some (log_send Server)) (Some (log_changed Server)) data size w in
  fst r = ok /\
  heap (snd r) = heap w /\ client (snd r) = client w /\
  SyncBusServer.m_serverId (server (snd r)) = SyncBusServer.m_serverId (server w) /\
  SyncBusServer.m_numSlots (server (snd r)) = SyncBusServer.m_numSlots (server w) /\
  SyncBusServer.m_clientSlots (server (snd r)) = SyncBusServer.m_clientSlots (server w) /\
  exists fr,
    trace (snd r) = trace w ++ [EvSend Server fr (HeaderSize + clientSlot_t.size e + 2)] /\
    checkCRC16 fr (HeaderSize + clientSlot_t.size e + 2) = true /\
    read_le32 fr FrameServerId = SyncBusServer.m_serverId (server w) /\
    rd fr FrameSlotId = rd data FrameSlotId /\
    rd fr FrameFunction = func_code GetResp /\
    buf_read fr FrameData (clientSlot_t.size e)
      = mem_read (heap w) (clientSlot_t.data e) (clientSlot_t.size e).
Proof.
  intros HnS Hs Hown Hsz Hcrc Hid Hf Hfirst e H255 r. subst r.
  pose proof (first_clientSlot_bound _ _ _ Hfirst) as Hi.
  pose proof (server_inv_slot _ _ _ _ Hs Hi) as (_ & Hsz0 & Hfit). fold e in Hsz0, Hfit.
  pose proof Hs as (HsN & _ & Hbuf & _). unfold HeaderSize in Hfit.
  rewrite (Server_inputData_get_fit numSlots _ _ data size w i);
    [|exact Hs|exact Hsz|exact Hcrc|exact Hid|exact Hf
     |apply first_clientSlot_scan; [lia|exact Hfirst]|exact Hi|exact H255].
  unfold HeaderSize in H255.
  fold e.
  destruct (built_frame_spec (SyncBusServer.m_buffer (server w))
              (SyncBusServer.m_serverId (server w)) (rd data FrameSlotId) GetResp
              (mem_read (heap w) (clientSlot_t.data e) (clientSlot_t.size e)))
    as (_ & _ & Hcrc2 & Hid2 & Hs2 & Hf2 & Hpay);
    [rewrite length_mem_read; unfold HeaderSize; lia
    |rewrite length_mem_read; unfold HeaderSize; lia|].
  rewrite length_mem_read, Z2Nat.id in Hcrc2, Hpay by lia.
  cbn [fst snd call_send log_send log heap server client trace set_server
       server_with_buffer SyncBusServer.m_numSlots SyncBusServer.m_clientSlots
       SyncBusServer.m_serverId].
  split; [reflexivity|]. split; [reflexivity|]. split; [reflexivity|].
  split; [reflexivity|]. split; [reflexivity|]. split; [reflexivity|].
  eexists. split; [reflexivity|].
  split; [exact Hcrc2|]. split; [exact (Hid2 Hown)|]. split; [exact Hs2|].
  split; [exact Hf2|exact Hpay].
Qed.

Lemma Client_inputData_ack changed data size w :
  HeaderSize + 2 <= size ->
  checkCRC16 data size = true ->
  rd data FrameFunction = func_code SetResp ->
  Client_inputData changed data size w = (ok, w).
Proof.
  intros Hsz Hcrc Hf. unfold Client_inputData.
  change (u8 (HeaderSize + 2)) with 8. change (HeaderSize + 2) with 8 in Hsz.
  destruct (Z.ltb_spec size 8); [lia|]. rewrite Hcrc, Hf. reflexivity.
Qed.

(** X9.  A valid SetReq carrying the server's identifier, for a slot id
    whose first registered entry is [i], with a payload of that entry's
    size, is applied: [inputData] returns [ok], the entry's buffer holds the
    payload afterwards, the change callback runs once with the slot id, and
    after it, when acknowledgements are compiled in, the send callback gets
    one 8-byte SetResp with valid checksum echoing the server's identifier
    and the slot id; without them nothing is sent.  The slot table and the
    client are untouched. *)
Theorem server_applies_set (numSlots : Z) (data : list Z) (size : Z) (w : World) (i : Z) :
  numSlots <= 255 ->
  server_inv PROTO_BUS_BUFFER_SIZE numSlots (server w) ->
  is_u32 (SyncBusServer.m_serverId (server w)) ->
  HeaderSize + 2 <= size <= 255 ->
  checkCRC16 data size = true ->
  read_le32 data FrameServerId = SyncBusServer.m_serverId (server w) ->
  rd data FrameFunction = func_code SetReq ->
  first_clientSlot (server w) (rd data FrameSlotId) i ->
  let e := clientSlot (server w) i in
  payload_length size = clientSlot_t.size e ->
  let r := Server_inputData PROTO_BUS_BUFFER_SIZE SyncBus_ENABLE_SET_ACK
             (Some (log_send Server)) (Some (log_changed Server)) data size w in
  fst r = ok /\
  heap (snd r) = mem_write (heap w) (clientSlot_t.data e)
                   (buf_read data FrameData (clientSlot_t.size e)) /\
  mem_read (heap (snd r)) (clientSlot_t.data e) (clientSlot_t.size e)
    = buf_read data FrameData (clientSlot_t.size e) /\
  client (snd r) = client w /\
  SyncBusServer.m_serverId (server (snd r)) = SyncBusServer.m_serverId (server w) /\
  SyncBusServer.m_numSlots (server (snd r)) = SyncBusServer.m_numSlots (server w) /\
  SyncBusServer.m_clientSlots (server (snd r)) = SyncBusServer.m_clientSlots (server w) /\
  exists evs,
    trace (snd r) = trace w ++ EvChanged Server (rd data FrameSlotId) :: evs /\
    if SyncBus_ENABLE_SET_ACK then
      exists fr,
        evs = [EvSend Server fr 8] /\
        checkCRC16 fr 8 = true /\
        read_le32 fr FrameServerId = SyncBusServer.m_serverId (server w) /\
        rd fr FrameSlotId = rd data FrameSlotId /\
        rd fr FrameFunction = func_code SetResp
    else evs = [].
Proof.
  intros HnS Hs Hown Hsz Hcrc Hid Hf Hfirst e Hlen r. subst r.
  pose proof (first_clientSlot_bound _ _ _ Hfirst) as Hi.
  pose proof (server_inv_slot _ _ _ _ Hs Hi) as (_ & Hsz0 & Hfit). fold e in Hsz0, Hfit.
  pose proof Hs as (HsN & _ & Hbuf & _). unfold HeaderSize in Hfit.
  pose proof (u8_payload_length size Hsz) as Hu8.
  rewrite (Server_inputData_set PROTO_BUS_BUFFER_SIZE SyncBus_ENABLE_SET_ACK
             _ _ data size w i);
    [|lia|exact Hcrc|exact Hid|exact Hf
     |apply first_clientSlot_scan; [lia|exact Hfirst]
     |rewrite Hu8; exact Hlen].
  rewrite Hu8, Hlen. fold e.
  assert (Hread : mem_read
            (mem_write (heap w) (clientSlot_t.data e)
               (buf_read data FrameData (clientSlot_t.size e)))
            (clientSlot_t.data e) (clientSlot_t.size e)
          = buf_read data FrameData (clientSlot_t.size e)).
  { replace (clientSlot_t.size e) with
      (Z.of_nat (length (buf_read data FrameData (clientSlot_t.size e)))) at 2
      by (rewrite length_buf_read; lia).
    apply mem_read_mem_write. }
  destruct SyncBus_ENABLE_SET_ACK.
  - destruct (Z.ltb_spec PROTO_BUS_BUFFER_SIZE 8); [lia|].
    cbn [call_changed log_changed log set_heap server].
    destruct (header_frame_spec (SyncBusServer.m_buffer (server w))
                (SyncBusServer.m_serverId (server w)) (rd data FrameSlotId) SetResp)
      as (E & _ & Hcrc2 & Hid2 & Hs2 & Hf2); [unfold HeaderSize; lia|].
    rewrite E.
    cbn [fst snd call_send log_send call_changed log_changed log set_heap heap
         server client trace set_server server_with_buffer
         SyncBusServer.m_numSlots SyncBusServer.m_clientSlots
         SyncBusServer.m_serverId].
    split; [reflexivity|]. split; [reflexivity|]. split; [exact Hread|].
    split; [reflexivity|]. split; [reflexivity|]. split; [reflexivity|].
    split; [reflexivity|].
    eexists. split; [rewrite <- app_assoc; reflexivity|].
    eexists. split; [reflexivity|]. split; [exact Hcrc2|].
    split; [exact (Hid2 Hown)|]. split; [exact Hs2|exact Hf2].
  - cbn [fst snd call_changed log_changed log set_heap heap server client trace].
    split; [reflexivity|]. split; [reflexivity|]. split; [exact Hread|].
    split; [reflexivity|]. split; [reflexivity|]. split; [reflexivity|].
    split; [reflexivity|].
    eexists. split; reflexivity.
Qed.

(** X10.  A valid GetResp whose identifier and slot id first match the
    client's entry [i], with a payload of that entry's size, is applied:
    [inputData] returns [ok], the entry's buffer holds the payload
    afterwards, the change callback runs once with the slot id, and the
    client object and the server are untouched. *)
Theorem client_applies_response (data : list Z) (size : Z) (w : World) (i : Z) :
  SyncBusClient.m_numSlots (client w) <= 255 ->
  HeaderSize + 2 <= size <= 255 ->
  checkCRC16 data size = true ->
  rd data FrameFunction = func_code GetResp ->
  first_serveSlot (client w) (read_le32 data FrameServerId) (rd data FrameSlotId) i ->
  let e := serveSlot (client w) i in
  payload_length size = serverData_t.size e ->
  let r := Client_inputData (Some (log_changed Client)) data size w in
  fst r = ok /\
  heap (snd r) = mem_write (heap w) (serverData_t.data e)
                   (buf_read data FrameData (serverData_t.size e)) /\
  (0 <= serverData_t.size e ->
   mem_read (heap (snd r)) (serverData_t.data e) (serverData_t.size e)
     = buf_read data FrameData (serverData_t.size e)) /\
  client (snd r) = client w /\ server (snd r) = server w /\
  trace (snd r) = trace w ++ [EvChanged Client (rd data FrameSlotId)].
Proof.
  intros Hn Hsz Hcrc Hf Hfirst e Hlen r. subst r.
  pose proof (u8_payload_length size Hsz) as Hu8.
  rewrite (Client_inputData_resp _ data size w i);
    [|lia|exact Hcrc|exact Hf
     |apply first_serveSlot_scan; [exact Hn|exact Hfirst]
     |rewrite Hu8; exact Hlen].
  rewrite Hu8, Hlen. fold e.
  cbn [fst snd call_changed log_changed log set_heap heap server client trace].
  split; [reflexivity|]. split; [reflexivity|].
  split; [|split; [reflexivity|split; reflexivity]].
  intros H0.
  replace (serverData_t.size e) with
    (Z.of_nat (length (buf_read data FrameData (serverData_t.size e)))) at 2
    by (rewrite length_buf_read; lia).
  apply mem_read_mem_write.
Qed.

(** X11.  End-to-end SET under the example wiring: if the server's
    identifier is [sid] and the first server entry registered for the slot
    id of the client's entry [idx] has that entry's size, and header + size
    + 2 is at most 255 (so that the length fits its [uint8_t]), then
    [setData(sid, idx)] returns [ok], the server entry's buffer ends up
    holding the bytes the client's buffer held, the server's change callback
    runs exactly once with the slot id, the client's does not run, and the
    nested calls return [ok]: the server's [inputData] and, when
    acknowledgements are compiled in, the client's [inputData] on the
    SetResp. *)
Theorem set_round_trip (numSlotsC numSlotsS : Z) (w : World) (sid idx j : Z) :
  numSlotsC <= 255 -> numSlotsS <= 255 ->
  world_inv PROTO_BUS_BUFFER_SIZE numSlotsC numSlotsS w ->
  is_u32 sid ->
  SyncBusServer.m_serverId (server w) = sid ->
  0 <= idx < SyncBusClient.m_numSlots (client w) ->
  let e := serveSlot (client w) idx in
  first_clientSlot (server w) (serverData_t.slotId e) j ->
  clientSlot_t.size (clientSlot (server w) j) = serverData_t.size e ->
  HeaderSize + serverData_t.size e + 2 <= 255 ->
  let X := mem_read (heap w) (serverData_t.data e) (serverData_t.size e) in
  let r := Client_setData PROTO_BUS_BUFFER_SIZE
             (Some (clientSend PROTO_BUS_BUFFER_SIZE SyncBus_ENABLE_SET_ACK)) sid idx w in
  fst r = ok /\
  mem_read (heap (snd r)) (clientSlot_t.data (clientSlot (server w) j))
    (serverData_t.size e) = X /\
  exists evs,
    trace (snd r) = trace w ++ evs /\
    omap (changed_by Server) evs = [serverData_t.slotId e] /\
    omap (changed_by Client) evs = [] /\
    omap returned evs = if SyncBus_ENABLE_SET_ACK then [ok; ok] else [ok].
Proof.
  intros HnC HnS [Hc Hs] Hsid Hown Hidx e Hj Hsize H255 X r. subst r.
  pose proof (first_clientSlot_bound _ _ _ Hj) as Hjr.
  pose proof (client_inv_slot _ _ _ _ Hc Hidx) as (_ & Hn0 & Hfit).
  fold e in Hn0, Hfit.
  pose proof Hc as (HcN & _ & Hcbuf & _).
  pose proof Hs as (HsN & _ & Hsbuf & _).
  rewrite (Client_setData_sends_fit numSlotsC) by assumption.
  unfold HeaderSize in Hfit, H255.
  set (n := serverData_t.size e) in *.
  fold e. fold n. fold X.
  set (fr := built_frame (SyncBusClient.m_buffer (client w)) sid
               (serverData_t.slotId e) SetReq X).
  assert (HlX : Z.of_nat (length X) = n) by (unfold X; rewrite length_mem_read; lia).
  destruct (built_frame_spec (SyncBusClient.m_buffer (client w)) sid
              (serverData_t.slotId e) SetReq X)
    as (_ & _ & Hcrc1 & Hid1 & Hslot1 & Hf1 & Hpay1);
    [rewrite HlX; unfold HeaderSize; lia|rewrite HlX; unfold HeaderSize; lia|].
  rewrite HlX in Hcrc1, Hpay1. fold fr in Hcrc1, Hid1, Hslot1, Hf1, Hpay1.
  specialize (Hid1 Hsid).
  cbn [call_send]. unfold clientSend.
  set (w2 := log (EvSend Client fr (HeaderSize + n + 2))
               (set_client (client_with_buffer (client w) fr) w)).
  assert (Hu8 : u8 (HeaderSize + n + 2 - HeaderSize - 2) = n).
  { replace (HeaderSize + n + 2 - HeaderSize - 2) with n by lia.
    apply u8_id. unfold is_u8. lia. }
  rewrite (Server_inputData_set PROTO_BUS_BUFFER_SIZE SyncBus_ENABLE_SET_ACK
             _ _ fr (HeaderSize + n + 2) w2 j);
    [|unfold HeaderSize; lia|exact Hcrc1|rewrite Hid1; symmetry; exact Hown|exact Hf1
     |rewrite Hslot1; apply (first_clientSlot_scan (server w)); [lia|exact Hj]
     |rewrite Hu8; symmetry; exact Hsize].
  rewrite Hu8, Hslot1, Hpay1.
  change (server w2) with (server w). change (heap w2) with (heap w).
  assert (Hread : mem_read
            (mem_write (heap w) (clientSlot_t.data (clientSlot (server w) j)) X)
            (clientSlot_t.data (clientSlot (server w) j)) n = X).
  { rewrite <- HlX. apply mem_read_mem_write. }
  destruct SyncBus_ENABLE_SET_ACK.
  - destruct (Z.ltb_spec PROTO_BUS_BUFFER_SIZE 8); [lia|].
    cbn [call_changed log_changed log set_heap server].
    change (server w2) with (server w).
    destruct (header_frame_spec (SyncBusServer.m_buffer (server w))
                (SyncBusServer.m_serverId (server w)) (serverData_t.slotId e) SetResp)
      as (E & _ & Hcrc2 & _ & _ & Hf2); [unfold HeaderSize; lia|].
    rewrite E. cbn [fst snd call_send]. unfold serverSend.
    rewrite Client_inputData_ack; [|unfold HeaderSize; lia|exact Hcrc2|exact Hf2].
    unfold w2, call_changed, log_changed, log, set_heap, set_server, set_client;
      cbn [fst snd heap client server trace].
    split; [reflexivity|]. split; [exact Hread|].
    eexists. split; [rewrite <- !app_assoc; reflexivity|].
    split; [reflexivity|]. split; reflexivity.
  - unfold w2, call_changed, log_changed, log, set_heap, set_client;
      cbn [fst snd heap client server trace].
    split; [reflexivity|]. split; [exact Hread|].
    eexists. split; [rewrite <- !app_assoc; reflexivity|].
    split; [reflexivity|]. split; reflexivity.
Qed.

(** X12.  Frames for the other party are ignored: for a frame of at least 8
    bytes with valid checksum, whatever the callbacks, the client returns
    [ok] with the world as it was unless the function byte is GetResp
    (so for GetReq, SetReq, SetResp and unassigned codes), and the server
    does so unless it is GetReq or SetReq (so for GetResp, SetResp and
    unassigned codes, even when the frame carries its own identifier and a
    registered slot id). *)
Theorem other_functions_are_ignored
    (ssend : option SyncBusSendData_cb)
    (cchanged schanged : option SyncBusDataChanged_cb)
    (data : list Z) (size : Z) (w : World) :
  HeaderSize + 2 <= size ->
  checkCRC16 data size = true ->
  (rd data FrameFunction <> func_code GetResp ->
   Client_inputData cchanged data size w = (ok, w)) /\
  (rd data FrameFunction <> func_code GetReq ->
   rd data FrameFunction <> func_code SetReq ->
   Server_inputData PROTO_BUS_BUFFER_SIZE SyncBus_ENABLE_SET_ACK
     ssend schanged data size w = (ok, w)).
Proof.
  intros Hsz Hcrc. unfold Client_inputData, Server_inputData.
  change (u8 (HeaderSize + 2)) with 8. change (HeaderSize + 2) with 8 in Hsz.
  destruct (Z.ltb_spec size 8); [lia|]. rewrite Hcrc. simpl negb. cbv iota.
  split.
  - intros Hne.
    destruct (Z.eqb_spec (rd data FrameFunction) (func_code GetResp)); [contradiction|].
    destruct (rd data FrameFunction =? func_code SetResp); reflexivity.
  - intros Hg Hs.
    destruct (negb (read_le32 data FrameServerId =? SyncBusServer.m_serverId (server w)));
      [reflexivity|].
    destruct (Z.eqb_spec (rd data FrameFunction) (func_code GetReq)); [contradiction|].
    destruct (Z.eqb_spec (rd data FrameFunction) (func_code SetReq)); [contradiction|].
    reflexivity.
Qed.

Lemma in_region_to_nat p n a :
  in_region p (Z.of_nat (Z.to_nat n)) a -> in_region p n a.
Proof. unfold in_region. lia. Qed.

(** X13.  With observers as callbacks and whatever the frame, [inputData]
    writes application memory only inside the buffer of a registered entry:
    an address outside every registered region [data, data + size) reads the
    same before and after.  The client's [inputData] leaves the client
    object and the server as they were; the server's leaves the client, its
    own identifier and its slot table as they were. *)
Theorem inputData_writes_only_registered_buffers (data : list Z) (size : Z) (w : World) (a : Z) :
  (SyncBusClient.m_numSlots (client w) <= 255 ->
   let r := Client_inputData (Some (log_changed Client)) data size w in
   client (snd r) = client w /\ server (snd r) = server w /\
   ((forall i, 0 <= i < SyncBusClient.m_numSlots (client w) ->
       ~ in_region (serverData_t.data (serveSlot (client w) i))
                   (serverData_t.size (serveSlot (client w) i)) a) ->
    heap (snd r) a = heap w a)) /\
  (SyncBusServer.m_numSlots (server w) <= 255 ->
   let r := Server_inputData PROTO_BUS_BUFFER_SIZE SyncBus_ENABLE_SET_ACK
              (Some (log_send Server)) (Some (log_changed Server)) data size w in
   client (snd r) = client w /\
   SyncBusServer.m_serverId (server (snd r)) = SyncBusServer.m_serverId (server w) /\
   SyncBusServer.m_numSlots (server (snd r)) = SyncBusServer.m_numSlots (server w) /\
   SyncBusServer.m_clientSlots (server (snd r)) = SyncBusServer.m_clientSlots (server w) /\
   ((forall i, 0 <= i < SyncBusServer.m_numSlots (server w) ->
       ~ in_region (clientSlot_t.data (clientSlot (server w) i))
                   (clientSlot_t.size (clientSlot (server w) i)) a) ->
    heap (snd r) a = heap w a)).
Proof.
  split.
  - intros Hn r. subst r. unfold Client_inputData.
    destruct (size <? u8 (HeaderSize + 2)); [auto|].
    destruct (negb (checkCRC16 data size)); [auto|].
    destruct (rd data FrameFunction =? func_code GetResp);
      [|destruct (rd data FrameFunction =? func_code SetResp); auto].
    pose proof (first_match_spec
      (fun i => (serverData_t.serverId (serveSlot (client w) i)
                 =? read_le32 data FrameServerId)
                && (serverData_t.slotId (serveSlot (client w) i) =? rd data FrameSlotId))
      (Z.to_nat (SyncBusClient.m_numSlots (client w))) 0 ltac:(lia) ltac:(lia)) as Hspec.
    destruct (first_match _ 0 (Z.to_nat (SyncBusClient.m_numSlots (client w))))
      as [i|]; [|auto].
    destruct Hspec as (Hi & _).
    destruct (Z.eqb_spec (u8 (size - HeaderSize - 2))
                (serverData_t.size (serveSlot (client w) i))) as [E|]; [|simpl; auto].
    cbn [negb fst snd call_changed log_changed log set_heap heap client server].
    split; [reflexivity|]. split; [reflexivity|].
    intros Hout. apply mem_write_outside. rewrite length_buf_read, E.
    intros Hin. apply (Hout i); [lia|]. apply in_region_to_nat. exact Hin.
  - intros Hn r. subst r. unfold Server_inputData.
    destruct (size <? u8 (HeaderSize + 2)); [auto 6|].
    destruct (negb (checkCRC16 data size)); [auto 6|].
    destruct (negb (read_le32 data FrameServerId =? SyncBusServer.m_serverId (server w)));
      [auto 6|].
    pose proof (first_match_spec
      (fun i => clientSlot_t.slotId (clientSlot (server w) i) =? rd data FrameSlotId)
      (Z.to_nat (SyncBusServer.m_numSlots (server w))) 0 ltac:(lia) ltac:(lia)) as Hspec.
    destruct (first_match _ 0 (Z.to_nat (SyncBusServer.m_numSlots (server w))))
      as [i|].
    2:{ destruct (rd data FrameFunction =? func_code GetReq); [auto 6|].
        destruct (rd data FrameFunction =? func_code SetReq); auto 6. }
    destruct Hspec as (Hi & _).
    destruct (rd data FrameFunction =? func_code GetReq).
    { destruct (_ >? PROTO_BUS_BUFFER_SIZE); [auto 6|].
      destruct (genCRC16 _ _) as [b sz]. cbn. auto 6. }
    destruct (rd data FrameFunction =? func_code SetReq); [|auto 6].
    destruct (Z.eqb_spec (u8 (size - HeaderSize - 2))
                (clientSlot_t.size (clientSlot (server w) i))) as [E|]; [|simpl; auto 6].
    assert (Hw : (forall i0, 0 <= i0 < SyncBusServer.m_numSlots (server w) ->
                    ~ in_region (clientSlot_t.data (clientSlot (server w) i0))
                        (clientSlot_t.size (clientSlot (server w) i0)) a) ->
                 mem_write (heap w) (clientSlot_t.data (clientSlot (server w) i))
                   (buf_read data FrameData (u8 (size - HeaderSize - 2))) a = heap w a).
    { intros Hout. apply mem_write_outside. rewrite length_buf_read, E.
      intros Hin. apply (Hout i); [lia|]. apply in_region_to_nat. exact Hin. }
    cbn [negb]. cbv iota.
    destruct SyncBus_ENABLE_SET_ACK.
    + destruct (_ >? PROTO_BUS_BUFFER_SIZE).
      * cbn. auto 6.
      * destruct (genCRC16 _ _) as [b sz]. cbn. auto 6.
    + cbn. auto 6.
Qed.

Lemma lookup_insert_default {A} (d e : A) (l : list A) (n i : Z) :
  0 <= n -> 0 <= i ->
  default d (<[Z.to_nat n := e]> l !! Z.to_nat i)
  = if Z.eqb i n then (if Z.ltb n (Z.of_nat (length l)) then e else default d (l !! Z.to_nat i))
    else default d (l !! Z.to_nat i).
Proof.
  intros Hn Hi. destruct (Z.eqb_spec i n) as [->|Hne].
  - destruct (Z.ltb_spec n (Z.of_nat (length l))).
    + rewrite list_lookup_insert_eq by lia. reflexivity.
    + rewrite list_insert_ge by lia. reflexivity.
  - rewrite list_lookup_insert_ne by lia. reflexivity.
Qed.

Lemma Server_addSlot_ok numSlots p slot sz w :
  p <> nullptr ->
  SyncBusServer.m_numSlots (server w) < numSlots ->
  HeaderSize + sz + 2 <= PROTO_BUS_BUFFER_SIZE ->
  Server_addSlot PROTO_BUS_BUFFER_SIZE numSlots p slot sz w
  = (ok, set_server
           (SyncBusServer.mk (SyncBusServer.m_serverId (server w))
              (u8 (SyncBusServer.m_numSlots (server w) + 1))
              (<[Z.to_nat (SyncBusServer.m_numSlots (server w)) :=
                   clientSlot_t.mk p slot sz]> (SyncBusServer.m_clientSlots (server w)))
              (SyncBusServer.m_buffer (server w))) w).
Proof.
  intros Hp Hn Hfit. unfold Server_addSlot.
  rewrite Z.geb_leb, Z.gtb_ltb. change (u16 HeaderSize) with HeaderSize.
  destruct (Z.eqb_spec p nullptr); [contradiction|].
  destruct (Z.leb_spec numSlots (SyncBusServer.m_numSlots (server w))); [lia|].
  destruct (Z.ltb_spec PROTO_BUS_BUFFER_SIZE (HeaderSize + sz + 2)); [lia|reflexivity].
Qed.

Lemma Client_addData_ok numSlots p sid slot sz w :
  p <> nullptr ->
  SyncBusClient.m_numSlots (client w) < numSlots ->
  HeaderSize + sz + 2 <= PROTO_BUS_BUFFER_SIZE ->
  Client_addData PROTO_BUS_BUFFER_SIZE numSlots p sid slot sz w
  = (ok, set_client
           (SyncBusClient.mk
              (u8 (SyncBusClient.m_numSlots (client w) + 1))
              (<[Z.to_nat (SyncBusClient.m_numSlots (client w)) :=
                   serverData_t.mk p sid slot sz]> (SyncBusClient.m_serveSlots (client w)))
              (SyncBusClient.m_buffer (client w))) w).
Proof.
  intros Hp Hn Hfit. unfold Client_addData.
  rewrite Z.geb_leb, Z.gtb_ltb. change (u16 HeaderSize) with HeaderSize.
  destruct (Z.eqb_spec p nullptr); [contradiction|].
  destruct (Z.leb_spec numSlots (SyncBusClient.m_numSlots (client w))); [lia|].
  destruct (Z.ltb_spec PROTO_BUS_BUFFER_SIZE (HeaderSize + sz + 2)); [lia|reflexivity].
Qed.

(** X14.  Registration order on the server.  A successful [addSlot] raises
    the count by one and stores the entry at the former count; every slot
    id that was served from an entry before is still served from that same
    entry (an entry added later never shadows an earlier one); and if the
    slot id was not registered before and header + size + 2 is at most 255
    (so that the length fits its [uint8_t]), a valid GetReq for it carrying
    the server's identifier is now answered with a GetResp whose payload is
    the content of the registered buffer. *)
Theorem addSlot_then_get (numSlotsC numSlotsS : Z) (p slot sz : Z) (w : World) :
  numSlotsS <= 255 ->
  world_inv PROTO_BUS_BUFFER_SIZE numSlotsC numSlotsS w ->
  is_u32 (SyncBusServer.m_serverId (server w)) ->
  p <> nullptr -> is_u8 sz ->
  SyncBusServer.m_numSlots (server w) < numSlotsS ->
  HeaderSize + sz + 2 <= PROTO_BUS_BUFFER_SIZE ->
  let n := SyncBusServer.m_numSlots (server w) in
  let w1 := snd (Server_addSlot PROTO_BUS_BUFFER_SIZE numSlotsS p slot sz w) in
  fst (Server_addSlot PROTO_BUS_BUFFER_SIZE numSlotsS p slot sz w) = ok /\
  SyncBusServer.m_numSlots (server w1) = n + 1 /\
  clientSlot (server w1) n = clientSlot_t.mk p slot sz /\
  (forall slot' i, first_clientSlot (server w) slot' i ->
     first_clientSlot (server w1) slot' i /\
     clientSlot (server w1) i = clientSlot (server w) i) /\
  ((forall i, 0 <= i < n -> clientSlot_t.slotId (clientSlot (server w) i) <> slot) ->
   first_clientSlot (server w1) slot n /\
   forall data size,
     HeaderSize + sz + 2 <= 255 ->
     HeaderSize + 2 <= size ->
     checkCRC16 data size = true ->
     read_le32 data FrameServerId = SyncBusServer.m_serverId (server w) ->
     rd data FrameFunction = func_code GetReq ->
     rd data FrameSlotId = slot ->
     exists fr,
       trace (snd (Server_inputData PROTO_BUS_BUFFER_SIZE SyncBus_ENABLE_SET_ACK
                     (Some (log_send Server)) (Some (log_changed Server)) data size w1))
         = trace w ++ [EvSend Server fr (HeaderSize + sz + 2)] /\
       rd fr FrameFunction = func_code GetResp /\
       buf_read fr FrameData sz = mem_read (heap w) p sz).
Proof.
  intros HnS Hinv Hown Hp Hsz Hn Hfit n w1.
  pose proof (Server_addSlot_keeps PROTO_BUS_BUFFER_SIZE numSlotsC numSlotsS HnS
                p slot sz w Hsz Hinv) as [_ Hs1].
  fold w1 in Hs1.
  destruct Hinv as [_ Hs]. pose proof Hs as (HsN & HsL & HsB & _).
  subst w1. rewrite Server_addSlot_ok in * by assumption.
  cbn [fst snd server set_server SyncBusServer.m_numSlots] in *.
  fold n in Hs1 |- *.
  assert (Hu : u8 (n + 1) = n + 1) by (apply u8_id; unfold is_u8, n; lia).
  set (s1 := SyncBusServer.mk (SyncBusServer.m_serverId (server w)) (u8 (n + 1))
               (<[Z.to_nat n := clientSlot_t.mk p slot sz]>
                  (SyncBusServer.m_clientSlots (server w)))
               (SyncBusServer.m_buffer (server w))) in *.
  assert (Hold : forall i, 0 <= i -> i <> n -> clientSlot s1 i = clientSlot (server w) i).
  { intros i Hi Hne. unfold clientSlot, s1. cbn [SyncBusServer.m_clientSlots].
    rewrite lookup_insert_default by (unfold n; lia).
    destruct (Z.eqb_spec i n); [contradiction|reflexivity]. }
  assert (Hnew : clientSlot s1 n = clientSlot_t.mk p slot sz).
  { unfold clientSlot, s1. cbn [SyncBusServer.m_clientSlots].
    rewrite lookup_insert_default by (unfold n; lia).
    rewrite Z.eqb_refl.
    destruct (Z.ltb_spec n (Z.of_nat (length (SyncBusServer.m_clientSlots (server w)))));
      [reflexivity|unfold n in *; lia]. }
  split; [reflexivity|]. split; [exact Hu|]. split; [exact Hnew|]. split.
  - intros slot' i (Hi & Hslot & Hfirst). fold n in Hi.
    split; [|apply Hold; lia].
    split; [unfold s1; cbn [SyncBusServer.m_numSlots]; lia|].
    split; [rewrite Hold by lia; exact Hslot|].
    intros j Hj. rewrite Hold by lia. apply Hfirst. exact Hj.
  - intros Hfresh.
    assert (Hfirst : first_clientSlot s1 slot n).
    { split; [unfold s1; cbn [SyncBusServer.m_numSlots]; unfold n in *; lia|].
      split; [rewrite Hnew; reflexivity|].
      intros j Hj. rewrite Hold by lia. apply Hfresh. exact Hj. }
    split; [exact Hfirst|].
    intros data size H255 Hsize Hcrc Hid Hf Hslot.
    set (w1 := set_server s1 w).
    rewrite (Server_inputData_get_fit numSlotsS _ _ data size w1 n);
      [|exact Hs1|exact Hsize|exact Hcrc|exact Hid|exact Hf
       |rewrite Hslot; apply (first_clientSlot_scan s1);
          [unfold s1; cbn [SyncBusServer.m_numSlots]; lia|exact Hfirst]
       |unfold w1; cbn [server set_server]; unfold s1;
          cbn [SyncBusServer.m_numSlots]; unfold n in *; lia
       |change (server w1) with s1; rewrite Hnew; exact H255].
    change (server w1) with s1. change (heap w1) with (heap w). rewrite Hnew.
    cbn [clientSlot_t.size clientSlot_t.data].
    destruct (built_frame_spec (SyncBusServer.m_buffer s1)
                (SyncBusServer.m_serverId s1) (rd data FrameSlotId) GetResp
                (mem_read (heap w) p sz))
      as (_ & _ & _ & _ & _ & Hf2 & Hpay);
      [rewrite length_mem_read; unfold s1, is_u8 in *; cbn [SyncBusServer.m_buffer]; lia
      |rewrite length_mem_read; unfold is_u8 in *; lia|].
    rewrite length_mem_read, Z2Nat.id in Hpay by (unfold is_u8 in Hsz; lia).
    eexists. split; [reflexivity|]. split; [exact Hf2|exact Hpay].
Qed.

(** X15.  Registration order on the client.  A successful [addData] raises
    the count by one and stores the entry at the former count; every
    (identifier, slot id) pair that was matched to an entry before is still
    matched to that same entry; and if the pair was not registered before,
    a valid GetResp for it with a payload of the registered size is now
    copied into the registered buffer. *)
Theorem addData_then_response (numSlotsC numSlotsS : Z) (p sid slot sz : Z) (w : World) :
  numSlotsC <= 255 ->
  world_inv PROTO_BUS_BUFFER_SIZE numSlotsC numSlotsS w ->
  p <> nullptr -> is_u8 sz ->
  SyncBusClient.m_numSlots (client w) < numSlotsC ->
  HeaderSize + sz + 2 <= PROTO_BUS_BUFFER_SIZE ->
  let n := SyncBusClient.m_numSlots (client w) in
  let w1 := snd (Client_addData PROTO_BUS_BUFFER_SIZE numSlotsC p sid slot sz w) in
  fst (Client_addData PROTO_BUS_BUFFER_SIZE numSlotsC p sid slot sz w) = ok /\
  SyncBusClient.m_numSlots (client w1) = n + 1 /\
  serveSlot (client w1) n = serverData_t.mk p sid slot sz /\
  (forall sid' slot' i, first_serveSlot (client w) sid' slot' i ->
     first_serveSlot (client w1) sid' slot' i /\
     serveSlot (client w1) i = serveSlot (client w) i) /\
  ((forall i, 0 <= i < n ->
      ~ (serverData_t.serverId (serveSlot (client w) i) = sid /\
         serverData_t.slotId (serveSlot (client w) i) = slot)) ->
   first_serveSlot (client w1) sid slot n /\
   forall data size,
     HeaderSize + 2 <= size <= 255 ->
     checkCRC16 data size = true ->
     rd data FrameFunction = func_code GetResp ->
     read_le32 data FrameServerId = sid ->
     rd data FrameSlotId = slot ->
     payload_length size = sz ->
     fst (Client_inputData (Some (log_changed Client)) data size w1) = ok /\
     mem_read (heap (snd (Client_inputData (Some (log_changed Client)) data size w1))) p sz
       = buf_read data FrameData sz).
Proof.
  intros HnC Hinv Hp Hsz Hn Hfit n w1.
  destruct Hinv as [Hc _]. pose proof Hc as (HcN & HcL & HcB & _).
  subst w1. rewrite Client_addData_ok by assumption.
  cbn [fst snd client set_client SyncBusClient.m_numSlots].
  fold n.
  assert (Hu : u8 (n + 1) = n + 1) by (apply u8_id; unfold is_u8, n; lia).
  set (c1 := SyncBusClient.mk (u8 (n + 1))
               (<[Z.to_nat n := serverData_t.mk p sid slot sz]>
                  (SyncBusClient.m_serveSlots (client w)))
               (SyncBusClient.m_buffer (client w))).
  assert (Hold : forall i, 0 <= i -> i <> n -> serveSlot c1 i = serveSlot (client w) i).
  { intros i Hi Hne. unfold serveSlot, c1. cbn [SyncBusClient.m_serveSlots].
    rewrite lookup_insert_default by (unfold n; lia).
    destruct (Z.eqb_spec i n); [contradiction|reflexivity]. }
  assert (Hnew : serveSlot c1 n = serverData_t.mk p sid slot sz).
  { unfold serveSlot, c1. cbn [SyncBusClient.m_serveSlots].
    rewrite lookup_insert_default by (unfold n; lia).
    rewrite Z.eqb_refl.
    destruct (Z.ltb_spec n (Z.of_nat (length (SyncBusClient.m_serveSlots (client w)))));
      [reflexivity|unfold n in *; lia]. }
  split; [reflexivity|]. split; [exact Hu|]. split; [exact Hnew|]. split.
  - intros sid' slot' i (Hi & Hid & Hslot & Hfirst). fold n in Hi.
    split; [|apply Hold; lia].
    split; [unfold c1; cbn [SyncBusClient.m_numSlots]; lia|].
    split; [rewrite Hold by lia; exact Hid|].
    split; [rewrite Hold by lia; exact Hslot|].
    intros j Hj. rewrite Hold by lia. apply Hfirst. exact Hj.
  - intros Hfresh.
    assert (Hfirst : first_serveSlot c1 sid slot n).
    { split; [unfold c1; cbn [SyncBusClient.m_numSlots]; unfold n in *; lia|].
      split; [rewrite Hnew; reflexivity|]. split; [rewrite Hnew; reflexivity|].
      intros j Hj. rewrite Hold by lia. apply Hfresh. exact Hj. }
    split; [exact Hfirst|].
    intros data size Hsize Hcrc Hf Hid Hslot Hlen.
    set (w1 := set_client c1 w).
    pose proof (u8_payload_length size Hsize) as Hu8.
    rewrite (Client_inputData_resp _ data size w1 n);
      [|lia|exact Hcrc|exact Hf
       |rewrite Hid, Hslot; apply (first_serveSlot_scan c1);
          [unfold c1; cbn [SyncBusClient.m_numSlots]; lia|exact Hfirst]
       |change (client w1) with c1; rewrite Hnew, Hu8; exact Hlen].
    change (client w1) with c1. change (heap w1) with (heap w).
    rewrite Hnew, Hu8, Hlen.
    cbn [fst snd call_changed log_changed log set_heap heap serverData_t.data].
    split; [reflexivity|].
    replace sz with (Z.of_nat (length (buf_read data FrameData sz))) at 2
      by (rewrite length_buf_read; unfold is_u8 in Hsz; lia).
    apply mem_read_mem_write.
Qed.

(** X16.  [setId] changes only the identifier the server filters on: the
    slot table, application memory and the client are as before; afterwards,
    whatever the callbacks, a valid frame carrying any other identifier
    (the former one included) is ignored, and a valid GetReq carrying the
    new identifier for a registered slot id whose header + size + 2 is at
    most 255 (so that the length fits its [uint8_t]) is answered with a
    GetResp that carries the new identifier and the content of the slot's
    buffer. *)
Theorem setId_changes_the_filter (numSlots : Z) (newId : Z) (w : World) :
  let w1 := Server_setId newId w in
  SyncBusServer.m_serverId (server w1) = newId /\
  SyncBusServer.m_numSlots (server w1) = SyncBusServer.m_numSlots (server w) /\
  SyncBusServer.m_clientSlots (server w1) = SyncBusServer.m_clientSlots (server w) /\
  heap w1 = heap w /\ client w1 = client w /\ trace w1 = trace w /\
  (forall ssend schanged data size,
     HeaderSize + 2 <= size ->
     checkCRC16 data size = true ->
     read_le32 data FrameServerId <> newId ->
     Server_inputData PROTO_BUS_BUFFER_SIZE SyncBus_ENABLE_SET_ACK
       ssend schanged data size w1 = (ok, w1)) /\
  (forall data size i,
     numSlots <= 255 ->
     server_inv PROTO_BUS_BUFFER_SIZE numSlots (server w) ->
     is_u32 newId ->
     HeaderSize + 2 <= size ->
     checkCRC16 data size = true ->
     read_le32 data FrameServerId = newId ->
     rd data FrameFunction = func_code GetReq ->
     first_clientSlot (server w) (rd data FrameSlotId) i ->
     HeaderSize + clientSlot_t.size (clientSlot (server w) i) + 2 <= 255 ->
     exists fr,
       trace (snd (Server_inputData PROTO_BUS_BUFFER_SIZE SyncBus_ENABLE_SET_ACK
                     (Some (log_send Server)) (Some (log_changed Server)) data size w1))
         = trace w ++ [EvSend Server fr
                         (HeaderSize + clientSlot_t.size (clientSlot (server w) i) + 2)] /\
       read_le32 fr FrameServerId = newId /\
       rd fr FrameFunction = func_code GetResp /\
       buf_read fr FrameData (clientSlot_t.size (clientSlot (server w) i))
         = mem_read (heap w) (clientSlot_t.data (clientSlot (server w) i))
             (clientSlot_t.size (clientSlot (server w) i))).
Proof.
  intros w1. subst w1. unfold Server_setId.
  cbn [server set_server heap client trace SyncBusServer.m_serverId
       SyncBusServer.m_numSlots SyncBusServer.m_clientSlots].
  split; [reflexivity|]. split; [reflexivity|]. split; [reflexivity|].
  split; [reflexivity|]. split; [reflexivity|]. split; [reflexivity|].
  set (s1 := SyncBusServer.mk newId (SyncBusServer.m_numSlots (server w))
               (SyncBusServer.m_clientSlots (server w))
               (SyncBusServer.m_buffer (server w))).
  set (w1 := set_server s1 w).
  split.
  - intros ssend schanged data size Hsz Hcrc Hid. unfold Server_inputData.
    change (u8 (HeaderSize + 2)) with 8. change (HeaderSize + 2) with 8 in Hsz.
    destruct (Z.ltb_spec size 8); [lia|]. rewrite Hcrc. simpl negb. cbv iota.
    change (SyncBusServer.m_serverId (server w1)) with newId.
    destruct (Z.eqb_spec (read_le32 data FrameServerId) newId); [contradiction|reflexivity].
  - intros data size i HnS Hs Hnew Hsz Hcrc Hid Hf Hfirst H255.
    pose proof (first_clientSlot_bound _ _ _ Hfirst) as Hi.
    pose proof (server_inv_slot _ _ _ _ Hs Hi) as (_ & Hsz0 & Hfit).
    pose proof Hs as (HsN & _ & Hbuf & _). unfold HeaderSize in Hfit.
    assert (Hs1 : server_inv PROTO_BUS_BUFFER_SIZE numSlots (server w1))
      by exact Hs.
    rewrite (Server_inputData_get_fit numSlots _ _ data size w1 i);
      [|exact Hs1|exact Hsz|exact Hcrc|exact Hid|exact Hf
       |apply (first_clientSlot_scan (server w)); [lia|exact Hfirst]|exact Hi
       |exact H255].
    unfold HeaderSize in H255.
    change (clientSlot (server w1) i) with (clientSlot (server w) i).
    change (heap w1) with (heap w).
    change (SyncBusServer.m_serverId (server w1)) with newId.
    change (SyncBusServer.m_buffer (server w1)) with (SyncBusServer.m_buffer (server w)).
    destruct (built_frame_spec (SyncBusServer.m_buffer (server w)) newId
                (rd data FrameSlotId) GetResp
                (mem_read (heap w) (clientSlot_t.data (clientSlot (server w) i))
                   (clientSlot_t.size (clientSlot (server w) i))))
      as (_ & _ & _ & Hid2 & _ & Hf2 & Hpay);
      [rewrite length_mem_read; unfold HeaderSize; lia
      |rewrite length_mem_read; unfold HeaderSize; lia|].
    rewrite length_mem_read, Z2Nat.id in Hpay by lia.
    eexists. split; [reflexivity|].
    split; [exact (Hid2 Hnew)|]. split; [exact Hf2|exact Hpay].
Qed.

(** X17.  The example wiring keeps the slot-table invariants: from freshly
    constructed objects and any sequence of application calls (registration
    sizes being [uint8_t] values) with each send callback delivering the
    frame to the peer's [inputData], the counts stay within the table
    capacities and every registered entry has a non-null pointer and fits
    the transmit buffer. *)
Theorem example_wiring_keeps_invariant
    (numSlotsC numSlotsS : Z) (ops : list op) (id : Z) (h : memory)
    (cslots : list serverData_t.t) (sslots : list clientSlot_t.t)
    (cbuf sbuf : list Z) :
  0 <= numSlotsC <= 255 -> 0 <= numSlotsS <= 255 ->
  length cslots = Z.to_nat numSlotsC -> length sslots = Z.to_nat numSlotsS ->
  length cbuf = Z.to_nat PROTO_BUS_BUFFER_SIZE ->
  length sbuf = Z.to_nat PROTO_BUS_BUFFER_SIZE ->
  Forall op_typed ops ->
  let cfg := mkConfig PROTO_BUS_BUFFER_SIZE SyncBus_ENABLE_SET_ACK numSlotsC numSlotsS in
  let w := run cfg (wired PROTO_BUS_BUFFER_SIZE SyncBus_ENABLE_SET_ACK) ops
             (initial_world cfg id h cslots sslots cbuf sbuf) in
  world_inv PROTO_BUS_BUFFER_SIZE numSlotsC numSlotsS w /\
  (forall i, 0 <= i < SyncBusClient.m_numSlots (client w) ->
     serverData_t.data (serveSlot (client w) i) <> nullptr /\
     HeaderSize + serverData_t.size (serveSlot (client w) i) + 2 <= PROTO_BUS_BUFFER_SIZE) /\
  (forall i, 0 <= i < SyncBusServer.m_numSlots (server w) ->
     clientSlot_t.data (clientSlot (server w) i) <> nullptr /\
     HeaderSize + clientSlot_t.size (clientSlot (server w) i) + 2 <= PROTO_BUS_BUFFER_SIZE).
Proof.
  intros HnC HnS Hlc Hls Hlcb Hlsb Ht cfg w.
  assert (Hlog : forall e w0, world_inv PROTO_BUS_BUFFER_SIZE numSlotsC numSlotsS w0 ->
                   world_inv PROTO_BUS_BUFFER_SIZE numSlotsC numSlotsS (log e w0))
    by (intros e w0 [? ?]; split; assumption).
  assert (Hcc : changed_keeps (world_inv PROTO_BUS_BUFFER_SIZE numSlotsC numSlotsS)
                  (Some (log_changed Client)))
    by (intros s w0 H; apply Hlog; exact H).
  assert (Hsc : changed_keeps (world_inv PROTO_BUS_BUFFER_SIZE numSlotsC numSlotsS)
                  (Some (log_changed Server)))
    by (intros s w0 H; apply Hlog; exact H).
  assert (Hss : send_keeps (world_inv PROTO_BUS_BUFFER_SIZE numSlotsC numSlotsS)
                  (Some serverSend)).
  { intros data size w0 H. cbn [call_send]. unfold serverSend.
    pose proof (Client_inputData_keeps PROTO_BUS_BUFFER_SIZE numSlotsC numSlotsS
                  (Some (log_changed Client)) data size
                  (log (EvSend Server data size) w0) Hcc (Hlog _ _ H)) as K.
    destruct (Client_inputData _ data size _) as [r0 w']. apply Hlog. exact K. }
  assert (Hcs : send_keeps (world_inv PROTO_BUS_BUFFER_SIZE numSlotsC numSlotsS)
                  (Some (clientSend PROTO_BUS_BUFFER_SIZE SyncBus_ENABLE_SET_ACK))).
  { intros data size w0 H. cbn [call_send]. unfold clientSend.
    pose proof (Server_inputData_keeps PROTO_BUS_BUFFER_SIZE SyncBus_ENABLE_SET_ACK
                  numSlotsC numSlotsS (Some serverSend) (Some (log_changed Server))
                  data size (log (EvSend Client data size) w0) Hss Hsc (Hlog _ _ H)) as K.
    destruct (Server_inputData _ _ _ _ data size _) as [r0 w']. apply Hlog. exact K. }
  assert (Hinv : world_inv PROTO_BUS_BUFFER_SIZE numSlotsC numSlotsS w).
  { unfold w, cfg. apply run_keeps; try assumption; try lia.
    split; unfold client_inv, server_inv; simpl;
      (split; [lia|]); (split; [assumption|]); (split; [assumption|]); constructor. }
  split; [exact Hinv|]. destruct Hinv as [Hc Hs]. split.
  - intros i Hi. destruct (client_inv_slot _ _ _ _ Hc Hi) as (? & ? & ?). auto.
  - intros i Hi. destruct (server_inv_slot _ _ _ _ Hs Hi) as (? & ? & ?). auto.
Qed.

(** ** The wired exchange *)

(** The world after [getData] under the example wiring, when the addressed
    server serves the slot and the client's entry for the answer exists. *)
Lemma wired_get_world numSlotsC numSlotsS w sid slot idx j :
  numSlotsC <= 255 -> numSlotsS <= 255 ->
  world_inv PROTO_BUS_BUFFER_SIZE numSlotsC numSlotsS w ->
  is_u32 sid ->
  SyncBusServer.m_serverId (server w) = sid ->
  first_clientSlot (server w) slot j ->
  first_serveSlot (client w) sid slot idx ->
  serverData_t.size (serveSlot (client w) idx) = clientSlot_t.size (clientSlot (server w) j) ->
  HeaderSize + clientSlot_t.size (clientSlot (server w) j) + 2 <= 255 ->
  let n := clientSlot_t.size (clientSlot (server w) j) in
  let X := mem_read (heap w) (clientSlot_t.data (clientSlot (server w) j)) n in
  let fr := built_frame (SyncBusClient.m_buffer (client w)) sid slot GetReq [] in
  let fr2 := built_frame (SyncBusServer.m_buffer (server w)) sid slot GetResp X in
  Client_getData PROTO_BUS_BUFFER_SIZE
    (Some (clientSend PROTO_BUS_BUFFER_SIZE SyncBus_ENABLE_SET_ACK)) sid idx w
  = (ok,
     mkWorld
       (mem_write (heap w) (serverData_t.data (serveSlot (client w) idx)) X)
       (client_with_buffer (client w) fr)
       (server_with_buffer (server w) fr2)
       (trace w ++ [EvSend Client fr 8; EvSend Server fr2 (HeaderSize + n + 2);
                    EvChanged Client slot; EvReturn Client ok; EvReturn Server ok])).
Proof.
  intros HnC HnS [Hc Hs] Hsid Hown Hj Hidx Hsize H255 n X fr fr2.
  pose proof Hj as (Hjr & Hjslot & _).
  pose proof Hidx as (Hir & Hiid & Hislot & _).
  pose proof (server_inv_slot _ _ _ _ Hs Hjr) as (_ & Hn0 & Hfit).
  fold n in Hn0, Hfit, H255.
  pose proof Hc as (HcN & _ & Hcbuf & _).
  pose proof Hs as (HsN & _ & Hsbuf & _).
  unfold HeaderSize in Hfit, H255.
  (* the request *)
  rewrite (Client_getData_sends PROTO_BUS_BUFFER_SIZE numSlotsC) by assumption.
  rewrite Hislot. fold fr.
  destruct (header_frame_spec (SyncBusClient.m_buffer (client w)) sid slot GetReq)
    as (_ & _ & Hcrc1 & Hid1 & Hslot1 & Hf1); [unfold HeaderSize; lia|].
  fold fr in Hcrc1, Hid1, Hslot1, Hf1. specialize (Hid1 Hsid).
  cbn [call_send]. unfold clientSend.
  set (w2 := log (EvSend Client fr 8) (set_client (client_with_buffer (client w) fr) w)).
  (* the server answers *)
  rewrite (Server_inputData_get_fit numSlotsS _ _ fr 8 w2 j);
    [|exact Hs|unfold HeaderSize; lia|exact Hcrc1|rewrite Hid1; symmetry; exact Hown
     |exact Hf1
     |rewrite Hslot1; apply (first_clientSlot_scan (server w)); [lia|exact Hj]
     |exact Hjr|exact H255].
  change (server w2) with (server w). change (heap w2) with (heap w).
  rewrite Hslot1, Hown. fold n. fold X. fold fr2.
  destruct (built_frame_spec (SyncBusServer.m_buffer (server w)) sid slot GetResp X)
    as (_ & _ & Hcrc2 & Hid2 & Hslot2 & Hf2 & Hpay);
    [unfold X; rewrite length_mem_read; unfold HeaderSize; lia
    |unfold X; rewrite length_mem_read; unfold HeaderSize; lia|].
  assert (HlX : Z.of_nat (length X) = n) by (unfold X; rewrite length_mem_read; lia).
  rewrite HlX in Hcrc2, Hpay. fold fr2 in Hcrc2, Hid2, Hslot2, Hf2, Hpay.
  specialize (Hid2 Hsid).
  cbn [call_send]. unfold serverSend.
  set (w5 := log (EvSend Server fr2 (HeaderSize + n + 2))
               (set_server (server_with_buffer (server w) fr2) w2)).
  (* the client applies the answer *)
  assert (Hu8 : u8 (HeaderSize + n + 2 - HeaderSize - 2) = n).
  { replace (HeaderSize + n + 2 - HeaderSize - 2) with n by lia.
    apply u8_id. unfold is_u8. lia. }
  rewrite (Client_inputData_resp _ fr2 (HeaderSize + n + 2) w5 idx);
    [|lia|exact Hcrc2|exact Hf2
     |rewrite Hid2, Hslot2; apply (first_serveSlot_scan (client w)); [lia|exact Hidx]
     |rewrite Hu8; symmetry; exact Hsize].
  rewrite Hu8, Hslot2, Hpay.
  unfold w5, w2, log, set_heap, set_server, set_client, call_changed, log_changed, log;
    cbn [heap client server trace].
  rewrite <- !app_assoc. reflexivity.
Qed.

(** C2, as amended.  Under the example wiring, let the server's identifier
    be [sid], let the first server entry registered for slot id [slot] have
    size [n] and content [X], let the client's entry [idx] be the first
    one registered for ([sid], [slot]), with size [n], and let header + [n]
    + 2 be at most 255, so that the length of the response fits its
    [uint8_t].  No bound on the capacity is assumed.  Then
    [getData(sid, idx)] returns [ok], the two nested [inputData] calls
    return [ok], the client's buffer ends up equal to [X], and the client's
    change callback runs exactly once, with [slot]. *)
Theorem get_round_trip (numSlotsC numSlotsS : Z) (w : World) (sid slot idx j n : Z) :
  numSlotsC <= 255 -> numSlotsS <= 255 ->
  world_inv PROTO_BUS_BUFFER_SIZE numSlotsC numSlotsS w ->
  is_u32 sid ->
  SyncBusServer.m_serverId (server w) = sid ->
  first_clientSlot (server w) slot j ->
  clientSlot_t.size (clientSlot (server w) j) = n ->
  first_serveSlot (client w) sid slot idx ->
  serverData_t.size (serveSlot (client w) idx) = n ->
  HeaderSize + n + 2 <= 255 ->
  let X := mem_read (heap w) (clientSlot_t.data (clientSlot (server w) j)) n in
  let r := fst (Client_getData PROTO_BUS_BUFFER_SIZE
                  (Some (clientSend PROTO_BUS_BUFFER_SIZE SyncBus_ENABLE_SET_ACK))
                  sid idx w) in
  let w' := snd (Client_getData PROTO_BUS_BUFFER_SIZE
                   (Some (clientSend PROTO_BUS_BUFFER_SIZE SyncBus_ENABLE_SET_ACK))
                   sid idx w) in
  r = ok /\
  mem_read (heap w') (serverData_t.data (serveSlot (client w) idx)) n = X /\
  exists evs,
    trace w' = trace w ++ evs /\
    omap returned evs = [ok; ok] /\
    omap (changed_by Client) evs = [slot].
Proof.
  intros HnC HnS Hinv Hsid Hown Hj Hjn Hidx Hin H255 X r w'.
  subst r w'.
  rewrite (wired_get_world numSlotsC numSlotsS w sid slot idx j)
    by (auto; congruence).
  cbn [fst snd heap trace]. rewrite Hjn. fold X.
  split; [reflexivity|]. split.
  - assert (HlX : n = Z.of_nat (length X)).
    { unfold X. rewrite length_mem_read.
      destruct Hinv as [_ Hs]. destruct Hj as (Hjr & _).
      pose proof (server_inv_slot _ _ _ _ Hs Hjr) as (_ & Hn0 & _). lia. }
    rewrite HlX at 1. apply mem_read_mem_write.
  - eexists. split; [reflexivity|]. split; reflexivity.
Qed.



End Dispatch.

(** X18.  Above 255 the frame length does not fit its type: whatever the
    configured capacity, if a registered entry has header + size + 2 of 256
    or more (which registration accepts once the capacity allows it), then
    [setData] still returns [ok], but the length it hands to the send
    callback is header + size + 2 reduced modulo 256, which is less than
    header + checksum, so the server's [inputData] answers such a frame
    with [errFault]. *)
Theorem setData_length_wraps_above_255
    (PROTO_BUS_BUFFER_SIZE : Z) (SyncBus_ENABLE_SET_ACK : bool)
    (numSlots sid slot : Z) (w : World) :
  client_inv PROTO_BUS_BUFFER_SIZE numSlots (client w) ->
  0 <= slot < SyncBusClient.m_numSlots (client w) ->
  let s := serverData_t.size (serveSlot (client w) slot) in
  is_u8 s -> 256 <= HeaderSize + s + 2 ->
  let r := Client_setData PROTO_BUS_BUFFER_SIZE (Some (log_send Client)) sid slot w in
  fst r = ok /\
  exists data,
    trace (snd r) = trace w ++ [EvSend Client data ((HeaderSize + s + 2) mod 256)] /\
    (HeaderSize + s + 2) mod 256 < HeaderSize + 2 /\
    forall ssend schanged w0,
      fst (Server_inputData PROTO_BUS_BUFFER_SIZE SyncBus_ENABLE_SET_ACK ssend schanged
             data ((HeaderSize + s + 2) mod 256) w0) = errFault.
Proof.
  intros Hc Hslot s Hs Hbig r. subst r.
  pose proof (client_inv_slot _ _ _ _ Hc Hslot) as (Hnn & _ & Hfit). fold s in Hfit.
  unfold Client_setData. fold s. rewrite Z.geb_leb, Z.gtb_ltb.
  destruct (Z.leb_spec (SyncBusClient.m_numSlots (client w)) slot); [lia|].
  destruct (Z.eqb_spec (serverData_t.data (serveSlot (client w) slot)) nullptr);
    [contradiction|].
  unfold is_u8, HeaderSize in *.
  assert (E16 : u16 (u16 6 + u16 s) = 6 + s).
  { unfold u16. rewrite (Z.mod_small 6), (Z.mod_small s), (Z.mod_small (6 + s)) by lia.
    reflexivity. }
  rewrite E16.
  destruct (Z.ltb_spec PROTO_BUS_BUFFER_SIZE (6 + s + 2)); [lia|].
  assert (Hlen : forall b l, snd (genCRC16 b (u8 l)) = (l + 2) mod 256).
  { intros b l. unfold genCRC16. cbn [snd]. unfold u8.
    rewrite !Zplus_mod_idemp_l.
    replace (l mod 256 + 1 + 1) with (l mod 256 + 2) by lia.
    apply Zplus_mod_idemp_l. }
  specialize (Hlen (buf_write
                      (put_header (SyncBusClient.m_buffer (client w)) sid
                         (serverData_t.slotId (serveSlot (client w) slot)) SetReq)
                      FrameData
                      (mem_read (heap w) (serverData_t.data (serveSlot (client w) slot)) s))
                   (6 + s)).
  destruct (genCRC16 _ (u8 (6 + s))) as [b len]. simpl in Hlen. subst len.
  cbn [fst snd call_send log_send log trace set_client].
  assert (Hsmall : (6 + s + 2) mod 256 < 8) by (Z.div_mod_to_equations; lia).
  split; [reflexivity|].
  exists b. split; [reflexivity|]. split; [lia|].
  intros ssend schanged w0. unfold Server_inputData.
  change (u8 (HeaderSize + 2)) with 8.
  destruct (Z.ltb_spec ((6 + s + 2) mod 256) 8); [reflexivity|lia].
Qed.

(** ** The further properties at concrete inputs *)

Lemma first_clientSlot_demo : first_clientSlot (server demo_world) 2 0.
Proof.
  split; [change (SyncBusServer.m_numSlots (server demo_world)) with 1; lia|].
  split; [vm_compute; reflexivity|]. intros j Hj. lia.
Qed.

Lemma first_serveSlot_demo : first_serveSlot (client demo_world) 305419896 2 0.
Proof.
  split; [change (SyncBusClient.m_numSlots (client demo_world)) with 1; lia|].
  split; [vm_compute; reflexivity|]. split; [vm_compute; reflexivity|].
  intros j Hj. lia.
Qed.

Lemma wide_run_inv ops :
  Forall op_typed ops -> world_inv 300 4 4 (run wide_cfg demo_logging ops wide_initial).
Proof.
  intros Ht.
  destruct (loggers_keep (world_inv 300 4 4) (world_inv_log 300 4 4)) as (H1 & H2 & H3 & H4).
  apply (run_keeps 300 true 4 4 ltac:(lia) ltac:(lia) demo_logging ops);
    try assumption.
  split; unfold client_inv, server_inv; simpl; repeat split; try lia; constructor.
Qed.

Lemma wide_demo_world_inv : world_inv 300 4 4 wide_demo_world.
Proof. apply wide_run_inv. repeat constructor; unfold is_u8; lia. Qed.


(** The exchange of the example in the default build, and in a build with a
    capacity of 300 bytes. *)
Lemma get_round_trip_witness :
  (fst (Client_getData 64 (Some (clientSend 64 true)) 305419896 0 demo_world) = ok /\
   mem_read (heap (snd (Client_getData 64 (Some (clientSend 64 true)) 305419896 0
                          demo_world)))
     (serverData_t.data (serveSlot (client demo_world) 0)) 4
   = mem_read (heap demo_world) (clientSlot_t.data (clientSlot (server demo_world) 0)) 4 /\
   exists evs,
     trace (snd (Client_getData 64 (Some (clientSend 64 true)) 305419896 0 demo_world))
       = trace demo_world ++ evs /\
     omap returned evs = [ok; ok] /\
     omap (changed_by Client) evs = [2]) /\
  (fst (Client_getData 300 (Some (clientSend 300 true)) 305419896 0 wide_demo_world) = ok /\
   mem_read (heap (snd (Client_getData 300 (Some (clientSend 300 true)) 305419896 0
                          wide_demo_world)))
     (serverData_t.data (serveSlot (client wide_demo_world) 0)) 4
   = mem_read (heap wide_demo_world)
       (clientSlot_t.data (clientSlot (server wide_demo_world) 0)) 4 /\
   exists evs,
     trace (snd (Client_getData 300 (Some (clientSend 300 true)) 305419896 0
                   wide_demo_world))
       = trace wide_demo_world ++ evs /\
     omap returned evs = [ok; ok] /\
     omap (changed_by Client) evs = [2]).
Proof.
  split.
  - apply (get_round_trip 64 true 4 4 demo_world 305419896 2 0 0 4).
    + lia.
    + lia.
    + exact demo_world_inv.
    + unfold is_u32. lia.
    + vm_compute. reflexivity.
    + split; [change (SyncBusServer.m_numSlots (server demo_world)) with 1; lia|].
      split; [vm_compute; reflexivity|]. intros j Hj. lia.
    + vm_compute. reflexivity.
    + split; [change (SyncBusClient.m_numSlots (client demo_world)) with 1; lia|].
      split; [vm_compute; reflexivity|]. split; [vm_compute; reflexivity|].
      intros j Hj. lia.
    + vm_compute. reflexivity.
    + unfold HeaderSize. lia.
  - apply (get_round_trip 300 true 4 4 wide_demo_world 305419896 2 0 0 4).
    + lia.
    + lia.
    + exact wide_demo_world_inv.
    + unfold is_u32. lia.
    + vm_compute. reflexivity.
    + split; [change (SyncBusServer.m_numSlots (server wide_demo_world)) with 1; lia|].
      split; [vm_compute; reflexivity|]. intros j Hj. lia.
    + vm_compute. reflexivity.
    + split; [change (SyncBusClient.m_numSlots (client wide_demo_world)) with 1; lia|].
      split; [vm_compute; reflexivity|]. split; [vm_compute; reflexivity|].
      intros j Hj. lia.
    + vm_compute. reflexivity.
    + unfold HeaderSize. lia.
Defined.


Lemma get2_frame_bytes : forall j, 0 <= j < 8 -> is_u8 (rd get2_frame j).
Proof.
  intros j Hj.
  assert (j = 0 \/ j = 1 \/ j = 2 \/ j = 3 \/ j = 4 \/ j = 5 \/ j = 6 \/ j = 7) as Hc by lia.
  destruct Hc as [->|[->|[->|[->|[->|[->|[->| ->]]]]]]]; vm_compute; split; congruence.
Qed.

Lemma le32_write_then_read_witness :
  read_le32 (write_le32 (replicate 8 0) 2 305419896) 2 = 305419896.
Proof.
  apply (le32_write_then_read (replicate 8 0) 2 305419896).
  - lia.
  - simpl. lia.
  - unfold is_u32. lia.
Defined.

Lemma le32_read_then_write_witness :
  write_le32 [7; 120; 86; 52; 18; 7] 1 (read_le32 [7; 120; 86; 52; 18; 7] 1)
  = [7; 120; 86; 52; 18; 7].
Proof.
  apply (le32_read_then_write [7; 120; 86; 52; 18; 7] 1).
  - lia.
  - simpl. lia.
  - intros k Hk. assert (k = 0 \/ k = 1 \/ k = 2 \/ k = 3) as Hc by lia.
    destruct Hc as [->|[->|[->| ->]]]; vm_compute; split; congruence.
Defined.

Lemma crc16_residue_is_zero_witness : crc16 get2_frame 8 = 0.
Proof.
  apply (crc16_residue_is_zero get2_frame 8).
  - lia.
  - vm_compute. reflexivity.
Defined.

Lemma checkCRC16_detects_byte_corruption_witness :
  checkCRC16 (wr get2_frame 4 3) 8 = false.
Proof.
  apply (checkCRC16_detects_byte_corruption get2_frame 8 4 3).
  - lia.
  - vm_compute. discriminate.
  - exact get2_frame_bytes.
  - vm_compute. reflexivity.
  - lia.
  - unfold is_u8. lia.
  - vm_compute. discriminate.
Defined.

Lemma genCRC16_length_wraps_witness :
  snd (genCRC16 (replicate 300 7) 254) = (254 + 2) mod 256 /\
  (checkCRC16 (fst (genCRC16 (replicate 300 7) 254)) (snd (genCRC16 (replicate 300 7) 254))
     = true <-> 254 <= 253).
Proof.
  destruct (genCRC16_length_wraps (replicate 300 7) 254) as (A & _ & _ & B & _).
  - lia.
  - rewrite length_replicate. lia.
  - split; [exact A|exact B].
Defined.

Lemma getData_request_witness :
  fst (Client_getData 64 (Some (log_send Client)) 286331153 0 demo_world) = ok /\
  exists data,
    trace (snd (Client_getData 64 (Some (log_send Client)) 286331153 0 demo_world))
      = trace demo_world ++ [EvSend Client data 8] /\
    read_le32 data FrameServerId = 286331153.
Proof.
  pose proof (getData_request 64 4 286331153 0 demo_world (proj1 demo_world_inv)) as H.
  destruct H as [_ H]; [unfold is_u32; lia|lia|].
  destruct H as (A & _ & _ & _ & _ & data & T & _ & _ & I & _).
  - change (SyncBusClient.m_numSlots (client demo_world)) with 1. lia.
  - split; [exact A|]. exists data. split; [exact T|exact I].
Defined.

Lemma setData_request_witness :
  exists data,
    trace (snd (Client_setData 64 (Some (log_send Client)) 305419896 0 demo_world))
      = trace demo_world ++ [EvSend Client data 12] /\
    buf_read data FrameData 4 = [9; 9; 9; 9].
Proof.
  pose proof (setData_request 64 4 305419896 0 demo_world
                (proj1 demo_world_inv)) as H.
  destruct H as [_ H]; [unfold is_u32; lia|lia|].
  destruct H as (_ & _ & _ & _ & _ & data & T & _ & _ & _ & _ & _ & P).
  - change (SyncBusClient.m_numSlots (client demo_world)) with 1. lia.
  - change (serverData_t.size (serveSlot (client demo_world) 0)) with 4.
    unfold HeaderSize. lia.
  - exists data. split; [exact T|exact P].
Defined.

Lemma server_answers_get_witness :
  exists fr,
    trace (snd (Server_inputData 64 true (Some (log_send Server)) (Some (log_changed Server))
                  get2_frame 8 demo_world))
      = trace demo_world ++ [EvSend Server fr 12] /\
    buf_read fr FrameData 4 = [222; 173; 190; 239].
Proof.
  destruct (server_answers_get 64 true 4 get2_frame 8 demo_world 0)
    as (_ & _ & _ & _ & _ & _ & fr & T & _ & _ & _ & _ & P).
  - lia.
  - exact (proj2 demo_world_inv).
  - vm_compute. split; congruence.
  - unfold HeaderSize. lia.
  - vm_compute. reflexivity.
  - vm_compute. reflexivity.
  - vm_compute. reflexivity.
  - exact first_clientSlot_demo.
  - change (clientSlot_t.size (clientSlot (server demo_world) 0)) with 4.
    unfold HeaderSize. lia.
  - exists fr. split; [exact T|exact P].
Defined.

Lemma server_applies_set_witness :
  mem_read (heap (snd (Server_inputData 64 true (Some (log_send Server))
                         (Some (log_changed Server)) set4_frame 12 demo_world))) 2000 4
  = [1; 2; 3; 4].
Proof.
  destruct (server_applies_set 64 true 4 set4_frame 12 demo_world 0)
    as (_ & _ & R & _).
  - lia.
  - exact (proj2 demo_world_inv).
  - vm_compute. split; congruence.
  - unfold HeaderSize. lia.
  - vm_compute. reflexivity.
  - vm_compute. reflexivity.
  - vm_compute. reflexivity.
  - exact first_clientSlot_demo.
  - vm_compute. reflexivity.
  - exact R.
Defined.

Lemma client_applies_response_witness :
  mem_read (heap (snd (Client_inputData (Some (log_changed Client)) resp4_frame 12
                         demo_world))) 1000 4
  = [1; 2; 3; 4].
Proof.
  destruct (client_applies_response resp4_frame 12 demo_world 0)
    as (_ & _ & R & _).
  - change (SyncBusClient.m_numSlots (client demo_world)) with 1. lia.
  - unfold HeaderSize. lia.
  - vm_compute. reflexivity.
  - vm_compute. reflexivity.
  - exact first_serveSlot_demo.
  - vm_compute. reflexivity.
  - apply R. vm_compute. discriminate.
Defined.

Lemma set_round_trip_witness :
  fst (Client_setData 64 (Some (clientSend 64 true)) 305419896 0 demo_world) = ok /\
  mem_read (heap (snd (Client_setData 64 (Some (clientSend 64 true)) 305419896 0
                         demo_world))) 2000 4
  = mem_read (heap demo_world) 1000 4.
Proof.
  destruct (set_round_trip 64 true 4 4 demo_world 305419896 0 0)
    as (A & B & _).
  - lia.
  - lia.
  - exact demo_world_inv.
  - unfold is_u32. lia.
  - vm_compute. reflexivity.
  - change (SyncBusClient.m_numSlots (client demo_world)) with 1. lia.
  - exact first_clientSlot_demo.
  - vm_compute. reflexivity.
  - change (serverData_t.size (serveSlot (client demo_world) 0)) with 4.
    unfold HeaderSize. lia.
  - split; [exact A|exact B].
Defined.

Lemma other_functions_are_ignored_witness :
  Client_inputData (Some (log_changed Client)) get2_frame 8 demo_world = (ok, demo_world) /\
  Server_inputData 64 true (Some (log_send Server)) (Some (log_changed Server))
    odd_function_frame 8 demo_world = (ok, demo_world).
Proof.
  split.
  - destruct (other_functions_are_ignored 64 true (Some (log_send Server))
                (Some (log_changed Client)) (Some (log_changed Server))
                get2_frame 8 demo_world) as (A & _).
    + unfold HeaderSize. lia.
    + vm_compute. reflexivity.
    + apply A. vm_compute. discriminate.
  - destruct (other_functions_are_ignored 64 true (Some (log_send Server))
                (Some (log_changed Client)) (Some (log_changed Server))
                odd_function_frame 8 demo_world) as (_ & B).
    + unfold HeaderSize. lia.
    + vm_compute. reflexivity.
    + apply B; vm_compute; discriminate.
Defined.

Lemma inputData_writes_only_registered_buffers_witness :
  heap (snd (Client_inputData (Some (log_changed Client)) resp4_frame 12 demo_world)) 1004
  = heap demo_world 1004.
Proof.
  destruct (inputData_writes_only_registered_buffers 64 true resp4_frame 12 demo_world 1004)
    as (A & _).
  destruct A as (_ & _ & H).
  - change (SyncBusClient.m_numSlots (client demo_world)) with 1. lia.
  - apply H. intros i Hi.
    change (SyncBusClient.m_numSlots (client demo_world)) with 1 in Hi.
    assert (i = 0) as -> by lia. intros [_ F]. vm_compute in F. discriminate.
Defined.

Lemma addSlot_then_get_witness :
  fst (Server_addSlot 64 4 2200 3 2 demo_world) = ok /\
  first_clientSlot (server (snd (Server_addSlot 64 4 2200 3 2 demo_world))) 2 0 /\
  exists fr,
    trace (snd (Server_inputData 64 true (Some (log_send Server)) (Some (log_changed Server))
                  get3_frame 8 (snd (Server_addSlot 64 4 2200 3 2 demo_world))))
      = trace demo_world ++ [EvSend Server fr 10] /\
    buf_read fr FrameData 2 = mem_read (heap demo_world) 2200 2.
Proof.
  destruct (addSlot_then_get 64 true 4 4 2200 3 2 demo_world)
    as (A & _ & _ & P & G).
  - lia.
  - exact demo_world_inv.
  - vm_compute. split; congruence.
  - unfold nullptr. lia.
  - unfold is_u8. lia.
  - change (SyncBusServer.m_numSlots (server demo_world)) with 1. lia.
  - unfold HeaderSize. lia.
  - split; [exact A|]. split; [apply (P 2 0 first_clientSlot_demo)|].
    destruct G as [_ G].
    + intros i Hi. change (SyncBusServer.m_numSlots (server demo_world)) with 1 in Hi.
      assert (i = 0) as -> by lia. vm_compute. discriminate.
    + destruct (G get3_frame 8) as (fr & T & _ & B).
      * unfold HeaderSize. lia.
      * unfold HeaderSize. lia.
      * vm_compute. reflexivity.
      * vm_compute. reflexivity.
      * vm_compute. reflexivity.
      * vm_compute. reflexivity.
      * exists fr. split; [exact T|exact B].
Defined.

Lemma addData_then_response_witness :
  fst (Client_addData 64 4 1200 305419896 3 2 demo_world) = ok /\
  mem_read (heap (snd (Client_inputData (Some (log_changed Client)) resp3_frame 10
                         (snd (Client_addData 64 4 1200 305419896 3 2 demo_world))))) 1200 2
  = buf_read resp3_frame FrameData 2.
Proof.
  destruct (addData_then_response 64 4 4 1200 305419896 3 2 demo_world)
    as (A & _ & _ & _ & G).
  - lia.
  - exact demo_world_inv.
  - unfold nullptr. lia.
  - unfold is_u8. lia.
  - change (SyncBusClient.m_numSlots (client demo_world)) with 1. lia.
  - unfold HeaderSize. lia.
  - split; [exact A|].
    destruct G as [_ G].
    + intros i Hi [_ E]. change (SyncBusClient.m_numSlots (client demo_world)) with 1 in Hi.
      assert (i = 0) as -> by lia. vm_compute in E. discriminate.
    + destruct (G resp3_frame 10) as (_ & B).
      * unfold HeaderSize. lia.
      * vm_compute. reflexivity.
      * vm_compute. reflexivity.
      * vm_compute. reflexivity.
      * vm_compute. reflexivity.
      * vm_compute. reflexivity.
      * exact B.
Defined.

Lemma setId_changes_the_filter_witness :
  Server_inputData 64 true (Some (log_send Server)) (Some (log_changed Server))
    get2_frame 8 (Server_setId 286331153 demo_world)
  = (ok, Server_setId 286331153 demo_world) /\
  exists fr,
    trace (snd (Server_inputData 64 true (Some (log_send Server))
                  (Some (log_changed Server)) get2_other_frame 8
                  (Server_setId 286331153 demo_world)))
      = trace demo_world ++ [EvSend Server fr 12] /\
    read_le32 fr FrameServerId = 286331153 /\
    buf_read fr FrameData 4 = [222; 173; 190; 239].
Proof.
  destruct (setId_changes_the_filter 64 true 4 286331153 demo_world)
    as (_ & _ & _ & _ & _ & _ & F & G).
  split.
  - apply F.
    + unfold HeaderSize. lia.
    + vm_compute. reflexivity.
    + vm_compute. discriminate.
  - destruct (G get2_other_frame 8 0) as (fr & T & I & _ & P).
    + lia.
    + exact (proj2 demo_world_inv).
    + unfold is_u32. lia.
    + unfold HeaderSize. lia.
    + vm_compute. reflexivity.
    + vm_compute. reflexivity.
    + vm_compute. reflexivity.
    + split; [change (SyncBusServer.m_numSlots (server demo_world)) with 1; lia|].
      split; [vm_compute; reflexivity|]. intros j Hj. lia.
    + change (clientSlot_t.size (clientSlot (server demo_world) 0)) with 4.
      unfold HeaderSize. lia.
    + exists fr. split; [exact T|]. split; [exact I|exact P].
Defined.

Lemma example_wiring_keeps_invariant_witness :
  world_inv 64 4 4
    (run demo_cfg (wired 64 true)
       [OpServerAddSlot 2000 2 4; OpClientAddData 1000 305419896 2 4;
        OpClientGetData 305419896 0; OpClientSetData 305419896 0]
       demo_initial).
Proof.
  destruct (example_wiring_keeps_invariant 64 true 4 4
              [OpServerAddSlot 2000 2 4; OpClientAddData 1000 305419896 2 4;
               OpClientGetData 305419896 0; OpClientSetData 305419896 0]
              305419896 demo_heap
              (replicate 4 null_serverData) (replicate 4 null_clientSlot)
              (replicate 64 0) (replicate 64 0)
              ltac:(lia) ltac:(lia) eq_refl eq_refl eq_refl eq_refl)
    as (A & _).
  - repeat constructor; unfold is_u8; lia.
  - exact A.
Defined.

Lemma wide_world_client_inv : client_inv 300 4 (client wide_world).
Proof.
  unfold client_inv.
  change (SyncBusClient.m_numSlots (client wide_world)) with 1.
  split; [lia|]. split; [vm_compute; reflexivity|]. split; [vm_compute; reflexivity|].
  change (take (Z.to_nat 1) (SyncBusClient.m_serveSlots (client wide_world)))
    with [serverData_t.mk 1000 305419896 2 250].
  constructor; [|constructor].
  unfold serverData_ok, nullptr, HeaderSize. simpl. lia.
Qed.

Lemma setData_length_wraps_above_255_witness :
  fst (Client_setData 300 (Some (log_send Client)) 305419896 0 wide_world) = ok /\
  exists data,
    trace (snd (Client_setData 300 (Some (log_send Client)) 305419896 0 wide_world))
      = trace wide_world ++ [EvSend Client data 2].
Proof.
  destruct (setData_length_wraps_above_255 300 true 4 305419896 0 wide_world
              wide_world_client_inv)
    as (A & data & T & _).
  - change (SyncBusClient.m_numSlots (client wide_world)) with 1. lia.
  - vm_compute. split; congruence.
  - vm_compute. discriminate.
  - split; [exact A|]. exists data. exact T.
Defined.
